(** * SelfTrainService: a shallow embedding of the self-training scheduler

    The development follows the Python package [SelfTrainService]:
    [config.py], [data_store.py], [feature_extractor.py], [trainer.py] and
    [hybrid_scheduler.py].

    Conventions of the embedding.
    - Python floats and ints are exact rationals ([Q]); rounding, NaN and
      infinities are outside the model.
    - A [datetime] is the number of microseconds since 1970-01-01T00:00:00 on
      the wall clock of the service; file modification times live on the same
      scale.  Every [datetime.now()] of the source is an explicit argument.
    - Python dicts are insertion-ordered association lists with unique keys.
    - Exceptions are values of [result]; functions that mutate the trainer or
      the disk run in the state-and-exception monad [M].
    - scikit-learn, numpy and the ISO-8601 parser are an interface
      ([ExternalLibs]); the code of the package is defined over it. *)

From Stdlib Require Import ZArith QArith Qminmax Qabs List String Ascii Bool Lia Lqa.
From Stdlib Require Import DecimalString.
From Stdlib Require Import Permutation Sorted OrderedTypeEx.
Import ListNotations.

Set Warnings "-register-all".

Local Open Scope string_scope.
Local Open Scope Z_scope.

(* ================================================================= *)
(** ** Python values, exceptions, dictionaries *)

Inductive exn : Type :=
| TypeError
| AttributeError
| ValueError
| KeyError
| ZeroDivisionError
| LibraryError (msg : string).

Inductive result (A : Type) : Type :=
| Ok (a : A)
| Raise (e : exn).
Arguments Ok {A} a.
Arguments Raise {A} e.

Definition rbind {A B} (r : result A) (k : A -> result B) : result B :=
  match r with
  | Ok a => k a
  | Raise e => Raise e
  end.

Notation "'let?' x ':=' r 'in' k" := (rbind r (fun x => k))
  (at level 10, x pattern, r at level 100, k at level 200).

Fixpoint rmap {A B} (f : A -> result B) (l : list A) : result (list B) :=
  match l with
  | [] => Ok []
  | a :: l' =>
      let? b := f a in
      let? bs := rmap f l' in
      Ok (b :: bs)
  end.

(** Values read from JSON documents (and the Python objects built from
    them).  A [PDict] lists the entries of the loaded dict, keys unique. *)
Inductive pyval : Type :=
| PNone
| PBool (b : bool)
| PNum (q : Q)
| PStr (s : string)
| PList (l : list pyval)
| PDict (kv : list (string * pyval)).

Module Dict.
Definition t (V : Type) : Type := list (string * V).

Definition empty {V} : t V := [].

Fixpoint get {V} (d : t V) (k : string) : option V :=
  match d with
  | [] => None
  | (k', v) :: d' => if String.eqb k k' then Some v else get d' k
  end.

Definition get_default {V} (d : t V) (k : string) (dflt : V) : V :=
  match get d k with
  | Some v => v
  | None => dflt
  end.

(** [d[k] = v]: an existing key keeps its position. *)
Fixpoint set {V} (d : t V) (k : string) (v : V) : t V :=
  match d with
  | [] => [(k, v)]
  | (k', v') :: d' =>
      if String.eqb k k' then (k', v) :: d' else (k', v') :: set d' k v
  end.

Definition keys {V} (d : t V) : list string := map fst d.
Definition values {V} (d : t V) : list V := map snd d.
Definition mem {V} (d : t V) (k : string) : bool :=
  match get d k with Some _ => true | None => false end.
Definition is_empty {V} (d : t V) : bool :=
  match d with [] => true | _ => false end.
End Dict.

(** [obj.get(key, default)] on a value that should be a dict. *)
Definition py_get (obj : pyval) (k : string) (dflt : pyval) : result pyval :=
  match obj with
  | PDict kv => Ok (Dict.get_default kv k dflt)
  | _ => Raise AttributeError
  end.

(** Only [None], bools, numbers and strings can be dict keys. *)
Definition hashable (v : pyval) : bool :=
  match v with
  | PList _ | PDict _ => false
  | _ => true
  end.

Definition is_str (v : pyval) (s : string) : bool :=
  match v with
  | PStr s' => String.eqb s' s
  | _ => false
  end.

(** A number, or a bool used as one; anything else makes float arithmetic
    raise [TypeError]. *)
Definition as_number (v : pyval) : result Q :=
  match v with
  | PNum q => Ok q
  | PBool b => Ok (if b then 1%Q else 0%Q)
  | _ => Raise TypeError
  end.

(* ================================================================= *)
(** ** Rationals as floats *)

Definition Qlt_bool (a b : Q) : bool := negb (Qle_bool b a).

(** Python's [max(a, b)] keeps [a] unless [b > a]; [min(a, b)] keeps [a]
    unless [b < a]. *)
Definition py_max (a b : Q) : Q := if Qlt_bool a b then b else a.
Definition py_min (a b : Q) : Q := if Qlt_bool b a then b else a.

Definition Qsum (l : list Q) : Q := fold_left Qplus l 0%Q.

Definition Qlen {A} (l : list A) : Q := inject_Z (Z.of_nat (List.length l)).

(** True division of Python floats (on numpy scalars a zero divisor gives
    inf or nan with a warning instead of the exception). *)
Definition py_div (a b : Q) : result Q :=
  if Qeq_bool b 0 then Raise ZeroDivisionError else Ok (a / b)%Q.

(* ================================================================= *)
(** ** Strings *)

Definition ends_with (suffix s : string) : bool :=
  let n := String.length s in
  let m := String.length suffix in
  (m <=? n)%nat && String.eqb (substring (n - m) m s) suffix.

Fixpoint replace_aux (old new : string) (skip : nat) (s : string) : string :=
  match s with
  | EmptyString => EmptyString
  | String c s' =>
      match skip with
      | S k => replace_aux old new k s'
      | O =>
          if prefix old s
          then new ++ replace_aux old new (String.length old - 1) s'
          else String c (replace_aux old new 0 s')
      end
  end.

(** [s.replace(old, new)] for a non-empty [old]. *)
Definition str_replace (old new s : string) : string := replace_aux old new 0 s.

Definition str_of_Z (z : Z) : string := NilZero.string_of_int (Z.to_int z).

(** Zero-padded decimal of a non-negative number, at least [width] digits. *)
Fixpoint zeros (n : nat) : string :=
  match n with
  | O => EmptyString
  | S k => String "0" (zeros k)
  end.

Definition pad_left (width : nat) (s : string) : string :=
  zeros (width - String.length s) ++ s.

Definition digits (width : nat) (z : Z) : string := pad_left width (str_of_Z z).

(** Rounding to the nearest integer, ties to even, as float formatting
    rounds the exact value. *)
Definition round_half_even (q : Q) : Z :=
  let n := Qnum q in
  let d := Zpos (Qden q) in
  let fl := n / d in
  let r2 := 2 * (n mod d) in
  if r2 <? d then fl
  else if d <? r2 then fl + 1
  else if Z.even fl then fl else fl + 1.

(** [f"{q:.2f}"]. *)
Definition fmt2 (q : Q) : string :=
  let n := Z.abs (round_half_even (q * 100)) in
  (if Qlt_bool q 0 then "-" else "")
    ++ str_of_Z (n / 100) ++ "." ++ digits 2 (n mod 100).

(* ================================================================= *)
(** ** Dates *)

Definition datetime : Type := Z.

Definition usec_per_sec : Z := 1000000.
Definition usec_per_day : Z := 86400 * usec_per_sec.

Definition dt_days (t : datetime) : Z := t / usec_per_day.
Definition dt_secs_of_day (t : datetime) : Z := (t mod usec_per_day) / usec_per_sec.
Definition dt_hour (t : datetime) : Z := dt_secs_of_day t / 3600.
Definition dt_minute (t : datetime) : Z := (dt_secs_of_day t / 60) mod 60.
Definition dt_second (t : datetime) : Z := dt_secs_of_day t mod 60.
Definition dt_microsecond (t : datetime) : Z := t mod usec_per_sec.

(** Monday is 0; 1970-01-01 was a Thursday. *)
Definition dt_weekday (t : datetime) : Z := (dt_days t + 3) mod 7.

(** Year, month and day of a day count (proleptic Gregorian calendar). *)
Definition civil_from_days (days : Z) : Z * Z * Z :=
  let z := days + 719468 in
  let era := z / 146097 in
  let doe := z - era * 146097 in
  let yoe := (doe - doe / 1460 + doe / 36524 - doe / 146096) / 365 in
  let doy := doe - (365 * yoe + yoe / 4 - yoe / 100) in
  let mp := (5 * doy + 2) / 153 in
  let d := doy - (153 * mp + 2) / 5 + 1 in
  let m := if mp <? 10 then mp + 3 else mp - 9 in
  let y := yoe + era * 400 + (if m <=? 2 then 1 else 0) in
  (y, m, d).

(** [t.strftime("%Y%m%d_%H%M%S")] (years 1000 to 9999). *)
Definition strftime_stamp (t : datetime) : string :=
  let '(y, m, d) := civil_from_days (dt_days t) in
  digits 4 y ++ digits 2 m ++ digits 2 d ++ "_"
    ++ digits 2 (dt_hour t) ++ digits 2 (dt_minute t) ++ digits 2 (dt_second t).

(** [t.isoformat()]. *)
Definition isoformat (t : datetime) : string :=
  let '(y, m, d) := civil_from_days (dt_days t) in
  digits 4 y ++ "-" ++ digits 2 m ++ "-" ++ digits 2 d ++ "T"
    ++ digits 2 (dt_hour t) ++ ":" ++ digits 2 (dt_minute t) ++ ":"
    ++ digits 2 (dt_second t)
    ++ (if dt_microsecond t =? 0 then "" else "." ++ digits 6 (dt_microsecond t)).

(** [(a - b).total_seconds()]. *)
Definition total_seconds (a b : datetime) : Q := inject_Z (a - b) / inject_Z usec_per_sec.

(* ================================================================= *)
(** ** Python sequences *)

(** [l[:k]] and [l[k:]] with Python's negative indices. *)
Definition slice_to {A} (l : list A) (k : Z) : list A :=
  if 0 <=? k then firstn (Z.to_nat k) l
  else firstn (Z.to_nat (Z.of_nat (List.length l) + k)) l.

Definition slice_from {A} (l : list A) (k : Z) : list A :=
  if 0 <=? k then skipn (Z.to_nat k) l
  else skipn (Z.to_nat (Z.of_nat (List.length l) + k)) l.

Fixpoint rfold {A S} (f : S -> A -> result S) (l : list A) (s : S) : result S :=
  match l with
  | [] => Ok s
  | a :: l' =>
      let? s' := f s a in
      rfold f l' s'
  end.

Definition py_len (v : pyval) : result Z :=
  match v with
  | PList l => Ok (Z.of_nat (List.length l))
  | PStr s => Ok (Z.of_nat (String.length s))
  | PDict kv => Ok (Z.of_nat (List.length kv))
  | _ => Raise TypeError
  end.

Fixpoint chars (s : string) : list pyval :=
  match s with
  | EmptyString => []
  | String c s' => PStr (String c EmptyString) :: chars s'
  end.

(** What a [for] loop over the value visits. *)
Definition py_iter (v : pyval) : result (list pyval) :=
  match v with
  | PList l => Ok l
  | PStr s => Ok (chars s)
  | PDict kv => Ok (map (fun p => PStr (fst p)) kv)
  | _ => Raise TypeError
  end.

(** Truth value of an object. *)
Definition truthy (v : pyval) : bool :=
  match v with
  | PNone => false
  | PBool b => b
  | PNum q => negb (Qeq_bool q 0)
  | PStr s => negb (String.eqb s "")
  | PList l => negb (Nat.eqb (List.length l) 0)
  | PDict kv => negb (Nat.eqb (List.length kv) 0)
  end.

(** Equality of two hashable objects used as dict keys. *)
Definition key_eqb (a b : pyval) : bool :=
  match a, b with
  | PNone, PNone => true
  | PStr s, PStr t => String.eqb s t
  | PNum x, PNum y => Qeq_bool x y
  | PNum x, PBool c => Qeq_bool x (if c then 1 else 0)
  | PBool c, PNum y => Qeq_bool (if c then 1 else 0) y
  | PBool c, PBool d => Bool.eqb c d
  | _, _ => false
  end.

(** The builtin [sum] of numbers, starting from the int 0. *)
Definition py_sum (l : list pyval) : result Q :=
  rfold (fun acc v => let? x := as_number v in Ok (acc + x)%Q) l 0%Q.

(* ================================================================= *)
(** ** config.py *)

Record TrainingConfig : Type := {
  RETRAIN_INTERVAL_HOURS : Z;
  MIN_SCHEDULES_FOR_TRAINING : Z;
  MIN_SCHEDULES_FOR_RETRAIN : Z;
  MODEL_VERSION : string;
  MODEL_TYPES : list string;
  USE_ENSEMBLE : bool;
  ENSEMBLE_TOP_N : Z;
  DATA_DIR : string;
  MODEL_DIR : string;
  TRAIN_TEST_SPLIT : Q;
  EPOCHS : Z;
  LEARNING_RATE : Q;
  FEATURES : list string;
  TARGET : string;
  USE_HYBRID : bool;
  ML_CONFIDENCE_THRESHOLD : Q
}.

(** The list [__post_init__] installs when [FEATURES] is [None]. *)
Definition default_features : list string :=
  [ "num_trains"; "num_available"; "avg_readiness_score"; "total_mileage";
    "mileage_variance"; "maintenance_count"; "certificate_expiry_count";
    "branding_priority_sum"; "time_of_day"; "day_of_week" ].

Definition default_model_types : list string :=
  [ "gradient_boosting"; "random_forest"; "xgboost"; "lightgbm"; "catboost" ].

(** [CONFIG = TrainingConfig()]. *)
Definition CONFIG : TrainingConfig := {|
  RETRAIN_INTERVAL_HOURS := 48;
  MIN_SCHEDULES_FOR_TRAINING := 100;
  MIN_SCHEDULES_FOR_RETRAIN := 50;
  MODEL_VERSION := "v1.0.0";
  MODEL_TYPES := default_model_types;
  USE_ENSEMBLE := true;
  ENSEMBLE_TOP_N := 3;
  DATA_DIR := "data/schedules";
  MODEL_DIR := "models";
  TRAIN_TEST_SPLIT := 2 # 10;
  EPOCHS := 100;
  LEARNING_RATE := 1 # 1000;
  FEATURES := default_features;
  TARGET := "schedule_quality_score";
  USE_HYBRID := true;
  ML_CONFIDENCE_THRESHOLD := 75 # 100
|}.

(* ================================================================= *)
(** ** Estimators and the libraries behind the package *)

(** An unfitted regressor, as [_get_model] builds it. *)
Inductive Regressor : Type :=
| GradientBoostingRegressor (n_estimators : Z) (learning_rate : Q) (random_state : Z)
| RandomForestRegressor (n_estimators : Z) (random_state : Z) (n_jobs : Z)
| XGBRegressor (n_estimators : Z) (learning_rate : Q) (random_state : Z)
| LGBMRegressor (n_estimators : Z) (learning_rate : Q) (random_state : Z)
| CatBoostRegressor (iterations : Z) (learning_rate : Q) (random_state : Z).

(** A fitted model: what [model.predict] answers on one row. *)
Record Estimator : Type := { est_predict : list pyval -> result Q }.

Definition matrix : Type := list (list Q).

Class ExternalLibs : Type := {
  (* numpy *)
  np_mean : list pyval -> result Q;
  np_min : list pyval -> result Q;
  np_var : list pyval -> result Q;
  np_std : list Q -> Q;
  np_sqrt : Q -> Q;
  (* datetime.fromisoformat; [None] stands for its ValueError *)
  fromisoformat : string -> option datetime;
  (* str() of a float, and of an object that is not a string *)
  float_repr : Q -> string;
  format_value : pyval -> string;
  (* scikit-learn and the boosting libraries, random_state fixed *)
  train_test_split :
    matrix -> list Q -> Q -> result (matrix * matrix * list Q * list Q);
  fit : Regressor -> matrix -> list Q -> result Estimator;
  r2_score : list Q -> list Q -> result Q;
  mean_squared_error : list Q -> list Q -> result Q
}.

(** [model.predict(X)] on a matrix of floats. *)
Definition predict_rows (m : Estimator) (X : matrix) : result (list Q) :=
  rmap (fun row => est_predict m (map PNum row)) X.

(* ================================================================= *)
(** ** data_store.py *)

(** A file of the data directory; [f_data = None] is a file [json.load]
    fails on. *)
Record file : Type := {
  f_name : string;
  f_mtime : Z;
  f_data : option pyval
}.

Definition directory : Type := list file.

Fixpoint write_file (dir : directory) (f : file) : directory :=
  match dir with
  | [] => [f]
  | g :: dir' =>
      if String.eqb (f_name g) (f_name f) then f :: dir' else g :: write_file dir' f
  end.

(** Deleting a file; a failure to delete is outside the model. *)
Definition unlink (dir : directory) (name : string) : directory :=
  filter (fun g => negb (String.eqb (f_name g) name)) dir.

(** [data_dir.glob("*.json")], in directory order. *)
Definition glob_json (dir : directory) : list file :=
  filter (fun f => ends_with ".json" (f_name f)) dir.

(** [sorted(paths, reverse=True)]: descending by path, stable. *)
Fixpoint insert_desc (f : file) (l : list file) : list file :=
  match l with
  | [] => [f]
  | g :: l' =>
      if String.ltb (f_name f) (f_name g) then g :: insert_desc f l' else f :: l
  end.

Definition sorted_reverse (l : list file) : list file :=
  fold_right insert_desc [] l.

(** Reading a batch: a file that fails to load is reported and skipped. *)
Definition read_all (files : list file) : list pyval :=
  flat_map (fun f => match f_data f with Some d => [d] | None => [] end) files.

Module ScheduleDataStore.

(** [save_schedule], for a schedule id that gives a plain file name: the
    file is written into the data directory, and the write does not fail.
    With an id that holds a path separator or a NUL, or that is too long,
    [open] raises or the path leaves the directory; such ids are outside
    the model, and the statements about saving name them out. *)
Definition save_schedule `{ExternalLibs} (cfg : TrainingConfig)
    (now now' : datetime) (schedule : pyval) (metadata : option pyval)
    (dir : directory) : result (string * directory) :=
  let timestamp := strftime_stamp now in
  let? schedule_id :=
    py_get schedule "schedule_id" (PStr ("schedule_" ++ timestamp)) in
  let id_text :=
    match schedule_id with PStr s => s | v => format_value v end in
  let filename := id_text ++ "_" ++ timestamp ++ ".json" in
  let meta :=
    match metadata with
    | Some m => if truthy m then m else PDict []
    | None => PDict []
    end in
  let data :=
    PDict [ ("schedule", schedule); ("metadata", meta);
            ("saved_at", PStr (isoformat now')) ] in
  Ok (DATA_DIR cfg ++ "/" ++ filename,
      write_file dir {| f_name := filename; f_mtime := now'; f_data := Some data |}).

Definition load_schedules (limit : option Z) (dir : directory) : list pyval :=
  let files := sorted_reverse (glob_json dir) in
  let files :=
    match limit with
    | Some n => if n =? 0 then files else slice_to files n
    | None => files
    end in
  read_all files.

Definition count_schedules (dir : directory) : Z :=
  Z.of_nat (List.length (glob_json dir)).

Definition get_schedules_since (since : datetime) (dir : directory) : list pyval :=
  read_all (filter (fun f => since <? f_mtime f) (glob_json dir)).

Definition clear_old_schedules (keep_count : Z) (dir : directory) : directory :=
  let files := sorted_reverse (glob_json dir) in
  fold_left (fun d f => unlink d (f_name f)) (slice_from files keep_count) dir.

End ScheduleDataStore.

(* ================================================================= *)
(** ** feature_extractor.py *)

Module FeatureExtractor.
Section WithLibs.
Context `{ExternalLibs}.

(** [status_counts[status] = status_counts.get(status, 0) + 1]. *)
Fixpoint counter_incr (counts : list (pyval * Z)) (k : pyval) : list (pyval * Z) :=
  match counts with
  | [] => [(k, 1)]
  | (k', n) :: counts' =>
      if key_eqb k k' then (k', n + 1) :: counts'
      else (k', n) :: counter_incr counts' k
  end.

Fixpoint counter_get (counts : list (pyval * Z)) (k : pyval) : Z :=
  match counts with
  | [] => 0
  | (k', n) :: counts' => if key_eqb k k' then n else counter_get counts' k
  end.

Definition count_status (counts : list (pyval * Z)) (train : pyval)
  : result (list (pyval * Z)) :=
  let? status := py_get train "status" (PStr "UNKNOWN") in
  if hashable status then Ok (counter_incr counts status) else Raise TypeError.

(** The inner loop over one trainset's certificates. *)
Definition cert_issue (cert_data : pyval) : Z :=
  match cert_data with
  | PDict kv =>
      let status := Dict.get_default kv "status" (PStr "VALID") in
      if is_str status "EXPIRED" || is_str status "EXPIRING_SOON" then 1 else 0
  | _ => 0
  end.

Definition count_certificates (issues : Z) (train : pyval) : result Z :=
  let? certs := py_get train "fitness_certificates" (PDict []) in
  match certs with
  | PDict kv => Ok (fold_left (fun n p => n + cert_issue (snd p)) kv issues)
  | _ => Raise AttributeError
  end.

Definition priority_map : list (pyval * Z) :=
  [ (PStr "CRITICAL", 4); (PStr "HIGH", 3); (PStr "MEDIUM", 2);
    (PStr "LOW", 1); (PStr "NONE", 0) ].

Definition add_branding (score : Z) (train : pyval) : result Z :=
  let? branding := py_get train "branding" (PDict []) in
  match branding with
  | PDict kv =>
      let priority := Dict.get_default kv "exposure_priority" (PStr "NONE") in
      if hashable priority then Ok (score + counter_get priority_map priority)
      else Raise TypeError
  | _ => Ok score
  end.

(** The [try] block of the time features; the bare [except] catches
    everything. *)
Definition time_features (schedule : pyval) : Z * Z :=
  match py_get schedule "generated_at" (PStr "") with
  | Ok (PStr s) =>
      match fromisoformat (str_replace "+05:30" "" s) with
      | Some generated_at => (dt_hour generated_at, dt_weekday generated_at)
      | None => (12, 0)
      end
  | _ => (12, 0)
  end.

Definition extract_from_schedule (schedule : pyval) : result (Dict.t Q) :=
  let features := Dict.empty in
  (* Basic counts *)
  let? trainsets_obj := py_get schedule "trainsets" (PList []) in
  let? n := py_len trainsets_obj in
  let features := Dict.set features "num_trains" (inject_Z n) in
  let? trainsets := py_iter trainsets_obj in
  (* Status counts *)
  let? status_counts := rfold count_status trainsets [] in
  let features := Dict.set features "num_available"
    (inject_Z (counter_get status_counts (PStr "REVENUE_SERVICE")
               + counter_get status_counts (PStr "STANDBY"))) in
  let features := Dict.set features "maintenance_count"
    (inject_Z (counter_get status_counts (PStr "MAINTENANCE"))) in
  (* Readiness scores *)
  let? readiness_scores :=
    rmap (fun t => py_get t "readiness_score" (PNum 0)) trainsets in
  let? avg_readiness :=
    match readiness_scores with [] => Ok 0%Q | _ => np_mean readiness_scores end in
  let features := Dict.set features "avg_readiness_score" avg_readiness in
  let? min_readiness :=
    match readiness_scores with [] => Ok 0%Q | _ => np_min readiness_scores end in
  let features := Dict.set features "min_readiness_score" min_readiness in
  (* Mileage statistics *)
  let? mileages := rmap (fun t => py_get t "cumulative_km" (PNum 0)) trainsets in
  let? features :=
    match mileages with
    | [] =>
        Ok (Dict.set (Dict.set (Dict.set features "total_mileage" 0%Q)
                        "avg_mileage" 0%Q) "mileage_variance" 0%Q)
    | _ =>
        let? total := py_sum mileages in
        let features := Dict.set features "total_mileage" total in
        let? avg := np_mean mileages in
        let features := Dict.set features "avg_mileage" avg in
        let? var := np_var mileages in
        Ok (Dict.set features "mileage_variance" var)
    end in
  (* Certificate expiry *)
  let? certificate_issues := rfold count_certificates trainsets 0 in
  let features :=
    Dict.set features "certificate_expiry_count" (inject_Z certificate_issues) in
  (* Branding priority *)
  let? branding_score := rfold add_branding trainsets 0 in
  let features :=
    Dict.set features "branding_priority_sum" (inject_Z branding_score) in
  (* Time features *)
  let '(hour, weekday) := time_features schedule in
  let features := Dict.set features "time_of_day" (inject_Z hour) in
  let features := Dict.set features "day_of_week" (inject_Z weekday) in
  Ok features.

Definition calculate_target (schedule : pyval) : result Q :=
  let? metrics := py_get schedule "optimization_metrics" (PDict []) in
  let score := 0%Q in
  (* Component 1: Readiness *)
  let? v := py_get metrics "avg_readiness_score" (PNum 0) in
  let? avg_readiness := as_number v in
  let score := (score + avg_readiness * 30)%Q in
  (* Component 2: Availability *)
  let? fleet_summary := py_get schedule "fleet_summary" (PDict []) in
  let? v := py_get fleet_summary "availability_percent" (PNum 0) in
  let? availability := as_number v in
  let score := (score + (availability / 100) * 25)%Q in
  (* Component 3: Mileage balance *)
  let? v := py_get metrics "mileage_variance_coefficient" (PNum 1) in
  let? mileage_var := as_number v in
  let score := (score + py_max 0 ((1 - mileage_var) * 20))%Q in
  (* Component 4: Branding compliance *)
  let? v := py_get metrics "branding_sla_compliance" (PNum 0) in
  let? branding_sla := as_number v in
  let score := (score + branding_sla * 15)%Q in
  (* Component 5: No violations *)
  let? v := py_get metrics "fitness_expiry_violations" (PNum 0) in
  let? violations := as_number v in
  let score := (score + py_max 0 (10 - violations * 2))%Q in
  Ok (py_min 100 score).

(** One pass of the loop body inside [try]; [None] is the [except] branch. *)
Definition try_extract (cfg : TrainingConfig) (schedule : pyval)
  : option (list Q * Q) :=
  match extract_from_schedule schedule with
  | Ok features =>
      match calculate_target schedule with
      | Ok target =>
          Some (map (fun f => Dict.get_default features f 0%Q) (FEATURES cfg), target)
      | Raise _ => None
      end
  | Raise _ => None
  end.

Fixpoint prepare_dataset (cfg : TrainingConfig) (schedules : list pyval)
  : result (matrix * list Q) :=
  match schedules with
  | [] => Ok ([], [])
  | schedule_data :: rest =>
      let? schedule := py_get schedule_data "schedule" schedule_data in
      let? (X, y) := prepare_dataset cfg rest in
      match try_extract cfg schedule with
      | Some (feature_vector, target) => Ok (feature_vector :: X, target :: y)
      | None => Ok (X, y)
      end
  end.

End WithLibs.
End FeatureExtractor.

(* ================================================================= *)
(** ** trainer.py: state *)

Record Metrics : Type := {
  train_r2 : Q;
  test_r2 : Q;
  train_rmse : Q;
  test_rmse : Q
}.

Record HistoryEntry : Type := {
  h_timestamp : string;
  h_metrics : Dict.t Metrics;
  h_best_model : option string;
  h_ensemble_weights : Dict.t Q;
  h_models_trained : list string;
  h_version : string
}.

(** The dict [save_model] pickles. *)
Record ModelData : Type := {
  md_models : Dict.t Estimator;
  md_ensemble_weights : Dict.t Q;
  md_best_model_name : option string;
  md_last_trained : option datetime;
  md_version : string;
  md_features : list string;
  md_models_trained : list string
}.

(** A file of the model directory.  [Unreadable] is any content on which
    [pickle.load] or [model_data["models"]] raises. *)
Inductive blob : Type :=
| Unreadable
| Pickled (model_data : ModelData).

Record Disk : Type := {
  data_dir : directory;
  model_dir : Dict.t blob;
  history_file : option (list HistoryEntry)
}.

(** The attributes of a [ModelTrainer]. *)
Record ModelTrainer : Type := {
  models : Dict.t Estimator;
  model_scores : Dict.t Q;
  ensemble_weights : Dict.t Q;
  best_model_name : option string;
  last_trained : option datetime;
  training_history : list HistoryEntry
}.

(** [ModelTrainer.__init__]. *)
Definition new_trainer : ModelTrainer := {|
  models := Dict.empty;
  model_scores := Dict.empty;
  ensemble_weights := Dict.empty;
  best_model_name := None;
  last_trained := None;
  training_history := []
|}.

Definition set_models (v : Dict.t Estimator) (s : ModelTrainer) : ModelTrainer :=
  {| models := v; model_scores := model_scores s;
     ensemble_weights := ensemble_weights s; best_model_name := best_model_name s;
     last_trained := last_trained s; training_history := training_history s |}.

Definition set_model_scores (v : Dict.t Q) (s : ModelTrainer) : ModelTrainer :=
  {| models := models s; model_scores := v;
     ensemble_weights := ensemble_weights s; best_model_name := best_model_name s;
     last_trained := last_trained s; training_history := training_history s |}.

Definition set_ensemble_weights (v : Dict.t Q) (s : ModelTrainer) : ModelTrainer :=
  {| models := models s; model_scores := model_scores s;
     ensemble_weights := v; best_model_name := best_model_name s;
     last_trained := last_trained s; training_history := training_history s |}.

Definition set_best_model_name (v : option string) (s : ModelTrainer) : ModelTrainer :=
  {| models := models s; model_scores := model_scores s;
     ensemble_weights := ensemble_weights s; best_model_name := v;
     last_trained := last_trained s; training_history := training_history s |}.

Definition set_last_trained (v : option datetime) (s : ModelTrainer) : ModelTrainer :=
  {| models := models s; model_scores := model_scores s;
     ensemble_weights := ensemble_weights s; best_model_name := best_model_name s;
     last_trained := v; training_history := training_history s |}.

Definition set_training_history (v : list HistoryEntry) (s : ModelTrainer) : ModelTrainer :=
  {| models := models s; model_scores := model_scores s;
     ensemble_weights := ensemble_weights s; best_model_name := best_model_name s;
     last_trained := last_trained s; training_history := v |}.

Definition set_model_dir (v : Dict.t blob) (d : Disk) : Disk :=
  {| data_dir := data_dir d; model_dir := v; history_file := history_file d |}.

Definition set_history_file (v : option (list HistoryEntry)) (d : Disk) : Disk :=
  {| data_dir := data_dir d; model_dir := model_dir d; history_file := v |}.

(** The trainer object together with the disk it works on. *)
Record World : Type := {
  self : ModelTrainer;
  disk : Disk
}.

(** Computations that mutate the world and may raise; the world at the
    moment of the [raise] is kept, as Python keeps it. *)
Definition M (A : Type) : Type := World -> result A * World.

Definition ret {A} (a : A) : M A := fun w => (Ok a, w).

Definition bind {A B} (m : M A) (k : A -> M B) : M B :=
  fun w =>
    match m w with
    | (Ok a, w') => k a w'
    | (Raise e, w') => (Raise e, w')
    end.

Definition lift {A} (r : result A) : M A := fun w => (r, w).

Definition get_self : M ModelTrainer := fun w => (Ok (self w), w).
Definition get_disk : M Disk := fun w => (Ok (disk w), w).

Definition modify_self (f : ModelTrainer -> ModelTrainer) : M unit :=
  fun w => (Ok tt, {| self := f (self w); disk := disk w |}).

Definition modify_disk (f : Disk -> Disk) : M unit :=
  fun w => (Ok tt, {| self := self w; disk := f (disk w) |}).

Declare Scope monad_scope.
Delimit Scope monad_scope with monad.
Notation "x <- m ;; k" := (bind m (fun x => k))
  (at level 61, m at next level, right associativity) : monad_scope.
Notation "m ;; k" := (bind m (fun _ => k))
  (at level 61, right associativity) : monad_scope.

Fixpoint foldM {A S} (f : S -> A -> M S) (l : list A) (s : S) : M S :=
  match l with
  | [] => ret s
  | a :: l' => bind (f s a) (foldM f l')
  end.

(** The dict a call of [train] returns. *)
Inductive TrainResult : Type :=
| TrainSkipped (reason : string)
| TrainFailed (error : string)
| TrainSuccess (models_trained : list string) (best_model : option string)
    (metrics : Dict.t Metrics) (weights : Dict.t Q) (samples_used : Z)
    (timestamp : string).

Definition success (r : TrainResult) : bool :=
  match r with
  | TrainSuccess _ _ _ _ _ _ => true
  | _ => false
  end.

Record ModelInfo : Type := {
  models_loaded : list string;
  info_best_model : option string;
  ensemble_enabled : bool;
  info_ensemble_weights : Dict.t Q;
  info_last_trained : option string;
  info_should_retrain : bool;
  schedules_available : Z;
  training_runs : Z
}.

(** [max(items, key=lambda x: x[1])[0]]: the first item of maximal score. *)
Fixpoint max_by_score (best : string * Q) (items : list (string * Q)) : string * Q :=
  match items with
  | [] => best
  | item :: items' =>
      max_by_score (if Qlt_bool (snd best) (snd item) then item else best) items'
  end.

Definition argmax_score (scores : Dict.t Q) : option string :=
  match scores with
  | [] => None
  | item :: items => Some (fst (max_by_score item items))
  end.

(* ================================================================= *)
(** ** trainer.py: ModelTrainer *)

Module Trainer.
Section WithLibs.
Context `{ExternalLibs}.
Variable cfg : TrainingConfig.

Local Open Scope monad_scope.

Definition _get_model (model_name : string) : option Regressor :=
  if String.eqb model_name "gradient_boosting" then
    Some (GradientBoostingRegressor (EPOCHS cfg) (LEARNING_RATE cfg) 42)
  else if String.eqb model_name "random_forest" then
    Some (RandomForestRegressor (EPOCHS cfg) 42 (-1))
  else if String.eqb model_name "xgboost" then
    Some (XGBRegressor (EPOCHS cfg) (LEARNING_RATE cfg) 42)
  else if String.eqb model_name "lightgbm" then
    Some (LGBMRegressor (EPOCHS cfg) (LEARNING_RATE cfg) 42)
  else if String.eqb model_name "catboost" then
    Some (CatBoostRegressor (EPOCHS cfg) (LEARNING_RATE cfg) 42)
  else None.

Definition hours_since (now last : datetime) : Q :=
  (total_seconds now last / 3600)%Q.

Definition should_retrain (now : datetime) (s : ModelTrainer) (dir : directory)
  : bool :=
  match last_trained s with
  | None => true
  | Some last =>
      if Qle_bool (inject_Z (RETRAIN_INTERVAL_HOURS cfg)) (hours_since now last)
      then
        let new_schedules := ScheduleDataStore.get_schedules_since last dir in
        MIN_SCHEDULES_FOR_RETRAIN cfg <=? Z.of_nat (List.length new_schedules)
      else false
  end.

(** [save_model]; a failing [open] or [pickle.dump] is outside the model. *)
Definition save_model (now : datetime) : M unit :=
  s <- get_self ;;
  if Dict.is_empty (models s) then ret tt
  else
    let timestamp := strftime_stamp now in
    let model_path := "models_" ++ timestamp ++ ".pkl" in
    let latest_path := "models_latest.pkl" in
    let model_data := Pickled {|
      md_models := models s;
      md_ensemble_weights := ensemble_weights s;
      md_best_model_name := best_model_name s;
      md_last_trained := last_trained s;
      md_version := MODEL_VERSION cfg;
      md_features := FEATURES cfg;
      md_models_trained := Dict.keys (models s) |} in
    modify_disk (fun d => set_model_dir (Dict.set (model_dir d) model_path model_data) d) ;;
    modify_disk (fun d => set_model_dir (Dict.set (model_dir d) latest_path model_data) d).

Definition load_model : M bool :=
  d <- get_disk ;;
  match Dict.get (model_dir d) "models_latest.pkl" with
  | None => ret false
  | Some Unreadable => ret false
  | Some (Pickled model_data) =>
      modify_self (set_models (md_models model_data)) ;;
      modify_self (set_ensemble_weights (md_ensemble_weights model_data)) ;;
      modify_self (set_best_model_name (md_best_model_name model_data)) ;;
      modify_self (set_last_trained (md_last_trained model_data)) ;;
      ret true
  end.

(** [_save_history]; a failing [open] or [json.dump] is outside the model. *)
Definition _save_history : M unit :=
  s <- get_self ;;
  modify_disk (set_history_file (Some (training_history s))).

(** The body of the loop over [CONFIG.MODEL_TYPES]. *)
Definition train_model (X_train X_test : matrix) (y_train y_test : list Q)
    (all_metrics : Dict.t Metrics) (model_name : string) : M (Dict.t Metrics) :=
  match _get_model model_name with
  | None => ret all_metrics
  | Some model =>
      fitted <- lift (fit model X_train y_train) ;;
      train_pred <- lift (predict_rows fitted X_train) ;;
      test_pred <- lift (predict_rows fitted X_test) ;;
      train_r2 <- lift (r2_score y_train train_pred) ;;
      test_r2 <- lift (r2_score y_test test_pred) ;;
      test_mse <- lift (mean_squared_error y_test test_pred) ;;
      let test_rmse := np_sqrt test_mse in
      modify_self (fun s => set_models (Dict.set (models s) model_name fitted) s) ;;
      modify_self (fun s => set_model_scores (Dict.set (model_scores s) model_name test_r2) s) ;;
      train_mse <- lift (mean_squared_error y_train train_pred) ;;
      ret (Dict.set all_metrics model_name
             {| train_r2 := train_r2; test_r2 := test_r2;
                train_rmse := np_sqrt train_mse; test_rmse := test_rmse |})
  end.

(** [{name: score / total_score for name, score in scores.items()}]. *)
Definition normalise (scores : Dict.t Q) : result (Dict.t Q) :=
  let total_score := Qsum (Dict.values scores) in
  rmap (fun item => let? w := py_div (snd item) total_score in Ok (fst item, w)) scores.

Definition compute_ensemble_weights : M unit :=
  s <- get_self ;;
  if USE_ENSEMBLE cfg && (1 <? List.length (models s))%nat then
    weights <- lift (normalise (model_scores s)) ;;
    modify_self (set_ensemble_weights weights)
  else
    modify_self (set_ensemble_weights Dict.empty).

Definition not_enough_data (have : Z) : string :=
  "Not enough data. Need " ++ str_of_Z (MIN_SCHEDULES_FOR_TRAINING cfg)
    ++ ", have " ++ str_of_Z have.

Definition train (t_check t_done t_save : datetime) (force : bool) : M TrainResult :=
  s <- get_self ;;
  d <- get_disk ;;
  if negb force && negb (should_retrain t_check s (data_dir d)) then
    ret (TrainSkipped "Retraining not needed yet")
  else
    (* Load data *)
    let schedules := ScheduleDataStore.load_schedules None (data_dir d) in
    let have := Z.of_nat (List.length schedules) in
    if have <? MIN_SCHEDULES_FOR_TRAINING cfg then
      ret (TrainSkipped (not_enough_data have))
    else
      (* Prepare dataset *)
      ds <- lift (FeatureExtractor.prepare_dataset cfg schedules) ;;
      let '(X, y) := ds in
      if (List.length X =? 0)%nat then
        ret (TrainFailed "No valid features extracted")
      else
        (* Split data *)
        split <- lift (train_test_split X y (TRAIN_TEST_SPLIT cfg)) ;;
        let '(X_train, X_test, y_train, y_test) := split in
        (* Train all models *)
        modify_self (set_models Dict.empty) ;;
        modify_self (set_model_scores Dict.empty) ;;
        all_metrics <-
          foldM (train_model X_train X_test y_train y_test) (MODEL_TYPES cfg) Dict.empty ;;
        (* Compute ensemble weights based on performance *)
        compute_ensemble_weights ;;
        (* Find best model *)
        s <- get_self ;;
        (match argmax_score (model_scores s) with
         | Some name => modify_self (set_best_model_name (Some name))
         | None => ret tt
         end) ;;
        (* Save model *)
        modify_self (set_last_trained (Some t_done)) ;;
        save_model t_save ;;
        (* Record training history *)
        s <- get_self ;;
        let history_entry := {|
          h_timestamp := isoformat t_done;
          h_metrics := all_metrics;
          h_best_model := best_model_name s;
          h_ensemble_weights := ensemble_weights s;
          h_models_trained := Dict.keys (models s);
          h_version := MODEL_VERSION cfg |} in
        modify_self (set_training_history (training_history s ++ [history_entry])) ;;
        _save_history ;;
        ret (TrainSuccess (Dict.keys (models s)) (best_model_name s) all_metrics
               (ensemble_weights s) (Z.of_nat (List.length X)) (isoformat t_done)).

(** The ensemble branch of [predict]. *)
Definition weighted_prediction (ms : Dict.t Estimator) (weights : Dict.t Q)
    (feature_vector : list pyval) : result Q :=
  rfold (fun prediction item =>
           match Dict.get ms (fst item) with
           | Some model =>
               let? pred := est_predict model feature_vector in
               Ok (prediction + snd item * pred)%Q
           | None => Ok prediction
           end) weights 0%Q.

Definition ensemble_confidence (predictions : list Q) : Q :=
  let std_dev := np_std predictions in
  py_max (5 # 10) (py_min 1 (1 - std_dev / 50)).

Definition single_confidence (prediction : Q) : Q :=
  py_min 1 ((8 # 10) + (prediction / 100) * (2 # 10)).

Definition predict (features : Dict.t pyval) (use_ensemble : bool) : M (Q * Q) :=
  s <- get_self ;;
  (if Dict.is_empty (models s) then load_model ;; ret tt else ret tt) ;;
  s <- get_self ;;
  if Dict.is_empty (models s) then ret (0%Q, 0%Q)
  else
    (* Convert features to vector *)
    let feature_vector :=
      map (fun f => Dict.get_default features f (PNum 0)) (FEATURES cfg) in
    if use_ensemble && USE_ENSEMBLE cfg && negb (Dict.is_empty (ensemble_weights s)) then
      (* Ensemble prediction *)
      prediction <-
        lift (weighted_prediction (models s) (ensemble_weights s) feature_vector) ;;
      (* Confidence based on ensemble agreement *)
      predictions <-
        lift (rmap (fun m => est_predict m feature_vector) (Dict.values (models s))) ;;
      ret (prediction, ensemble_confidence predictions)
    else
      (* Use best single model *)
      let best_model :=
        match best_model_name s with
        | Some name => Dict.get (models s) name
        | None => None
        end in
      let best_model :=
        match best_model with
        | Some m => Some m
        | None => hd_error (Dict.values (models s))
        end in
      match best_model with
      | Some m =>
          prediction <- lift (est_predict m feature_vector) ;;
          ret (prediction, single_confidence prediction)
      | None => lift (Raise (LibraryError "IndexError"))
      end.

(** The dict [get_model_info] returns. *)
Definition get_model_info (now : datetime) : M ModelInfo :=
  s <- get_self ;;
  (if Dict.is_empty (models s) then load_model ;; ret tt else ret tt) ;;
  s <- get_self ;;
  d <- get_disk ;;
  ret {| models_loaded := Dict.keys (models s);
         info_best_model := best_model_name s;
         ensemble_enabled := USE_ENSEMBLE cfg;
         info_ensemble_weights := ensemble_weights s;
         info_last_trained := option_map isoformat (last_trained s);
         info_should_retrain := should_retrain now s (data_dir d);
         schedules_available := ScheduleDataStore.count_schedules (data_dir d);
         training_runs := Z.of_nat (List.length (training_history s)) |}.

End WithLibs.
End Trainer.

(* ================================================================= *)
(** ** hybrid_scheduler.py *)

Record Recommendation : Type := {
  use_ml : bool;
  confidence : Q;
  threshold : Q;
  method : string;
  reason : string
}.

Module HybridScheduler.
Section WithLibs.
Context `{ExternalLibs}.
Variable cfg : TrainingConfig.

Local Open Scope monad_scope.

Definition should_use_ml (features : Dict.t pyval) : M (bool * Q) :=
  if negb (USE_HYBRID cfg) then ret (false, 0%Q)
  else
    s <- get_self ;;
    if Dict.is_empty (models s) then ret (false, 0%Q)
    else
      (* Get prediction and confidence *)
      pc <- Trainer.predict cfg features true ;;
      let confidence := snd pc in
      let use_ml := Qle_bool (ML_CONFIDENCE_THRESHOLD cfg) confidence in
      ret (use_ml, confidence).

Definition _get_reason (use_ml ml_available : bool) (confidence : Q) : string :=
  if negb ml_available then
    "ML model not available, using optimization"
  else if negb (USE_HYBRID cfg) then
    "Hybrid mode disabled, using optimization"
  else if use_ml then
    "ML confidence (" ++ fmt2 confidence ++ ") above threshold ("
      ++ float_repr (ML_CONFIDENCE_THRESHOLD cfg) ++ ")"
  else
    "ML confidence (" ++ fmt2 confidence ++ ") below threshold ("
      ++ float_repr (ML_CONFIDENCE_THRESHOLD cfg) ++ "), using optimization".

(** The [features] dict built from the request and the clock. *)
Definition request_features (now now' : datetime) (schedule_request : pyval)
  : result (Dict.t pyval) :=
  let? num_trains := py_get schedule_request "num_trains" (PNum 25) in
  Ok [ ("num_trains", num_trains);
       ("time_of_day", PNum (inject_Z (dt_hour now)));
       ("day_of_week", PNum (inject_Z (dt_weekday now'))) ].

Definition get_schedule_recommendation (now now' : datetime)
    (schedule_request : pyval) (ml_available : bool) : M Recommendation :=
  (* Extract basic features from request *)
  features <- lift (request_features now now' schedule_request) ;;
  (* Determine which method to use *)
  r <- should_use_ml features ;;
  let '(use_ml, confidence) := r in
  ret {| use_ml := use_ml && ml_available;
         confidence := confidence;
         threshold := ML_CONFIDENCE_THRESHOLD cfg;
         method := if use_ml && ml_available then "ml" else "optimization";
         reason := _get_reason use_ml ml_available confidence |}.

(** [record_schedule_feedback]: the schedule goes to the corpus with the
    time of recording and the quality score as metadata. *)
Definition record_schedule_feedback (recorded_at now now' : datetime)
    (schedule : pyval) (quality_score : option Q) : M unit :=
  let metadata :=
    PDict [ ("recorded_at", PStr (isoformat recorded_at));
            ("quality_score",
             match quality_score with Some q => PNum q | None => PNone end) ] in
  d <- get_disk ;;
  saved <- lift (ScheduleDataStore.save_schedule cfg now now' schedule
                   (Some metadata) (data_dir d)) ;;
  modify_disk (fun d =>
    {| data_dir := snd saved; model_dir := model_dir d;
       history_file := history_file d |}).

End WithLibs.
End HybridScheduler.

(* ================================================================= *)
(** ** A reference instance of the libraries

    Exact-arithmetic stand-ins used to run the package on concrete inputs:
    numpy's statistics on lists of numbers, scikit-learn's formulas for the
    metrics, a split without shuffling, and simple learners. *)

Module RefLibs.

Definition numbers (l : list pyval) : result (list Q) := rmap as_number l.

Definition mean (l : list Q) : Q := (Qsum l / Qlen l)%Q.

Fixpoint minimum (x : Q) (l : list Q) : Q :=
  match l with
  | [] => x
  | y :: l' => minimum (if Qlt_bool y x then y else x) l'
  end.

Definition variance (l : list Q) : Q :=
  let m := mean l in
  (Qsum (map (fun x => (x - m) * (x - m)) l) / Qlen l)%Q.

Definition ref_np_mean (l : list pyval) : result Q :=
  let? qs := numbers l in Ok (mean qs).

Definition ref_np_min (l : list pyval) : result Q :=
  let? qs := numbers l in
  match qs with
  | [] => Raise ValueError
  | x :: qs' => Ok (minimum x qs')
  end.

Definition ref_np_var (l : list pyval) : result Q :=
  let? qs := numbers l in Ok (variance qs).

(** Square root to six decimals, rounded down. *)
Definition ref_sqrt (q : Q) : Q :=
  let scaled := (Qnum q * 1000000000000) / Zpos (Qden q) in
  inject_Z (Z.sqrt scaled) / 1000000.

Definition ref_np_std (l : list Q) : Q := ref_sqrt (variance l).

Definition digit_of (c : ascii) : option Z :=
  let n := Z.of_nat (nat_of_ascii c) in
  if (48 <=? n) && (n <=? 57) then Some (n - 48) else None.

Fixpoint number_of (acc : Z) (s : string) : option Z :=
  match s with
  | EmptyString => Some acc
  | String c s' =>
      match digit_of c with
      | Some d => number_of (10 * acc + d) s'
      | None => None
      end
  end.

Definition field (start len : nat) (s : string) : option Z :=
  let part := substring start len s in
  if (String.length part =? len)%nat then number_of 0 part else None.

Definition days_from_civil (y m d : Z) : Z :=
  let y := if m <=? 2 then y - 1 else y in
  let era := y / 400 in
  let yoe := y - era * 400 in
  let doy := (153 * (if 2 <? m then m - 3 else m + 9) + 2) / 5 + d - 1 in
  let doe := yoe * 365 + yoe / 4 - yoe / 100 + doy in
  era * 146097 + doe - 719468.

Definition days_in_month (y m : Z) : Z :=
  if m =? 2 then
    if ((y mod 4 =? 0) && negb (y mod 100 =? 0)) || (y mod 400 =? 0) then 29 else 28
  else if (m =? 4) || (m =? 6) || (m =? 9) || (m =? 11) then 30
  else 31.

(** A stand-in for [datetime.fromisoformat], used by the examples only: it
    parses the dates of the form [YYYY-MM-DDTHH:MM:SS] and answers [None] on
    the other forms the library reads (a date alone, fractional seconds, an
    offset). *)
Definition ref_fromisoformat (s : string) : option datetime :=
  if negb (String.length s =? 19)%nat then None
  else if negb (String.eqb (substring 4 1 s) "-" && String.eqb (substring 7 1 s) "-"
                && String.eqb (substring 10 1 s) "T"
                && String.eqb (substring 13 1 s) ":"
                && String.eqb (substring 16 1 s) ":") then None
  else
    match field 0 4 s, field 5 2 s, field 8 2 s,
          field 11 2 s, field 14 2 s, field 17 2 s with
    | Some y, Some m, Some d, Some hh, Some mm, Some ss =>
        if (1 <=? y) && (1 <=? m) && (m <=? 12) && (1 <=? d)
           && (d <=? days_in_month y m)
           && (hh <? 24) && (mm <? 60) && (ss <? 60)
        then Some ((days_from_civil y m d * 86400 + hh * 3600 + mm * 60 + ss)
                   * usec_per_sec)
        else None
    | _, _, _, _, _, _ => None
    end.

(** Decimal expansion of the fractional part, at most [fuel] digits. *)
Fixpoint frac_digits (fuel : nat) (r d : Z) : string :=
  match fuel with
  | O => EmptyString
  | S k =>
      if r =? 0 then EmptyString
      else str_of_Z (10 * r / d) ++ frac_digits k ((10 * r) mod d) d
  end.

Definition ref_float_repr (q : Q) : string :=
  let n := Z.abs (Qnum q) in
  let d := Zpos (Qden q) in
  let frac := frac_digits 17 (n mod d) d in
  (if Qnum q <? 0 then "-" else "") ++ str_of_Z (n / d) ++ "."
    ++ (if String.eqb frac "" then "0" else frac).

Definition ref_format_value (v : pyval) : string :=
  match v with
  | PNone => "None"
  | PBool true => "True"
  | PBool false => "False"
  | PNum q => if Zpos (Qden q) =? 1 then str_of_Z (Qnum q) else ref_float_repr q
  | PStr s => s
  | PList _ => "[...]"
  | PDict _ => "{...}"
  end.

(** The last [ceil(test_size * n)] samples are the test set. *)
Definition ref_train_test_split (X : matrix) (y : list Q) (test_size : Q)
  : result (matrix * matrix * list Q * list Q) :=
  let n := Z.of_nat (List.length X) in
  let scaled := (test_size * inject_Z n)%Q in
  let n_test := - ((- Qnum scaled) / Zpos (Qden scaled)) in
  let n_train := n - n_test in
  if negb (List.length X =? List.length y)%nat then Raise ValueError
  else if (n_train <=? 0) || (n_test <=? 0) then Raise ValueError
  else
    let k := Z.to_nat n_train in
    Ok (firstn k X, skipn k X, firstn k y, skipn k y).

Definition sq_err (y_true y_pred : list Q) : Q :=
  Qsum (map (fun p => (fst p - snd p) * (fst p - snd p))%Q (combine y_true y_pred)).

Definition ref_r2_score (y_true y_pred : list Q) : result Q :=
  if negb (List.length y_true =? List.length y_pred)%nat then Raise ValueError
  else
    let numerator := sq_err y_true y_pred in
    let m := mean y_true in
    let denominator := Qsum (map (fun v => (v - m) * (v - m))%Q y_true) in
    if negb (Qeq_bool denominator 0) then Ok (1 - numerator / denominator)%Q
    else if negb (Qeq_bool numerator 0) then Ok 0%Q
    else Ok 1%Q.

Definition ref_mean_squared_error (y_true y_pred : list Q) : result Q :=
  if negb (List.length y_true =? List.length y_pred)%nat then Raise ValueError
  else Ok (sq_err y_true y_pred / Qlen y_true)%Q.

(** Learners. *)
Definition constant (c : Q) : Estimator := {| est_predict := fun _ => Ok c |}.

Fixpoint row_eqb (a : list pyval) (b : list Q) : bool :=
  match a, b with
  | [], [] => true
  | PNum x :: a', y :: b' => Qeq_bool x y && row_eqb a' b'
  | _, _ => false
  end.

Fixpoint recall (X : matrix) (y : list Q) (dflt : Q) (row : list pyval) : Q :=
  match X, y with
  | x :: X', v :: y' => if row_eqb row x then v else recall X' y' dflt row
  | _, _ => dflt
  end.

(** Nearest neighbour at distance zero, the mean otherwise. *)
Definition memorise (X : matrix) (y : list Q) : Estimator :=
  {| est_predict := fun row => Ok (recall X y (mean y) row) |}.

Definition ref_fit (model : Regressor) (X : matrix) (y : list Q) : result Estimator :=
  match model with
  | GradientBoostingRegressor _ _ _ => Ok (memorise X y)
  | RandomForestRegressor _ _ _ => Ok (constant (mean y))
  | XGBRegressor _ _ _ => Ok (constant (hd 0%Q y))
  | LGBMRegressor _ _ _ => Ok (constant (last y 0%Q))
  | CatBoostRegressor _ _ _ => Ok (constant (mean y))
  end.

Definition with_fit (f : Regressor -> matrix -> list Q -> result Estimator)
  : ExternalLibs := {|
  np_mean := ref_np_mean;
  np_min := ref_np_min;
  np_var := ref_np_var;
  np_std := ref_np_std;
  np_sqrt := ref_sqrt;
  fromisoformat := ref_fromisoformat;
  float_repr := ref_float_repr;
  format_value := ref_format_value;
  train_test_split := ref_train_test_split;
  fit := f;
  r2_score := ref_r2_score;
  mean_squared_error := ref_mean_squared_error
|}.

Definition libs : ExternalLibs := with_fit ref_fit.

(** A library whose gradient boosting refuses the training matrix (as
    scikit-learn does on a matrix that holds NaN). *)
Definition failing_fit (model : Regressor) (X : matrix) (y : list Q)
  : result Estimator :=
  match model with
  | GradientBoostingRegressor _ _ _ => Raise ValueError
  | _ => ref_fit model X y
  end.

Definition failing_libs : ExternalLibs := with_fit failing_fit.

End RefLibs.

(* ================================================================= *)
(** ** Concrete corpora, configurations and trainers *)

Module Examples.

Definition train_unit (status : string) (km : Z) : pyval :=
  PDict [ ("status", PStr status); ("readiness_score", PNum (9 # 10));
          ("cumulative_km", PNum (inject_Z km)) ].

(** One unit in service; quality target 10. *)
Definition rec_a : pyval :=
  PDict [ ("trainsets", PList [train_unit "REVENUE_SERVICE" 1000]);
          ("generated_at", PStr "2024-01-01T08:30:00+05:30") ].

(** Two units and a reported readiness; quality target 40. *)
Definition rec_b : pyval :=
  PDict [ ("trainsets",
           PList [train_unit "STANDBY" 1000; train_unit "MAINTENANCE" 3000]);
          ("optimization_metrics", PDict [("avg_readiness_score", PNum 1)]) ].

(** 2024-01-01T00:00:00, a Monday, and [n] seconds later. *)
Definition t0 : datetime := 1704067200 * usec_per_sec.
Definition sec (n : Z) : datetime := t0 + n * usec_per_sec.

Definition save (now : datetime) (schedule : pyval) (dir : directory) : directory :=
  match ScheduleDataStore.save_schedule (H := RefLibs.libs) CONFIG now now
          schedule None dir with
  | Ok (_, dir') => dir'
  | Raise _ => dir
  end.

(** Four schedules saved one second apart under the default ids. *)
Definition dir4 : directory :=
  save (sec 4) rec_b (save (sec 3) rec_a (save (sec 2) rec_b (save (sec 1) rec_a []))).

Definition with_types (min_training interval min_retrain : Z)
    (types : list string) : TrainingConfig := {|
  RETRAIN_INTERVAL_HOURS := interval;
  MIN_SCHEDULES_FOR_TRAINING := min_training;
  MIN_SCHEDULES_FOR_RETRAIN := min_retrain;
  MODEL_VERSION := MODEL_VERSION CONFIG;
  MODEL_TYPES := types;
  USE_ENSEMBLE := true;
  ENSEMBLE_TOP_N := ENSEMBLE_TOP_N CONFIG;
  DATA_DIR := DATA_DIR CONFIG;
  MODEL_DIR := MODEL_DIR CONFIG;
  TRAIN_TEST_SPLIT := 1 # 2;
  EPOCHS := EPOCHS CONFIG;
  LEARNING_RATE := LEARNING_RATE CONFIG;
  FEATURES := FEATURES CONFIG;
  TARGET := TARGET CONFIG;
  USE_HYBRID := true;
  ML_CONFIDENCE_THRESHOLD := ML_CONFIDENCE_THRESHOLD CONFIG
|}.

(** The default gates, a corpus of four being enough to train on. *)
Definition small_cfg : TrainingConfig :=
  with_types 4 48 50 ["gradient_boosting"; "xgboost"; "lightgbm"].

(** Both retrain gates set to zero. *)
Definition eager_cfg : TrainingConfig :=
  with_types 4 0 0 ["gradient_boosting"; "xgboost"; "lightgbm"].

Definition two_model_cfg : TrainingConfig :=
  with_types 4 48 50 ["gradient_boosting"; "xgboost"].

(** The default configuration with hybrid mode switched off. *)
Definition no_hybrid_cfg : TrainingConfig := {|
  RETRAIN_INTERVAL_HOURS := RETRAIN_INTERVAL_HOURS CONFIG;
  MIN_SCHEDULES_FOR_TRAINING := MIN_SCHEDULES_FOR_TRAINING CONFIG;
  MIN_SCHEDULES_FOR_RETRAIN := MIN_SCHEDULES_FOR_RETRAIN CONFIG;
  MODEL_VERSION := MODEL_VERSION CONFIG;
  MODEL_TYPES := MODEL_TYPES CONFIG;
  USE_ENSEMBLE := USE_ENSEMBLE CONFIG;
  ENSEMBLE_TOP_N := ENSEMBLE_TOP_N CONFIG;
  DATA_DIR := DATA_DIR CONFIG;
  MODEL_DIR := MODEL_DIR CONFIG;
  TRAIN_TEST_SPLIT := TRAIN_TEST_SPLIT CONFIG;
  EPOCHS := EPOCHS CONFIG;
  LEARNING_RATE := LEARNING_RATE CONFIG;
  FEATURES := FEATURES CONFIG;
  TARGET := TARGET CONFIG;
  USE_HYBRID := false;
  ML_CONFIDENCE_THRESHOLD := ML_CONFIDENCE_THRESHOLD CONFIG
|}.

Definition fresh (dir : directory) : World := {|
  self := new_trainer;
  disk := {| data_dir := dir; model_dir := Dict.empty; history_file := None |}
|}.

Definition small_world : World := fresh dir4.

(** A trainer last trained at [last] that holds the models [ms]. *)
Definition trained (ms : Dict.t Estimator) (weights : Dict.t Q)
    (best : option string) (last : datetime) (dir : directory) : World := {|
  self := {| models := ms; model_scores := Dict.empty; ensemble_weights := weights;
             best_model_name := best; last_trained := Some last;
             training_history := [] |};
  disk := {| data_dir := dir; model_dir := Dict.empty; history_file := None |}
|}.

(** Two models that answer 30 and 70 whatever the row, equally weighted:
    standard deviation 20, confidence 0.60. *)
Definition split_world : World :=
  trained [("gradient_boosting", RefLibs.constant 30);
           ("random_forest", RefLibs.constant 70)]
    [("gradient_boosting", 1 # 2); ("random_forest", 1 # 2)]
    (Some "gradient_boosting") t0 [].

(** A request as the API would pass it on. *)
Definition request : pyval :=
  PDict [("num_trains", PNum 30); ("method", PStr "ga")].

(** [n] schedules saved one second apart. *)
Fixpoint corpus (n : nat) : directory :=
  match n with
  | O => []
  | S k => save (sec (Z.of_nat n)) rec_a (corpus k)
  end.

(** A trainer that finished a run at second 50 over a corpus of 40. *)
Definition recently_trained : World :=
  trained [("gradient_boosting", RefLibs.constant 30)] Dict.empty
    (Some "gradient_boosting") (sec 50) (corpus 40).

(** The dataset and the split of the corpus of four. *)
Definition small_dataset : matrix * list Q :=
  match FeatureExtractor.prepare_dataset (H := RefLibs.libs) small_cfg
          (ScheduleDataStore.load_schedules None dir4) with
  | Ok ds => ds
  | Raise _ => ([], [])
  end.

Definition small_split : matrix * matrix * list Q * list Q :=
  match RefLibs.ref_train_test_split (fst small_dataset) (snd small_dataset)
          (TRAIN_TEST_SPLIT small_cfg) with
  | Ok parts => parts
  | Raise _ => ([], [], [], [])
  end.

Definition small_X_train : matrix := fst (fst (fst small_split)).
Definition small_X_test : matrix := snd (fst (fst small_split)).
Definition small_y_train : list Q := snd (fst small_split).
Definition small_y_test : list Q := snd small_split.

(** The first variant cannot be fitted by the library. *)
Definition failing_run : result TrainResult * World :=
  Trainer.train (H := RefLibs.failing_libs) small_cfg (sec 10) (sec 11) (sec 12)
    false small_world.

(** The same library and corpus, the failing variant not configured. *)
Definition remaining_run : result TrainResult * World :=
  Trainer.train (H := RefLibs.failing_libs)
    (with_types 4 48 50 ["xgboost"; "lightgbm"]) (sec 10) (sec 11) (sec 12)
    false small_world.

(** A configured name that no library answers to. *)
Definition misspelt_cfg : TrainingConfig :=
  with_types 4 48 50 ["gradient_boosting"; "xgbost"; "xgboost"; "lightgbm"].

(** A deployment configured with another feature list. *)
Definition other_features_cfg : TrainingConfig := {|
  RETRAIN_INTERVAL_HOURS := RETRAIN_INTERVAL_HOURS small_cfg;
  MIN_SCHEDULES_FOR_TRAINING := MIN_SCHEDULES_FOR_TRAINING small_cfg;
  MIN_SCHEDULES_FOR_RETRAIN := MIN_SCHEDULES_FOR_RETRAIN small_cfg;
  MODEL_VERSION := MODEL_VERSION small_cfg;
  MODEL_TYPES := MODEL_TYPES small_cfg;
  USE_ENSEMBLE := USE_ENSEMBLE small_cfg;
  ENSEMBLE_TOP_N := ENSEMBLE_TOP_N small_cfg;
  DATA_DIR := DATA_DIR small_cfg;
  MODEL_DIR := MODEL_DIR small_cfg;
  TRAIN_TEST_SPLIT := TRAIN_TEST_SPLIT small_cfg;
  EPOCHS := EPOCHS small_cfg;
  LEARNING_RATE := LEARNING_RATE small_cfg;
  FEATURES := ["num_trains"; "avg_mileage"];
  TARGET := TARGET small_cfg;
  USE_HYBRID := USE_HYBRID small_cfg;
  ML_CONFIDENCE_THRESHOLD := ML_CONFIDENCE_THRESHOLD small_cfg
|}.

(** It trains and persists its models; later a process with the default
    feature list starts on the same disk. *)
Definition other_run : result TrainResult * World :=
  Trainer.train (H := RefLibs.libs) other_features_cfg (sec 10) (sec 11) (sec 12)
    false small_world.

Definition restarted : World :=
  {| self := new_trainer; disk := disk (snd other_run) |}.

(** Five schedules carrying their own ids, saved one second apart:
    run5 first, run1 last. *)
Definition labelled (id : string) : pyval :=
  PDict [("schedule_id", PStr id); ("trainsets", PList [])].

Definition dir5 : directory :=
  save (sec 5) (labelled "run1")
    (save (sec 4) (labelled "run2")
       (save (sec 3) (labelled "run3")
          (save (sec 2) (labelled "run4")
             (save (sec 1) (labelled "run5") [])))).

(** Another request for the same number of trains. *)
Definition request' : pyval :=
  PDict [("method", PStr "pso"); ("num_trains", PNum 30);
         ("trainsets", PList [train_unit "STANDBY" 7000])].

Definition succeeded (out : result TrainResult * World) : bool :=
  match fst out with
  | Ok r => success r
  | Raise _ => false
  end.

Definition result_of (out : result TrainResult * World) : TrainResult :=
  match fst out with
  | Ok r => r
  | Raise _ => TrainFailed "raised"
  end.

(** A first training run on the corpus of four: checked at second 10,
    finished at second 11, saved at second 12. *)
Definition small_run : result TrainResult * World :=
  Trainer.train (H := RefLibs.libs) small_cfg (sec 10) (sec 11) (sec 12) false
    small_world.

Definition eager_run : result TrainResult * World :=
  Trainer.train (H := RefLibs.libs) eager_cfg (sec 10) (sec 11) (sec 12) false
    small_world.

Definition two_model_run : result TrainResult * World :=
  Trainer.train (H := RefLibs.libs) two_model_cfg (sec 10) (sec 11) (sec 12) false
    small_world.

(** A schedule whose reported branding compliance is far below zero;
    quality target -1490. *)
Definition rec_low : pyval :=
  PDict [ ("trainsets", PList [train_unit "REVENUE_SERVICE" 1000]);
          ("optimization_metrics", PDict [("branding_sla_compliance", PNum (-100))]) ].

Definition dir_low : directory :=
  save (sec 4) rec_low (save (sec 3) rec_low (save (sec 2) rec_low (save (sec 1) rec_low []))).

Definition single_cfg : TrainingConfig := with_types 4 48 50 ["random_forest"].

(** One learner trained on the low corpus, then asked for a prediction. *)
Definition low_run : result TrainResult * World :=
  Trainer.train (H := RefLibs.libs) single_cfg (sec 10) (sec 11) (sec 12) false
    (fresh dir_low).

Definition low_prediction : result (Q * Q) * World :=
  Trainer.predict (H := RefLibs.libs) single_cfg
    [("num_trains", PNum 25)] true (snd low_run).

(** A single model whose answer grows with the first entry of the row, the
    number of trains: -1000 for 30 trains, 1000 for 50. *)
Definition by_size : Estimator :=
  {| est_predict := fun row =>
       match row with
       | PNum n :: _ => Ok ((n - 40) * 100)%Q
       | _ => Raise TypeError
       end |}.

Definition sized_world : World :=
  trained [("random_forest", by_size)] Dict.empty (Some "random_forest") t0 [].

Definition request_50 : pyval :=
  PDict [("num_trains", PNum 50); ("method", PStr "ga")].

Definition advice (schedule_request : pyval) (w : World) : option (bool * string) :=
  match fst (HybridScheduler.get_schedule_recommendation (H := RefLibs.libs) CONFIG
               t0 t0 schedule_request true w) with
  | Ok r => Some (use_ml r, method r)
  | Raise _ => None
  end.

End Examples.

(* ================================================================= *)
(** ** Vocabulary of the statements *)

(** The trainer with the best model chosen from its scores. *)
Definition choose_best (s : ModelTrainer) : ModelTrainer :=
  match argmax_score (model_scores s) with
  | Some name => set_best_model_name (Some name) s
  | None => s
  end.

(** The world when the loop over the model types starts. *)
Definition start_run (w : World) : World :=
  {| self := set_model_scores Dict.empty (set_models Dict.empty (self w));
     disk := disk w |}.

(** The two gates of a time-triggered retrain. *)
Definition time_gate (cfg : TrainingConfig) (now last : datetime) : Prop :=
  (inject_Z (RETRAIN_INTERVAL_HOURS cfg) <= Trainer.hours_since now last)%Q.

Definition data_gate (cfg : TrainingConfig) (last : datetime) (dir : directory) : Prop :=
  MIN_SCHEDULES_FOR_RETRAIN cfg
    <= Z.of_nat (List.length (ScheduleDataStore.get_schedules_since last dir)).

(** Some weight of the mapping is negative. *)
Definition has_negative_weight (weights : Dict.t Q) : bool :=
  existsb (fun item => Qlt_bool (snd item) 0) weights.

(** The row [predict] hands to the models. *)
Definition feature_vector (cfg : TrainingConfig) (features : Dict.t pyval)
  : list pyval :=
  map (fun f => Dict.get_default features f (PNum 0)) (FEATURES cfg).

(** [predict] takes the ensemble branch. *)
Definition ensemble_mode (cfg : TrainingConfig) (use_ensemble : bool)
    (s : ModelTrainer) : bool :=
  use_ensemble && USE_ENSEMBLE cfg && negb (Dict.is_empty (ensemble_weights s)).

(** Every loaded model answers on the row. *)
Definition answers_all (ms : Dict.t Estimator) (row : list pyval) : bool :=
  forallb (fun m => match est_predict m row with Ok _ => true | Raise _ => false end)
    (Dict.values ms).

(** The reason of a recommendation that was returned. *)
Definition reason_of (out : result Recommendation * World) : option string :=
  match fst out with
  | Ok r => Some (reason r)
  | Raise _ => None
  end.

(** The number of records [train] finds available. *)
Definition available (d : Disk) : Z :=
  Z.of_nat (List.length (ScheduleDataStore.load_schedules None (data_dir d))).

(** [_get_model] knows the name. *)
Definition recognised (cfg : TrainingConfig) (model_name : string) : bool :=
  match Trainer._get_model cfg model_name with
  | Some _ => true
  | None => false
  end.

(** The configuration with another list of model types. *)
Definition with_model_types (types : list string) (cfg : TrainingConfig)
  : TrainingConfig := {|
  RETRAIN_INTERVAL_HOURS := RETRAIN_INTERVAL_HOURS cfg;
  MIN_SCHEDULES_FOR_TRAINING := MIN_SCHEDULES_FOR_TRAINING cfg;
  MIN_SCHEDULES_FOR_RETRAIN := MIN_SCHEDULES_FOR_RETRAIN cfg;
  MODEL_VERSION := MODEL_VERSION cfg;
  MODEL_TYPES := types;
  USE_ENSEMBLE := USE_ENSEMBLE cfg;
  ENSEMBLE_TOP_N := ENSEMBLE_TOP_N cfg;
  DATA_DIR := DATA_DIR cfg;
  MODEL_DIR := MODEL_DIR cfg;
  TRAIN_TEST_SPLIT := TRAIN_TEST_SPLIT cfg;
  EPOCHS := EPOCHS cfg;
  LEARNING_RATE := LEARNING_RATE cfg;
  FEATURES := FEATURES cfg;
  TARGET := TARGET cfg;
  USE_HYBRID := USE_HYBRID cfg;
  ML_CONFIDENCE_THRESHOLD := ML_CONFIDENCE_THRESHOLD cfg
|}.

(** [train] gets as far as the loop over the model types, with this split. *)
Definition reaches_training `{ExternalLibs} (cfg : TrainingConfig)
    (t_check : datetime) (force : bool) (w : World)
    (X_train X_test : matrix) (y_train y_test : list Q) : Prop :=
  (force = true \/ Trainer.should_retrain cfg t_check (self w) (data_dir (disk w)) = true)
  /\ MIN_SCHEDULES_FOR_TRAINING cfg <= available (disk w)
  /\ exists X y,
       FeatureExtractor.prepare_dataset cfg
         (ScheduleDataStore.load_schedules None (data_dir (disk w))) = Ok (X, y)
       /\ X <> []
       /\ train_test_split X y (TRAIN_TEST_SPLIT cfg)
          = Ok (X_train, X_test, y_train, y_test).

(** The feature list recorded in the "latest" blob. *)
Definition stored_features (d : Disk) : option (list string) :=
  match Dict.get (model_dir d) "models_latest.pkl" with
  | Some (Pickled model_data) => Some (md_features model_data)
  | _ => None
  end.

(** The trainer once the blob's content is installed. *)
Definition install (model_data : ModelData) (s : ModelTrainer) : ModelTrainer := {|
  models := md_models model_data;
  model_scores := model_scores s;
  ensemble_weights := md_ensemble_weights model_data;
  best_model_name := md_best_model_name model_data;
  last_trained := md_last_trained model_data;
  training_history := training_history s
|}.

(** The save time recorded in a persisted entry. *)
Definition saved_at_of (entry : pyval) : option string :=
  match entry with
  | PDict kv =>
      match Dict.get kv "saved_at" with
      | Some (PStr t) => Some t
      | _ => None
      end
  | _ => None
  end.

(** The three features the router derives from a request and the clock. *)
Definition routed_features (now now' : datetime) (num_trains : pyval)
  : Dict.t pyval :=
  [ ("num_trains", num_trains);
    ("time_of_day", PNum (inject_Z (dt_hour now)));
    ("day_of_week", PNum (inject_Z (dt_weekday now'))) ].

(** The model [predict] asks when it does not ensemble: the best one, or
    the first when the best-model name is not among the models. *)
Definition single_model (s : ModelTrainer) : option Estimator :=
  match
    match best_model_name s with
    | Some name => Dict.get (models s) name
    | None => None
    end
  with
  | Some m => Some m
  | None => hd_error (Dict.values (models s))
  end.

(** The shape of a record on which extraction goes through: an object whose
    [trainsets] entry is absent or a list of objects; in each of them the
    status and the branding priority are scalars, the readiness score and the
    mileage are absent or numbers, and the certificates are absent or an
    object. *)
Definition is_num (v : pyval) : bool :=
  match v with PNum _ => true | _ => false end.

Definition is_dict (v : pyval) : bool :=
  match v with PDict _ => true | _ => false end.

Definition wf_train (train : pyval) : bool :=
  match train with
  | PDict kv =>
      hashable (Dict.get_default kv "status" (PStr "UNKNOWN"))
      && is_num (Dict.get_default kv "readiness_score" (PNum 0))
      && is_num (Dict.get_default kv "cumulative_km" (PNum 0))
      && is_dict (Dict.get_default kv "fitness_certificates" (PDict []))
      && match Dict.get_default kv "branding" (PDict []) with
         | PDict b => hashable (Dict.get_default b "exposure_priority" (PStr "NONE"))
         | _ => true
         end
  | _ => false
  end.

Definition trainsets_of (schedule : pyval) : option (list pyval) :=
  match schedule with
  | PDict kv =>
      match Dict.get_default kv "trainsets" (PList []) with
      | PList trains => Some trains
      | _ => None
      end
  | _ => None
  end.

Definition wf_schedule (schedule : pyval) : bool :=
  match trainsets_of schedule with
  | Some trains => forallb wf_train trains
  | None => false
  end.

(** numpy on a non-empty list of numbers: the mean, the minimum and the
    population variance, without raising. *)
Definition numpy_on_numbers `{ExternalLibs} : Prop :=
  forall q qs,
    np_mean (map PNum (q :: qs)) = Ok (RefLibs.mean (q :: qs))
    /\ np_min (map PNum (q :: qs)) = Ok (RefLibs.minimum q qs)
    /\ np_var (map PNum (q :: qs)) = Ok (RefLibs.variance (q :: qs)).

(** The generation timestamp is absent, not a string, or rejected by the
    parser once "+05:30" is dropped. *)
Definition timestamp_unparsable `{ExternalLibs} (schedule : pyval) : Prop :=
  match py_get schedule "generated_at" (PStr "") with
  | Ok (PStr s) => fromisoformat (str_replace "+05:30" "" s) = None
  | _ => True
  end.

(** The keys [extract_from_schedule] assigns, in order. *)
Definition extracted_keys : list string :=
  [ "num_trains"; "num_available"; "maintenance_count"; "avg_readiness_score";
    "min_readiness_score"; "total_mileage"; "avg_mileage"; "mileage_variance";
    "certificate_expiry_count"; "branding_priority_sum"; "time_of_day";
    "day_of_week" ].

(* ================================================================= *)
(** ** retraining_service.py *)

(** The clock readings of one pass of the loop: at the loop's check of
    [should_retrain], and inside [train] at its own check, when the run is
    done and when the models are saved. *)
Record Pass : Type := {
  at_loop : datetime;
  at_check : datetime;
  at_done : datetime;
  at_save : datetime
}.

Module RetrainingService.
Section WithLibs.
Context `{ExternalLibs}.
Variable cfg : TrainingConfig.

(** The body of the [while] of [_run_loop]: whatever [train] raises is
    caught and printed, the trainer staying as the exception left it. *)
Definition run_pass (p : Pass) : M unit :=
  fun w =>
    if Trainer.should_retrain cfg (at_loop p) (self w) (data_dir (disk w)) then
      match Trainer.train cfg (at_check p) (at_done p) (at_save p) false w with
      | (_, w') => (Ok tt, w')
      end
    else (Ok tt, w).

(** [_run_loop], over the passes made while [running] holds. *)
Definition _run_loop (passes : list Pass) : M unit :=
  foldM (fun _ p => run_pass p) passes tt.

Definition force_retrain (t_check t_done t_save : datetime) : M TrainResult :=
  Trainer.train cfg t_check t_done t_save true.

End WithLibs.
End RetrainingService.

(* ================================================================= *)
(** ** Vocabulary of the further properties *)

(** No file of the list has a smaller name than one that comes after it. *)
Definition descending (files : list file) : Prop :=
  StronglySorted (fun a b => String.ltb (f_name a) (f_name b) = false) files.

(** A name [open] takes as a file of the data directory itself: no path
    separator and no NUL in it, and at most 255 bytes. *)
Definition plain_file_name (name : string) : bool :=
  forallb (fun c => negb (Ascii.eqb c "/") && negb (Ascii.eqb c "000"))
    (list_ascii_of_string name)
  && (String.length name <=? 255)%nat.

(** The file name [save_schedule] builds for a schedule saved at [now]:
    ["{schedule_id}_{timestamp}.json"], the id "schedule_{timestamp}" when
    the schedule has none. *)
Definition saved_file_name `{ExternalLibs} (now : datetime) (kv : Dict.t pyval)
  : string :=
  let timestamp := strftime_stamp now in
  let schedule_id :=
    Dict.get_default kv "schedule_id" (PStr ("schedule_" ++ timestamp)) in
  let id_text :=
    match schedule_id with
    | PStr s => s
    | v => format_value v
    end in
  id_text ++ "_" ++ timestamp ++ ".json".

(** The entry [save_schedule] writes for a schedule. *)
Definition saved_entry (schedule metadata : pyval) (saved_at : datetime) : pyval :=
  PDict [ ("schedule", schedule); ("metadata", metadata);
          ("saved_at", PStr (isoformat saved_at)) ].

(** The metadata [save_schedule] stores: [metadata or {}]. *)
Definition stored_metadata (metadata : option pyval) : pyval :=
  match metadata with
  | Some m => if truthy m then m else PDict []
  | None => PDict []
  end.

(** The .json files that cannot be read. *)
Definition unreadable (dir : directory) : list file :=
  filter (fun f => match f_data f with Some _ => false | None => true end)
    (glob_json dir).

(** A numeric entry of a section of the record, as [calculate_target]
    reads it: [schedule.get(section, {}).get(key, default)]. *)
Definition metric (schedule : pyval) (section key : string) (dflt : Q) : result Q :=
  let? part := py_get schedule section (PDict []) in
  let? v := py_get part key (PNum dflt) in
  as_number v.

(** The five components of the quality score, before the final clamp. *)
Definition quality_sum (readiness availability mileage_var branding violations : Q) : Q :=
  (0 + readiness * 30 + availability / 100 * 25 + py_max 0 ((1 - mileage_var) * 20)
   + branding * 15 + py_max 0 (10 - violations * 2))%Q.

(** A value of the feature map, as an integer. *)
Definition feature_is (features : Dict.t Q) (key : string) (n : Z) : Prop :=
  Dict.get features key = Some (inject_Z n).

(** [HybridScheduler.__init__]: a new [ModelTrainer], then [load_model]. *)
Definition hybrid_scheduler_init : M bool :=
  bind (modify_self (fun _ => new_trainer)) (fun _ => Trainer.load_model).

(** The dict [save_model] pickles for a trainer. *)
Definition model_data_of (cfg : TrainingConfig) (s : ModelTrainer) : ModelData := {|
  md_models := models s;
  md_ensemble_weights := ensemble_weights s;
  md_best_model_name := best_model_name s;
  md_last_trained := last_trained s;
  md_version := MODEL_VERSION cfg;
  md_features := FEATURES cfg;
  md_models_trained := Dict.keys (models s) |}.

(** The entry [train] appends to the training history. *)
Definition history_entry_of (cfg : TrainingConfig) (t_done : datetime)
    (all_metrics : Dict.t Metrics) (s : ModelTrainer) : HistoryEntry := {|
  h_timestamp := isoformat t_done;
  h_metrics := all_metrics;
  h_best_model := best_model_name s;
  h_ensemble_weights := ensemble_weights s;
  h_models_trained := Dict.keys (models s);
  h_version := MODEL_VERSION cfg |}.


(** Further corpora and runs. *)
Module Scenarios.

(** Two schedules under the same id. *)
Definition run1 : Dict.t pyval :=
  [("schedule_id", PStr "run1"); ("trainsets", PList [])].

Definition run1_again : Dict.t pyval :=
  [("schedule_id", PStr "run1");
   ("trainsets", PList [Examples.train_unit "STANDBY" 10])].

(** The first of them saved into an empty directory. *)
Definition first_save : string * directory :=
  match ScheduleDataStore.save_schedule (H := RefLibs.libs) CONFIG (Examples.sec 1)
          (Examples.sec 1) (PDict run1) None [] with
  | Ok saved => saved
  | Raise _ => (EmptyString, [])
  end.

Definition target_of (schedule : pyval) : Q :=
  match FeatureExtractor.calculate_target schedule with
  | Ok target => target
  | Raise _ => 0%Q
  end.

Definition features_of (schedule : pyval) : Dict.t Q :=
  match FeatureExtractor.extract_from_schedule (H := RefLibs.libs) schedule with
  | Ok features => features
  | Raise _ => []
  end.

(** Four records on which extraction raises ([len(None)]). *)
Definition rec_null : pyval := PDict [("trainsets", PNone)].

Definition dir_null : directory :=
  Examples.save (Examples.sec 4) rec_null
    (Examples.save (Examples.sec 3) rec_null
       (Examples.save (Examples.sec 2) rec_null
          (Examples.save (Examples.sec 1) rec_null []))).

Definition null_run : result TrainResult * World :=
  Trainer.train (H := RefLibs.libs) Examples.small_cfg (Examples.sec 10)
    (Examples.sec 11) (Examples.sec 12) false (Examples.fresh dir_null).

(** The trainer of [small_run], retrained by force with a library whose
    first variant cannot be fitted. *)
Definition failed_retry : result TrainResult * World :=
  Trainer.train (H := RefLibs.failing_libs) Examples.small_cfg (Examples.sec 20)
    (Examples.sec 21) (Examples.sec 22) true (snd Examples.small_run).

(** What a call of [predict] answered. *)
Definition answer_of (out : result (Q * Q) * World) : Q * Q :=
  match fst out with
  | Ok answer => answer
  | Raise _ => (0%Q, 0%Q)
  end.

(** The two models of [split_world] asked about thirty trains. *)
Definition split_prediction : result (Q * Q) * World :=
  Trainer.predict (H := RefLibs.libs) CONFIG [("num_trains", PNum 30)] true
    Examples.split_world.

(** Two models that both answer 50. *)
Definition agreeing_world : World :=
  Examples.trained [("gradient_boosting", RefLibs.constant 50);
                    ("random_forest", RefLibs.constant 50)]
    [("gradient_boosting", 1 # 2); ("random_forest", 1 # 2)]
    (Some "gradient_boosting") Examples.t0 [].

Definition agreeing_advice : result Recommendation * World :=
  HybridScheduler.get_schedule_recommendation (H := RefLibs.libs) CONFIG
    Examples.t0 Examples.t0 Examples.request true agreeing_world.

Definition advice_of (out : result Recommendation * World) : Recommendation :=
  match fst out with
  | Ok r => r
  | Raise _ =>
      {| use_ml := false; confidence := 0; threshold := 0;
         method := EmptyString; reason := EmptyString |}
  end.

End Scenarios.

(* ================================================================= *)
(** * Properties *)

(** ** The monad and the training run *)

Lemma bind_ok {A B} (m : M A) (k : A -> M B) w a w1 :
  m w = (Ok a, w1) -> bind m k w = k a w1.
Proof. intros E. unfold bind. now rewrite E. Qed.

Lemma bind_raise {A B} (m : M A) (k : A -> M B) w e w1 :
  m w = (Raise e, w1) -> bind m k w = (Raise e, w1).
Proof. intros E. unfold bind. now rewrite E. Qed.

Lemma foldM_app {A S} (f : S -> A -> M S) l1 l2 s w :
  foldM f (l1 ++ l2) s w = bind (foldM f l1 s) (foldM f l2) w.
Proof.
  revert s w. induction l1 as [|a l1 IH]; intros s w; simpl.
  - reflexivity.
  - unfold bind. destruct (f s a w) as [[s'|e] w1]; [|reflexivity].
    rewrite IH. reflexivity.
Qed.

Section TrainerFacts.
Context `{ExternalLibs}.
Variable cfg : TrainingConfig.

Lemma save_model_self now w :
  exists d, Trainer.save_model cfg now w = (Ok tt, {| self := self w; disk := d |}).
Proof.
  destruct w as [s d].
  unfold Trainer.save_model, bind, get_self, ret, modify_disk. simpl.
  destruct (Dict.is_empty (models s)); simpl; eexists; reflexivity.
Qed.

Lemma save_history_self w :
  exists d, Trainer._save_history w = (Ok tt, {| self := self w; disk := d |}).
Proof. unfold Trainer._save_history, bind, get_self, modify_disk. eexists; reflexivity. Qed.

(** What a successful run went through. *)
Lemma train_success_inv t_check t_done t_save force w r w' :
  Trainer.train cfg t_check t_done t_save force w = (Ok r, w') ->
  success r = true ->
  exists X y X_train X_test y_train y_test all_metrics w1 w2,
    FeatureExtractor.prepare_dataset cfg
      (ScheduleDataStore.load_schedules None (data_dir (disk w))) = Ok (X, y)
    /\ train_test_split X y (TRAIN_TEST_SPLIT cfg)
       = Ok (X_train, X_test, y_train, y_test)
    /\ foldM (Trainer.train_model cfg X_train X_test y_train y_test)
         (MODEL_TYPES cfg) Dict.empty (start_run w) = (Ok all_metrics, w1)
    /\ Trainer.compute_ensemble_weights cfg w1 = (Ok tt, w2)
    /\ models (self w') = models (self w2)
    /\ model_scores (self w') = model_scores (self w2)
    /\ ensemble_weights (self w') = ensemble_weights (self w2)
    /\ best_model_name (self w') = best_model_name (choose_best (self w2))
    /\ last_trained (self w') = Some t_done.
Proof.
  unfold Trainer.train, bind, ret, lift, get_self, get_disk, modify_self.
  intros Ht Hs.
  repeat match type of Ht with
  | context [if ?c then _ else _] => destruct c
  | context [match ?x with _ => _ end] => destruct x eqn:?
  end; try (inversion Ht; subst; simpl in *; discriminate).
  subst. injection Ht as <- <-. clear Hs.
  match goal with
  | E : Trainer.save_model _ _ ?u = _ |- _ =>
      destruct (save_model_self t_save u) as [d1 E1]; rewrite E1 in E;
      injection E as <- <-
  end.
  match goal with
  | E : Trainer._save_history ?u = _ |- _ =>
      destruct (save_history_self u) as [d2 E2]; rewrite E2 in E;
      injection E as <- <-
  end.
  match goal with
  | E : Trainer.compute_ensemble_weights _ _ = (Ok ?u, _) |- _ => destruct u
  end.
  do 9 eexists.
  split; [reflexivity|]. do 3 (split; [eassumption|]).
  unfold choose_best.
  match goal with
  | E : match argmax_score ?sc with _ => _ end ?u = _ |- _ =>
      destruct (argmax_score sc); injection E as <- <-; simpl; auto 10
  end.
Qed.

End TrainerFacts.

(* ================================================================= *)
(** ** C1: when the trainer asks for a retrain *)

Lemma hours_since_lt_iff now last (h : Z) :
  (Trainer.hours_since now last < inject_Z h)%Q <->
  now - last < h * (3600 * usec_per_sec).
Proof.
  unfold Trainer.hours_since, total_seconds, usec_per_sec.
  assert (E : (inject_Z (now - last) / inject_Z 1000000 / 3600
               == inject_Z (now - last) * (1 # 3600000000))%Q) by (field; discriminate).
  rewrite E. unfold Qlt, Qmult, inject_Z. simpl. lia.
Qed.

Lemma should_retrain_iff `{ExternalLibs} cfg now s dir :
  Trainer.should_retrain cfg now s dir = true <->
  last_trained s = None \/
  exists last,
    last_trained s = Some last /\ time_gate cfg now last /\ data_gate cfg last dir.
Proof.
  unfold Trainer.should_retrain, time_gate, data_gate.
  destruct (last_trained s) as [last|].
  - destruct (Qle_bool _ _) eqn:E.
    + apply Qle_bool_iff in E. rewrite Z.leb_le. split.
      * intros Hc. right. exists last. auto.
      * intros [Hn | (l & Hl & _ & Hd)]; [discriminate|]. now injection Hl as ->.
    + split; [discriminate|].
      intros [Hn | (l & Hl & Ht & _)]; [discriminate|].
      injection Hl as ->. apply Qle_bool_iff in Ht. congruence.
  - split; auto.
Qed.

(** C1 (amended).  [should_retrain] is true exactly when the trainer was never
    trained or both gates pass: the hours since the last train reach the
    configured interval and the records stored since reach the configured
    minimum.  After a successful [train] it is false until the configured
    interval has elapsed, hence at the instant the run finished when the
    interval is positive; it is false at any time when the configured
    minimum is positive and no record was stored since; and however late it
    is asked it stays false while fewer records than the minimum are newer
    than the train. *)
Theorem should_retrain_gates `{ExternalLibs} cfg :
  (forall now s dir,
      Trainer.should_retrain cfg now s dir = true <->
      last_trained s = None \/
      exists last,
        last_trained s = Some last /\ time_gate cfg now last
        /\ data_gate cfg last dir)
  /\ forall t_check t_done t_save force w r w',
       Trainer.train cfg t_check t_done t_save force w = (Ok r, w') ->
       success r = true ->
       (0 < RETRAIN_INTERVAL_HOURS cfg ->
        forall dir, Trainer.should_retrain cfg t_done (self w') dir = false)
       /\ (forall now dir,
             now < t_done + RETRAIN_INTERVAL_HOURS cfg * (3600 * usec_per_sec) ->
             Trainer.should_retrain cfg now (self w') dir = false)
       /\ (0 < MIN_SCHEDULES_FOR_RETRAIN cfg ->
           forall now dir,
             ScheduleDataStore.get_schedules_since t_done dir = [] ->
             Trainer.should_retrain cfg now (self w') dir = false)
       /\ (forall later dir,
             ~ data_gate cfg t_done dir ->
             Trainer.should_retrain cfg later (self w') dir = false).
Proof.
  split; [intros; apply should_retrain_iff|].
  intros t_check t_done t_save force w r w' Ht Hs.
  destruct (train_success_inv cfg _ _ _ _ _ _ _ Ht Hs)
    as (X & y & Xa & Xb & ya & yb & ms & w1 & w2 & _ & _ & _ & _ & _ & _ & _ & _ & Hl).
  assert (Hearly : forall now dir,
             now < t_done + RETRAIN_INTERVAL_HOURS cfg * (3600 * usec_per_sec) ->
             Trainer.should_retrain cfg now (self w') dir = false).
  { intros now dir Hnow. apply not_true_is_false. intros Hc.
    apply should_retrain_iff in Hc.
    destruct Hc as [Hn | (last & Hlast & Htime & _)]; [congruence|].
    rewrite Hl in Hlast. injection Hlast as <-.
    unfold time_gate in Htime.
    assert (Hlt : (Trainer.hours_since now t_done
                   < inject_Z (RETRAIN_INTERVAL_HOURS cfg))%Q).
    { apply hours_since_lt_iff. lia. }
    apply Qlt_not_le in Hlt. contradiction. }
  assert (Hfew : forall later dir,
             ~ data_gate cfg t_done dir ->
             Trainer.should_retrain cfg later (self w') dir = false).
  { intros later dir Hd. apply not_true_is_false. intros Hc.
    apply should_retrain_iff in Hc.
    destruct Hc as [Hn | (last & Hlast & _ & Hdata)]; [congruence|].
    rewrite Hl in Hlast. injection Hlast as <-. contradiction. }
  split; [|split; [exact Hearly|split; [|exact Hfew]]].
  - intros Hpos dir. apply Hearly. unfold usec_per_sec. lia.
  - intros Hpos now dir Hnone. apply Hfew. unfold data_gate. rewrite Hnone.
    cbn [List.length]. lia.
Qed.

Lemma should_retrain_gates_witness :
  Trainer.train (H := RefLibs.libs) Examples.small_cfg (Examples.sec 10)
    (Examples.sec 11) (Examples.sec 12) false Examples.small_world
  = (Ok (Examples.result_of Examples.small_run), snd Examples.small_run)
  /\ success (Examples.result_of Examples.small_run) = true
  /\ 0 < RETRAIN_INTERVAL_HOURS Examples.small_cfg
  /\ Trainer.should_retrain Examples.small_cfg (Examples.sec 11)
       (self (snd Examples.small_run)) Examples.dir4 = false
  /\ 0 < MIN_SCHEDULES_FOR_RETRAIN Examples.small_cfg
  /\ ScheduleDataStore.get_schedules_since (Examples.sec 11) Examples.dir4 = []
  /\ Trainer.should_retrain Examples.small_cfg (Examples.sec 1000000)
       (self (snd Examples.small_run)) Examples.dir4 = false.
Proof.
  assert (E : Trainer.train (H := RefLibs.libs) Examples.small_cfg (Examples.sec 10)
                (Examples.sec 11) (Examples.sec 12) false Examples.small_world
              = (Ok (Examples.result_of Examples.small_run), snd Examples.small_run))
    by (vm_compute; reflexivity).
  assert (Hs : success (Examples.result_of Examples.small_run) = true)
    by (vm_compute; reflexivity).
  assert (Hp : 0 < RETRAIN_INTERVAL_HOURS Examples.small_cfg) by reflexivity.
  assert (Hm : 0 < MIN_SCHEDULES_FOR_RETRAIN Examples.small_cfg) by reflexivity.
  assert (Hn : ScheduleDataStore.get_schedules_since (Examples.sec 11) Examples.dir4 = [])
    by (vm_compute; reflexivity).
  destruct (proj2 (should_retrain_gates (H := RefLibs.libs) Examples.small_cfg)
              (Examples.sec 10) (Examples.sec 11) (Examples.sec 12) false
              Examples.small_world (Examples.result_of Examples.small_run)
              (snd Examples.small_run) E Hs) as (Hnow & _ & Hnone & _).
  split; [exact E|]. split; [exact Hs|]. split; [exact Hp|].
  split; [exact (Hnow Hp Examples.dir4)|]. split; [exact Hm|]. split; [exact Hn|].
  exact (Hnone Hm (Examples.sec 1000000) Examples.dir4 Hn).
Defined.

(** With both gates configured to zero, [should_retrain] is true at the very
    instant a successful [train] finished. *)
Lemma should_retrain_true_right_after_train :
  Examples.succeeded Examples.eager_run = true
  /\ Trainer.should_retrain Examples.eager_cfg (Examples.sec 11)
       (self (snd Examples.eager_run)) (data_dir (disk (snd Examples.eager_run)))
     = true.
Proof. split; vm_compute; reflexivity. Qed.

(* ================================================================= *)
(** ** C2: the ensemble weights of a training run *)

Lemma fold_Qplus_acc (l : list Q) (a : Q) :
  (fold_left Qplus l a == a + fold_left Qplus l 0)%Q.
Proof.
  revert a. induction l as [|x l IH]; intros a; simpl.
  - ring.
  - rewrite (IH (a + x)%Q), (IH (0 + x)%Q). ring.
Qed.

Lemma Qsum_cons (x : Q) (l : list Q) : (Qsum (x :: l) == x + Qsum l)%Q.
Proof. unfold Qsum. simpl. rewrite fold_Qplus_acc. ring. Qed.


Lemma rmap_weights (scores : Dict.t Q) (t : Q) weights :
  rmap (fun item => let? w := py_div (snd item) t in Ok (fst item, w)) scores
  = Ok weights ->
  weights = map (fun item => (fst item, (snd item / t)%Q)) scores
  /\ (scores <> [] -> ~ (t == 0)%Q).
Proof.
  revert weights. induction scores as [|[k v] scores IH]; intros weights; simpl.
  - intros E. injection E as <-. split; [reflexivity | congruence].
  - unfold py_div at 1. destruct (Qeq_bool t 0) eqn:Et; simpl; [discriminate|].
    destruct (rmap _ scores) as [ws|e]; simpl; [|discriminate].
    intros E. injection E as <-. destruct (IH ws eq_refl) as [-> _].
    split; [reflexivity|]. intros _ Hz. apply Qeq_bool_iff in Hz. congruence.
Qed.


Lemma normalise_nonneg (scores weights : Dict.t Q) :
  Trainer.normalise scores = Ok weights ->
  (forall item, In item scores -> (0 <= snd item)%Q) ->
  forall item, In item weights -> (0 <= snd item)%Q.
Proof.
  unfold Trainer.normalise. intros E Hpos item Hin.
  destruct (rmap_weights _ _ _ E) as [-> Hnz].
  apply in_map_iff in Hin. destruct Hin as (it & <- & Hit). simpl.
  assert (Hne : scores <> []) by (intros ->; inversion Hit).
  specialize (Hnz Hne).
  assert (Ht : (0 <= Qsum (Dict.values scores))%Q).
  { clear -Hpos. unfold Dict.values. induction scores as [|x l IH].
    - unfold Qsum. simpl. apply Qle_refl.
    - simpl. rewrite Qsum_cons.
      assert (0 <= snd x)%Q by (apply Hpos; now left).
      assert (0 <= Qsum (map snd l))%Q by (apply IH; intros; apply Hpos; now right).
      lra. }
  specialize (Hpos it Hit).
  apply Qle_shift_div_l; [|lra].
  destruct (Qle_lt_or_eq _ _ Ht) as [Hlt|Heq]; [exact Hlt|].
  exfalso. apply Hnz. now symmetry.
Qed.

(** C2 (the code departs from the claim).  On a corpus of four with three
    learners whose validation scores are 1, -1 and -1, [train] succeeds and
    leaves a negative ensemble weight; with two learners scoring 1 and -1
    the scores sum to zero and [train] raises [ZeroDivisionError] instead of
    falling back to empty weights. *)
Theorem ensemble_weights_at_mixed_scores :
  (Examples.succeeded Examples.small_run = true
   /\ Dict.keys (model_scores (self (snd Examples.small_run)))
      = ["gradient_boosting"; "xgboost"; "lightgbm"]
   /\ has_negative_weight (ensemble_weights (self (snd Examples.small_run))) = true)
  /\ fst Examples.two_model_run = Raise ZeroDivisionError.
Proof. repeat split; vm_compute; reflexivity. Qed.

(* ================================================================= *)
(** ** C3: the confidence of a prediction *)

Lemma Qlt_bool_true (a b : Q) : Qlt_bool a b = true <-> (a < b)%Q.
Proof.
  unfold Qlt_bool. rewrite negb_true_iff. split.
  - intros E. apply Qnot_le_lt. intros Hle. apply Qle_bool_iff in Hle. congruence.
  - intros Hlt. destruct (Qle_bool b a) eqn:E; [|reflexivity].
    apply Qle_bool_iff in E. apply Qlt_not_le in Hlt. contradiction.
Qed.

Lemma Qlt_bool_false (a b : Q) : Qlt_bool a b = false <-> (b <= a)%Q.
Proof.
  unfold Qlt_bool. rewrite negb_false_iff. apply Qle_bool_iff.
Qed.

Lemma ensemble_confidence_bounds `{ExternalLibs} (predictions : list Q) :
  (1 # 2 <= Trainer.ensemble_confidence predictions <= 1)%Q.
Proof.
  unfold Trainer.ensemble_confidence, py_max, py_min.
  set (x := (1 - np_std predictions / 50)%Q).
  destruct (Qlt_bool x 1) eqn:E1.
  - apply Qlt_bool_true in E1. destruct (Qlt_bool (5 # 10) x) eqn:E2.
    + apply Qlt_bool_true in E2. lra.
    + lra.
  - destruct (Qlt_bool (5 # 10) 1) eqn:E2; lra.
Qed.

Lemma single_confidence_bounds (prediction : Q) :
  (Trainer.single_confidence prediction <= 1)%Q
  /\ ((-400 <= prediction)%Q <-> (0 <= Trainer.single_confidence prediction)%Q)
  /\ ((0 <= prediction)%Q -> (8 # 10 <= Trainer.single_confidence prediction)%Q).
Proof.
  unfold Trainer.single_confidence, py_min.
  set (x := ((8 # 10) + prediction / 100 * (2 # 10))%Q).
  assert (Ex : (x == (8 # 10) + prediction * (2 # 1000))%Q) by (unfold x; field).
  destruct (Qlt_bool x 1) eqn:E.
  - apply Qlt_bool_true in E. repeat split; intros; lra.
  - apply Qlt_bool_false in E. repeat split; intros; lra.
Qed.

Lemma dict_get_in_values {V} (d : Dict.t V) k v :
  Dict.get d k = Some v -> In v (Dict.values d).
Proof.
  induction d as [|[k' v'] d IH]; simpl; [discriminate|].
  destruct (String.eqb k k'); [intros E; injection E as ->; now left | auto].
Qed.

Lemma answers_in ms row m :
  answers_all ms row = true -> In m (Dict.values ms) ->
  exists v, est_predict m row = Ok v.
Proof.
  unfold answers_all. rewrite forallb_forall. intros Hall Hin.
  specialize (Hall m Hin). destruct (est_predict m row) as [v|e]; [eauto|discriminate].
Qed.

Lemma rmap_answers (l : list Estimator) row :
  forallb (fun m => match est_predict m row with Ok _ => true | Raise _ => false end) l
  = true ->
  exists vs, rmap (fun m => est_predict m row) l = Ok vs.
Proof.
  induction l as [|m l IH]; simpl; [eauto|].
  destruct (est_predict m row) as [v|e]; simpl; [|discriminate].
  intros Hl. destruct (IH Hl) as [vs ->]. simpl. eauto.
Qed.

Lemma weighted_prediction_answers ms weights row :
  answers_all ms row = true ->
  exists p, Trainer.weighted_prediction ms weights row = Ok p.
Proof.
  intros Hall. unfold Trainer.weighted_prediction. generalize 0%Q.
  induction weights as [|[name wgt] weights IH]; intros acc; simpl; [eauto|].
  destruct (Dict.get ms name) as [m|] eqn:E; simpl; [|apply IH].
  destruct (answers_in _ _ m Hall (dict_get_in_values _ _ _ E)) as [v ->]. simpl.
  apply IH.
Qed.

(** C3 (amended).  With models loaded that all answer on the feature row,
    [predict] returns a value and a confidence and leaves the trainer as it
    was.  In ensemble mode the confidence is
    [max(0.5, min(1.0, 1 - std/50))] over all the models' predictions, hence
    within [0.5, 1].  In single-model mode it is
    [min(1.0, 0.8 + prediction/100*0.2)]: at most 1, and at least 0 exactly
    when the prediction is at least -400 (at least 0.8 when the prediction is
    not negative). *)
Theorem predict_confidence `{ExternalLibs} cfg features use_ensemble w :
  Dict.is_empty (models (self w)) = false ->
  answers_all (models (self w)) (feature_vector cfg features) = true ->
  exists prediction confidence,
    Trainer.predict cfg features use_ensemble w = (Ok (prediction, confidence), w)
    /\ (confidence <= 1)%Q
    /\ if ensemble_mode cfg use_ensemble (self w)
       then
         (exists predictions,
             rmap (fun m => est_predict m (feature_vector cfg features))
               (Dict.values (models (self w))) = Ok predictions
             /\ confidence
                = py_max (5 # 10) (py_min 1 (1 - np_std predictions / 50)))
         /\ (1 # 2 <= confidence)%Q
       else
         confidence = py_min 1 ((8 # 10) + (prediction / 100) * (2 # 10))
         /\ ((-400 <= prediction)%Q <-> (0 <= confidence)%Q)
         /\ ((0 <= prediction)%Q -> (8 # 10 <= confidence)%Q).
Proof.
  intros Hne Hall. destruct w as [s d]. simpl in *.
  unfold Trainer.predict, bind, get_self, ret, lift. simpl. rewrite Hne. simpl.
  rewrite Hne. fold (feature_vector cfg features). unfold ensemble_mode.
  destruct (use_ensemble && USE_ENSEMBLE cfg && negb (Dict.is_empty (ensemble_weights s))).
  - destruct (weighted_prediction_answers (models s) (ensemble_weights s) _ Hall)
      as [p ->].
    destruct (rmap_answers _ _ Hall) as [vs Evs]. rewrite Evs.
    exists p, (Trainer.ensemble_confidence vs).
    pose proof (ensemble_confidence_bounds vs) as [Hlo Hhi].
    split; [reflexivity|]. split; [exact Hhi|]. split; [|exact Hlo].
    exists vs. split; reflexivity.
  - assert (Hbest : exists m,
               match
                 match best_model_name s with
                 | Some name => Dict.get (models s) name
                 | None => None
                 end
               with
               | Some m => Some m
               | None => hd_error (Dict.values (models s))
               end = Some m /\ In m (Dict.values (models s))).
    { destruct (best_model_name s) as [name|].
      - destruct (Dict.get (models s) name) as [m|] eqn:E.
        + exists m. split; [reflexivity|]. eapply dict_get_in_values; eauto.
        + destruct (models s) as [|[k m] ms]; [discriminate|].
          exists m. split; [reflexivity | now left].
      - destruct (models s) as [|[k m] ms]; [discriminate|].
        exists m. split; [reflexivity | now left]. }
    destruct Hbest as (m & -> & Hin).
    destruct (answers_in _ _ m Hall Hin) as [v ->].
    exists v, (Trainer.single_confidence v).
    pose proof (single_confidence_bounds v) as (Hhi & Hlo & Hlo').
    split; [reflexivity|]. split; [exact Hhi|]. split; [reflexivity|]. split; assumption.
Qed.

Lemma predict_confidence_witness :
  Dict.is_empty (models (self (snd Examples.small_run))) = false
  /\ answers_all (models (self (snd Examples.small_run)))
       (feature_vector Examples.small_cfg [("num_trains", PNum 25)]) = true
  /\ exists prediction confidence,
       Trainer.predict (H := RefLibs.libs) Examples.small_cfg
         [("num_trains", PNum 25)] true (snd Examples.small_run)
       = (Ok (prediction, confidence), snd Examples.small_run)
       /\ (1 # 2 <= confidence <= 1)%Q.
Proof.
  assert (Hne : Dict.is_empty (models (self (snd Examples.small_run))) = false)
    by (vm_compute; reflexivity).
  assert (Hall : answers_all (models (self (snd Examples.small_run)))
                   (feature_vector Examples.small_cfg [("num_trains", PNum 25)]) = true)
    by (vm_compute; reflexivity).
  split; [exact Hne|]. split; [exact Hall|].
  destruct (predict_confidence (H := RefLibs.libs) Examples.small_cfg
              [("num_trains", PNum 25)] true (snd Examples.small_run) Hne Hall)
    as (p & c & Hp & Hhi & Hmode).
  exists p, c. split; [exact Hp|].
  assert (Em : ensemble_mode Examples.small_cfg true (self (snd Examples.small_run))
               = true) by (vm_compute; reflexivity).
  rewrite Em in Hmode. destruct Hmode as [_ Hlo]. split; assumption.
Defined.

(** A single learner trained on schedules of quality -1490 predicts -1490,
    and the confidence that comes with it is negative. *)
Lemma single_model_confidence_negative :
  Examples.succeeded Examples.low_run = true
  /\ ensemble_mode Examples.single_cfg true (self (snd Examples.low_run)) = false
  /\ exists prediction confidence,
       fst Examples.low_prediction = Ok (prediction, confidence)
       /\ (confidence < 0)%Q.
Proof.
  split; [vm_compute; reflexivity|]. split; [vm_compute; reflexivity|].
  do 2 eexists. split; vm_compute; reflexivity.
Qed.

(* ================================================================= *)
(** ** C4: the routing decision *)

(** C4 (amended).  The decision table of [get_schedule_recommendation] on a
    request that is a dict.  Hybrid mode disabled: fallback with confidence 0;
    the reason says that hybrid mode is disabled when ML is available to the
    caller, and that the ML model is not available otherwise.  Hybrid mode
    enabled and no model loaded: fallback with confidence 0; the reason is the
    below-threshold one citing 0.00 and the threshold when ML is available,
    and the not-available one otherwise.  Models loaded: [use_ml] is
    [confidence >= threshold and ml_available], the method is "ml" exactly
    then, and when the confidence is below the threshold with ML available the
    method is "optimization" and the reason cites both numbers. *)
Theorem recommendation_table `{ExternalLibs} cfg now now' request ml_available w :
  let call :=
    HybridScheduler.get_schedule_recommendation cfg now now' (PDict request)
      ml_available w in
  let thr := ML_CONFIDENCE_THRESHOLD cfg in
  let features :=
    [ ("num_trains", Dict.get_default request "num_trains" (PNum 25));
      ("time_of_day", PNum (inject_Z (dt_hour now)));
      ("day_of_week", PNum (inject_Z (dt_weekday now'))) ] in
  (USE_HYBRID cfg = false ->
   call = (Ok {| use_ml := false; confidence := 0; threshold := thr;
                 method := "optimization";
                 reason := if ml_available
                           then "Hybrid mode disabled, using optimization"
                           else "ML model not available, using optimization" |}, w))
  /\ (USE_HYBRID cfg = true -> Dict.is_empty (models (self w)) = true ->
      call = (Ok {| use_ml := false; confidence := 0; threshold := thr;
                    method := "optimization";
                    reason := if ml_available
                              then "ML confidence (0.00) below threshold ("
                                     ++ float_repr thr ++ "), using optimization"
                              else "ML model not available, using optimization" |}, w))
  /\ (USE_HYBRID cfg = true -> Dict.is_empty (models (self w)) = false ->
      forall p c w',
        Trainer.predict cfg features true w = (Ok (p, c), w') ->
        exists r,
          call = (Ok r, w')
          /\ use_ml r = Qle_bool thr c && ml_available
          /\ confidence r = c /\ threshold r = thr
          /\ method r = (if use_ml r then "ml" else "optimization")
          /\ ((c < thr)%Q -> ml_available = true ->
              use_ml r = false /\ method r = "optimization"
              /\ reason r = "ML confidence (" ++ fmt2 c ++ ") below threshold ("
                              ++ float_repr thr ++ "), using optimization")).
Proof.
  intros call thr features.
  unfold call, HybridScheduler.get_schedule_recommendation,
    HybridScheduler.request_features, HybridScheduler.should_use_ml,
    HybridScheduler._get_reason, bind, lift, ret, get_self.
  split; [|split].
  - intros ->. simpl. destruct ml_available; reflexivity.
  - intros -> He. simpl.
    destruct (models (self w)) eqn:Em; [|discriminate].
    destruct ml_available; reflexivity.
  - intros -> He p c w' Hp. simpl.
    destruct (models (self w)) eqn:Em; [discriminate|]. cbn [Dict.is_empty].
    fold features. rewrite Hp. simpl.
    eexists. split; [reflexivity|]. simpl.
    repeat (split; [reflexivity|]).
    intros Hlt Hml. subst ml_available. unfold thr in *.
    assert (E : Qle_bool (ML_CONFIDENCE_THRESHOLD cfg) c = false).
    { destruct (Qle_bool (ML_CONFIDENCE_THRESHOLD cfg) c) eqn:E; [|reflexivity].
      apply Qle_bool_iff in E. apply Qlt_not_le in Hlt. contradiction. }
    rewrite E. simpl. repeat split; reflexivity.
Qed.

Lemma recommendation_table_witness :
  USE_HYBRID CONFIG = true
  /\ Dict.is_empty (models (self Examples.split_world)) = false
  /\ exists r,
       HybridScheduler.get_schedule_recommendation (H := RefLibs.libs) CONFIG
         Examples.t0 Examples.t0 Examples.request true Examples.split_world
       = (Ok r, Examples.split_world)
       /\ (confidence r == 6 # 10)%Q
       /\ use_ml r = false /\ method r = "optimization"
       /\ reason r = "ML confidence (0.60) below threshold (0.75), using optimization".
Proof.
  split; [reflexivity|]. split; [reflexivity|].
  destruct (recommendation_table (H := RefLibs.libs) CONFIG Examples.t0 Examples.t0
              [("num_trains", PNum 30); ("method", PStr "ga")] true
              Examples.split_world) as (_ & _ & Htable).
  destruct (Htable eq_refl eq_refl (0 + (1 # 2) * 30 + (1 # 2) * 70)%Q
              (Trainer.ensemble_confidence (H := RefLibs.libs) [30; 70]%Q)
              Examples.split_world)
    as (r & Hr & Huse & Hc & Hthr & Hm & Hbelow).
  - vm_compute. reflexivity.
  - exists r. split; [exact Hr|].
    destruct Hbelow as (Hu & Hmeth & Hreason);
      [vm_compute; reflexivity | reflexivity |].
    split; [rewrite Hc; vm_compute; reflexivity|].
    split; [exact Hu|]. split; [exact Hmeth|].
    rewrite Hreason. vm_compute. reflexivity.
Defined.

(** Hybrid mode enabled, no model on disk or in memory, ML available to the
    caller: the reason given is the below-threshold one.  Hybrid mode
    disabled and ML not available: the reason given is the not-available
    one. *)
Lemma reason_without_model :
  fst (HybridScheduler.get_schedule_recommendation (H := RefLibs.libs) CONFIG
         Examples.t0 Examples.t0 Examples.request true (Examples.fresh []))
  = Ok {| use_ml := false; confidence := 0; threshold := 75 # 100;
          method := "optimization";
          reason := "ML confidence (0.00) below threshold (0.75), using optimization" |}
  /\ reason_of
       (HybridScheduler.get_schedule_recommendation (H := RefLibs.libs)
          Examples.no_hybrid_cfg Examples.t0 Examples.t0 Examples.request false
          (Examples.fresh []))
     = Some "ML model not available, using optimization".
Proof. split; vm_compute; reflexivity. Qed.

(* ================================================================= *)
(** ** C5: training on too small a corpus *)

(** C5 (amended).  With fewer records available than the configured
    minimum, [train] returns a failure result, raises nothing and leaves the
    trainer and the disk untouched, whatever the force flag.  The result is
    the "Not enough data" one when the run is forced or [should_retrain]
    holds; an unforced call on a trainer that needs no retrain returns
    "Retraining not needed yet" before the corpus is looked at. *)
Theorem train_insufficient_data `{ExternalLibs} cfg t_check t_done t_save force w :
  available (disk w) < MIN_SCHEDULES_FOR_TRAINING cfg ->
  Trainer.train cfg t_check t_done t_save force w
  = (Ok (TrainSkipped
           (if negb force
               && negb (Trainer.should_retrain cfg t_check (self w) (data_dir (disk w)))
            then "Retraining not needed yet"
            else "Not enough data. Need "
                   ++ str_of_Z (MIN_SCHEDULES_FOR_TRAINING cfg)
                   ++ ", have " ++ str_of_Z (available (disk w)))), w).
Proof.
  unfold available. intros Hlt.
  unfold Trainer.train, bind, get_self, get_disk, ret. simpl.
  destruct (negb force && negb (Trainer.should_retrain cfg t_check (self w) _));
    [reflexivity|].
  apply Z.ltb_lt in Hlt. rewrite Hlt. reflexivity.
Qed.

Lemma train_insufficient_data_witness :
  available (disk (Examples.fresh (Examples.corpus 40)))
  < MIN_SCHEDULES_FOR_TRAINING CONFIG
  /\ Trainer.train (H := RefLibs.libs) CONFIG (Examples.sec 50) (Examples.sec 51)
       (Examples.sec 52) false (Examples.fresh (Examples.corpus 40))
     = (Ok (TrainSkipped "Not enough data. Need 100, have 40"),
        Examples.fresh (Examples.corpus 40)).
Proof.
  assert (Hlt : available (disk (Examples.fresh (Examples.corpus 40)))
                < MIN_SCHEDULES_FOR_TRAINING CONFIG) by (vm_compute; reflexivity).
  split; [exact Hlt|].
  rewrite (train_insufficient_data (H := RefLibs.libs) CONFIG (Examples.sec 50)
             (Examples.sec 51) (Examples.sec 52) false
             (Examples.fresh (Examples.corpus 40)) Hlt).
  vm_compute. reflexivity.
Defined.

(** Forty records, a minimum of 100, no force, a trainer that was trained ten
    seconds ago: the result is "Retraining not needed yet". *)
Lemma unforced_train_not_needed :
  available (disk Examples.recently_trained) = 40
  /\ fst (Trainer.train (H := RefLibs.libs) CONFIG (Examples.sec 60)
            (Examples.sec 61) (Examples.sec 62) false Examples.recently_trained)
     = Ok (TrainSkipped "Retraining not needed yet").
Proof. split; vm_compute; reflexivity. Qed.

(* ================================================================= *)
(** ** C6: model variants that are unavailable or fail to fit *)

Lemma train_model_unrecognised `{ExternalLibs} cfg X_train X_test y_train y_test
    all_metrics name w :
  recognised cfg name = false ->
  Trainer.train_model cfg X_train X_test y_train y_test all_metrics name w
  = (Ok all_metrics, w).
Proof.
  unfold recognised, Trainer.train_model.
  destruct (Trainer._get_model cfg name); [discriminate | reflexivity].
Qed.

Lemma train_model_fit_raises `{ExternalLibs} cfg X_train X_test y_train y_test
    all_metrics name model e w :
  Trainer._get_model cfg name = Some model ->
  fit model X_train y_train = Raise e ->
  Trainer.train_model cfg X_train X_test y_train y_test all_metrics name w
  = (Raise e, w).
Proof.
  intros Hm Hf. unfold Trainer.train_model. rewrite Hm.
  unfold bind, lift. rewrite Hf. reflexivity.
Qed.

Lemma loop_skips_unrecognised `{ExternalLibs} cfg X_train X_test y_train y_test
    names all_metrics w :
  foldM (Trainer.train_model cfg X_train X_test y_train y_test) names all_metrics w
  = foldM (Trainer.train_model cfg X_train X_test y_train y_test)
      (filter (recognised cfg) names) all_metrics w.
Proof.
  revert all_metrics w. induction names as [|name names IH]; intros acc w; simpl.
  - reflexivity.
  - destruct (recognised cfg name) eqn:E; simpl.
    + unfold bind. destruct (Trainer.train_model _ _ _ _ _ _ _ _) as [[acc'|e] w1];
        [apply IH | reflexivity].
    + unfold bind. rewrite (train_model_unrecognised _ _ _ _ _ _ _ _ E). apply IH.
Qed.

Lemma prepare_dataset_features `{ExternalLibs} cfg cfg' schedules :
  FEATURES cfg = FEATURES cfg' ->
  FeatureExtractor.prepare_dataset cfg schedules
  = FeatureExtractor.prepare_dataset cfg' schedules.
Proof.
  intros E. induction schedules as [|sd rest IH]; simpl; [reflexivity|].
  rewrite IH. unfold FeatureExtractor.try_extract. rewrite E. reflexivity.
Qed.

Lemma train_reaches_loop `{ExternalLibs} cfg t_check t_done t_save force w
    X_train X_test y_train y_test e w1 :
  reaches_training cfg t_check force w X_train X_test y_train y_test ->
  foldM (Trainer.train_model cfg X_train X_test y_train y_test) (MODEL_TYPES cfg)
    Dict.empty (start_run w) = (Raise e, w1) ->
  Trainer.train cfg t_check t_done t_save force w = (Raise e, w1).
Proof.
  intros (Hgo & Hmin & X & y & Hds & HX & Hsplit) Hloop.
  unfold Trainer.train, bind, get_self, get_disk, ret, lift, modify_self.
  assert (Eg : negb force
               && negb (Trainer.should_retrain cfg t_check (self w) (data_dir (disk w)))
               = false).
  { destruct Hgo as [-> | ->]; [reflexivity | apply andb_false_r]. }
  rewrite Eg. unfold available in Hmin. apply Z.ltb_ge in Hmin. rewrite Hmin.
  rewrite Hds. destruct X as [|row X]; [congruence|]. cbn [List.length Nat.eqb].
  rewrite Hsplit. unfold start_run in Hloop. simpl. rewrite Hloop. reflexivity.
Qed.

Lemma train_skips_unrecognised `{ExternalLibs} cfg t_check t_done t_save force w :
  Trainer.train cfg t_check t_done t_save force w
  = Trainer.train (with_model_types (filter (recognised cfg) (MODEL_TYPES cfg)) cfg)
      t_check t_done t_save force w.
Proof.
  unfold Trainer.train, bind, get_self, get_disk, ret, lift, modify_self.
  cbn [MODEL_TYPES with_model_types].
  destruct (negb force && _); [reflexivity|].
  change (MIN_SCHEDULES_FOR_TRAINING (with_model_types _ cfg))
    with (MIN_SCHEDULES_FOR_TRAINING cfg).
  destruct (_ <? _); [reflexivity|].
  rewrite (prepare_dataset_features (with_model_types _ cfg) cfg _ eq_refl).
  destruct (FeatureExtractor.prepare_dataset cfg _) as [[X y]|e0]; [|reflexivity].
  destruct (_ =? _)%nat; [reflexivity|].
  change (TRAIN_TEST_SPLIT (with_model_types _ cfg)) with (TRAIN_TEST_SPLIT cfg).
  destruct (train_test_split X y _) as [[[[Xa Xb] ya] yb]|e0]; [|reflexivity].
  rewrite (loop_skips_unrecognised cfg Xa Xb ya yb (MODEL_TYPES cfg)).
  reflexivity.
Qed.

(** C6 (amended).  A configured model variant that is unavailable (its name
    is not one [_get_model] knows) is skipped while the other variants
    proceed, whatever the libraries do: the loop body leaves everything as
    it was on such a name, and the run is the run of the configuration
    without the unknown names.  A variant whose fit raises is not skipped:
    once the variants before it are trained, [train] ends with that
    exception, uncaught. *)
Theorem variants_skipped_or_raising `{ExternalLibs} cfg t_check t_done t_save force w :
  (forall X_train X_test y_train y_test all_metrics name w0,
      recognised cfg name = false ->
      Trainer.train_model cfg X_train X_test y_train y_test all_metrics name w0
      = (Ok all_metrics, w0))
  /\ Trainer.train cfg t_check t_done t_save force w
     = Trainer.train (with_model_types (filter (recognised cfg) (MODEL_TYPES cfg)) cfg)
         t_check t_done t_save force w
  /\ forall X_train X_test y_train y_test before name model after all_metrics w1 e,
       reaches_training cfg t_check force w X_train X_test y_train y_test ->
       MODEL_TYPES cfg = (before ++ name :: after)%list ->
       foldM (Trainer.train_model cfg X_train X_test y_train y_test) before Dict.empty
         (start_run w) = (Ok all_metrics, w1) ->
       Trainer._get_model cfg name = Some model ->
       fit model X_train y_train = Raise e ->
       Trainer.train cfg t_check t_done t_save force w = (Raise e, w1).
Proof.
  split; [|split].
  - intros. now apply train_model_unrecognised.
  - apply train_skips_unrecognised.
  - intros X_train X_test y_train y_test before name model after all_metrics w1 e
      Hreach Htypes Hbefore Hmodel Hfit.
    apply (train_reaches_loop _ _ _ _ _ _ _ _ _ _ _ _ Hreach).
    rewrite Htypes, foldM_app. rewrite (bind_ok _ _ _ _ _ Hbefore). simpl.
    apply bind_raise. now apply train_model_fit_raises with (model := model).
Qed.

(** With libraries that fit every variant, the misspelt name is skipped and
    the three known variants are trained to completion; with a library that
    cannot fit the first variant, the run ends with its exception. *)
Lemma variants_skipped_or_raising_witness :
  recognised Examples.misspelt_cfg "xgbost" = false
  /\ Trainer.train (H := RefLibs.libs) Examples.misspelt_cfg (Examples.sec 10)
       (Examples.sec 11) (Examples.sec 12) false Examples.small_world
     = Trainer.train (H := RefLibs.libs)
         (with_model_types ["gradient_boosting"; "xgboost"; "lightgbm"]
            Examples.misspelt_cfg)
         (Examples.sec 10) (Examples.sec 11) (Examples.sec 12) false
         Examples.small_world
  /\ Examples.succeeded
       (Trainer.train (H := RefLibs.libs) Examples.misspelt_cfg (Examples.sec 10)
          (Examples.sec 11) (Examples.sec 12) false Examples.small_world) = true
  /\ Dict.keys
       (models (self (snd (Trainer.train (H := RefLibs.libs) Examples.misspelt_cfg
                             (Examples.sec 10) (Examples.sec 11) (Examples.sec 12)
                             false Examples.small_world))))
     = ["gradient_boosting"; "xgboost"; "lightgbm"]
  /\ reaches_training (H := RefLibs.failing_libs) Examples.small_cfg (Examples.sec 10)
       false Examples.small_world Examples.small_X_train Examples.small_X_test
       Examples.small_y_train Examples.small_y_test
  /\ Trainer.train (H := RefLibs.failing_libs) Examples.small_cfg (Examples.sec 10)
       (Examples.sec 11) (Examples.sec 12) false Examples.small_world
     = (Raise ValueError, start_run Examples.small_world).
Proof.
  assert (Hreach : reaches_training (H := RefLibs.failing_libs) Examples.small_cfg
                     (Examples.sec 10) false Examples.small_world
                     Examples.small_X_train Examples.small_X_test
                     Examples.small_y_train Examples.small_y_test).
  { split; [right; vm_compute; reflexivity|].
    split; [vm_compute; discriminate|].
    exists (fst Examples.small_dataset), (snd Examples.small_dataset).
    split; [vm_compute; reflexivity|].
    split; [vm_compute; discriminate | vm_compute; reflexivity]. }
  split; [reflexivity|].
  split.
  { exact (proj1 (proj2 (variants_skipped_or_raising (H := RefLibs.libs)
                           Examples.misspelt_cfg (Examples.sec 10) (Examples.sec 11)
                           (Examples.sec 12) false Examples.small_world))). }
  split; [vm_compute; reflexivity|]. split; [vm_compute; reflexivity|].
  split; [exact Hreach|].
  exact (proj2 (proj2 (variants_skipped_or_raising (H := RefLibs.failing_libs)
                         Examples.small_cfg (Examples.sec 10) (Examples.sec 11)
                         (Examples.sec 12) false Examples.small_world))
           Examples.small_X_train Examples.small_X_test
           Examples.small_y_train Examples.small_y_test
           [] "gradient_boosting"
           (GradientBoostingRegressor 100 (1 # 1000) 42)
           ["xgboost"; "lightgbm"] Dict.empty
           (start_run Examples.small_world) ValueError
           Hreach eq_refl eq_refl eq_refl eq_refl).
Defined.

(** The library cannot fit the first of three configured variants: [train]
    ends with the library's exception and no variant is trained, although
    the two others alone train to completion. *)
Lemma fit_failure_aborts_training :
  fst Examples.failing_run = Raise ValueError
  /\ Dict.keys (models (self (snd Examples.failing_run))) = []
  /\ Examples.succeeded Examples.remaining_run = true.
Proof. repeat split; vm_compute; reflexivity. Qed.

(* ================================================================= *)
(** ** C7: loading the persisted models *)

(** C7 (amended).  [load_model] installs the models, the weights, the
    best-model name and the last-trained time of whatever readable blob is
    stored under "models_latest.pkl"; the feature list recorded in the blob
    is not compared with the configured one.  Only a missing or unreadable
    blob is ignored: the call answers [False] and changes nothing. *)
Theorem load_model_installs_latest w model_data :
  Dict.get (model_dir (disk w)) "models_latest.pkl" = Some (Pickled model_data) ->
  Trainer.load_model w
  = (Ok true, {| self := install model_data (self w); disk := disk w |})
  /\ stored_features (disk w) = Some (md_features model_data)
  /\ forall w0,
       Dict.get (model_dir (disk w0)) "models_latest.pkl" = None
       \/ Dict.get (model_dir (disk w0)) "models_latest.pkl" = Some Unreadable ->
       Trainer.load_model w0 = (Ok false, w0).
Proof.
  intros E. unfold Trainer.load_model, stored_features, bind, get_disk, ret, modify_self.
  rewrite E. simpl. split; [reflexivity|]. split; [reflexivity|].
  intros w0 [E0 | E0]; rewrite E0; reflexivity.
Qed.

Lemma load_model_installs_latest_witness :
  exists model_data,
    Dict.get (model_dir (disk Examples.restarted)) "models_latest.pkl"
    = Some (Pickled model_data)
    /\ md_features model_data = ["num_trains"; "avg_mileage"]
    /\ Trainer.load_model Examples.restarted
       = (Ok true, {| self := install model_data (self Examples.restarted);
                      disk := disk Examples.restarted |}).
Proof.
  assert (E : exists model_data,
             Dict.get (model_dir (disk Examples.restarted)) "models_latest.pkl"
             = Some (Pickled model_data)
             /\ md_features model_data = ["num_trains"; "avg_mileage"]).
  { eexists. split; vm_compute; reflexivity. }
  destruct E as (model_data & E & Ef).
  exists model_data. split; [exact E|]. split; [exact Ef|].
  exact (proj1 (load_model_installs_latest Examples.restarted model_data E)).
Defined.

(** Models trained and saved under the feature list
    [num_trains, avg_mileage] are installed by a trainer that starts with the
    default list of ten features. *)
Lemma stale_features_installed :
  stored_features (disk Examples.restarted) = Some ["num_trains"; "avg_mileage"]
  /\ FEATURES CONFIG <> ["num_trains"; "avg_mileage"]
  /\ fst (Trainer.load_model Examples.restarted) = Ok true
  /\ Dict.keys (models (self (snd (Trainer.load_model Examples.restarted))))
     = ["gradient_boosting"; "xgboost"; "lightgbm"].
Proof.
  split; [vm_compute; reflexivity|]. split; [discriminate|].
  split; vm_compute; reflexivity.
Qed.

(* ================================================================= *)
(** ** C8: feature extraction *)

Lemma wf_train_inv train :
  wf_train train = true ->
  exists kv,
    train = PDict kv
    /\ hashable (Dict.get_default kv "status" (PStr "UNKNOWN")) = true
    /\ (exists r, Dict.get_default kv "readiness_score" (PNum 0) = PNum r)
    /\ (exists k, Dict.get_default kv "cumulative_km" (PNum 0) = PNum k)
    /\ (exists c, Dict.get_default kv "fitness_certificates" (PDict []) = PDict c)
    /\ match Dict.get_default kv "branding" (PDict []) with
       | PDict b => hashable (Dict.get_default b "exposure_priority" (PStr "NONE")) = true
       | _ => True
       end.
Proof.
  destruct train as [| | | |l|kv]; try discriminate. simpl.
  rewrite !andb_true_iff. intros ((((Hs & Hr) & Hk) & Hc) & Hb).
  exists kv. split; [reflexivity|]. split; [exact Hs|].
  split; [destruct (Dict.get_default kv "readiness_score" (PNum 0)); try discriminate; eauto|].
  split; [destruct (Dict.get_default kv "cumulative_km" (PNum 0)); try discriminate; eauto|].
  split; [destruct (Dict.get_default kv "fitness_certificates" (PDict [])); try discriminate; eauto|].
  destruct (Dict.get_default kv "branding" (PDict [])); auto.
Qed.

Lemma count_status_total trains :
  forallb wf_train trains = true ->
  forall counts, exists counts',
    rfold FeatureExtractor.count_status trains counts = Ok counts'.
Proof.
  induction trains as [|t trains IH]; simpl; intros Hwf counts; [eauto|].
  apply andb_true_iff in Hwf. destruct Hwf as [Ht Hts].
  destruct (wf_train_inv _ Ht) as (kv & -> & Hs & _).
  unfold FeatureExtractor.count_status at 1. simpl. rewrite Hs. simpl.
  apply IH. exact Hts.
Qed.

Lemma count_certificates_total trains :
  forallb wf_train trains = true ->
  forall issues, exists issues',
    rfold FeatureExtractor.count_certificates trains issues = Ok issues'.
Proof.
  induction trains as [|t trains IH]; simpl; intros Hwf issues; [eauto|].
  apply andb_true_iff in Hwf. destruct Hwf as [Ht Hts].
  destruct (wf_train_inv _ Ht) as (kv & -> & _ & _ & _ & (c & Hc) & _).
  unfold FeatureExtractor.count_certificates at 1. simpl. rewrite Hc. simpl.
  apply IH. exact Hts.
Qed.

Lemma add_branding_total trains :
  forallb wf_train trains = true ->
  forall score, exists score',
    rfold FeatureExtractor.add_branding trains score = Ok score'.
Proof.
  induction trains as [|t trains IH]; simpl; intros Hwf score; [eauto|].
  apply andb_true_iff in Hwf. destruct Hwf as [Ht Hts].
  destruct (wf_train_inv _ Ht) as (kv & -> & _ & _ & _ & _ & Hb).
  unfold FeatureExtractor.add_branding at 1. simpl.
  destruct (Dict.get_default kv "branding" (PDict [])); simpl; try (apply IH; exact Hts).
  rewrite Hb. simpl. apply IH. exact Hts.
Qed.

Lemma numeric_column trains key :
  (forall t, In t trains ->
     exists kv q, t = PDict kv /\ Dict.get_default kv key (PNum 0) = PNum q) ->
  exists qs,
    rmap (fun t => py_get t key (PNum 0)) trains = Ok (map PNum qs)
    /\ List.length qs = List.length trains.
Proof.
  induction trains as [|t trains IH]; intros Hcol; simpl.
  - exists []. split; reflexivity.
  - destruct (Hcol t (or_introl eq_refl)) as (kv & q & -> & Hq).
    destruct IH as (qs & E & Hlen); [intros t' Ht'; apply Hcol; now right|].
    simpl. rewrite Hq, E. simpl. exists (q :: qs). split; [reflexivity|].
    simpl. now rewrite Hlen.
Qed.

Lemma py_sum_numbers qs : forall acc, exists total,
  rfold (fun acc v => let? x := as_number v in Ok (acc + x)%Q) (map PNum qs) acc
  = Ok total.
Proof.
  induction qs as [|q qs IH]; intros acc; simpl; [eauto|]. apply IH.
Qed.

Lemma ref_numbers qs : RefLibs.numbers (map PNum qs) = Ok qs.
Proof.
  unfold RefLibs.numbers. induction qs as [|q qs IH]; simpl; [reflexivity|].
  rewrite IH. reflexivity.
Qed.

Lemma ref_numpy_on_numbers : numpy_on_numbers (H := RefLibs.libs).
Proof.
  intros q qs. simpl.
  unfold RefLibs.ref_np_mean, RefLibs.ref_np_min, RefLibs.ref_np_var.
  change (PNum q :: map PNum qs) with (map PNum (q :: qs)).
  rewrite ref_numbers. simpl. repeat split; reflexivity.
Qed.

(** C8 (amended).  On a record of the shape [wf_schedule] describes,
    [extract_from_schedule] does not raise and returns a feature map with
    exactly the twelve keys it computes, among them every feature of the
    default configuration.  When the timestamp cannot be parsed the hour is
    12 and the weekday 0, and with no trainsets every other feature is 0. *)
Theorem extract_on_well_formed `{ExternalLibs} schedule :
  numpy_on_numbers ->
  wf_schedule schedule = true ->
  exists features,
    FeatureExtractor.extract_from_schedule schedule = Ok features
    /\ Dict.keys features = extracted_keys
    /\ (forall f, In f default_features -> Dict.mem features f = true)
    /\ (timestamp_unparsable schedule ->
        Dict.get features "time_of_day" = Some 12%Q
        /\ Dict.get features "day_of_week" = Some 0%Q)
    /\ (trainsets_of schedule = Some [] ->
        forall f, In f extracted_keys -> f <> "time_of_day" -> f <> "day_of_week" ->
        Dict.get features f = Some 0%Q).
Proof.
  intros Hnp Hwf. unfold wf_schedule in Hwf.
  destruct (trainsets_of schedule) as [trains|] eqn:Etr; [|discriminate].
  unfold trainsets_of in Etr.
  destruct schedule as [| | | |l|kv]; try discriminate.
  destruct (Dict.get_default kv "trainsets" (PList [])) as [| | | |trains'|kv'] eqn:Eget;
    try discriminate.
  injection Etr as ->.
  destruct (count_status_total _ Hwf []) as [counts Ecounts].
  destruct (count_certificates_total _ Hwf 0) as [issues Eissues].
  destruct (add_branding_total _ Hwf 0) as [score Escore].
  destruct (numeric_column trains "readiness_score") as (rs & Ers & Hrs).
  { intros t Ht. rewrite forallb_forall in Hwf.
    destruct (wf_train_inv _ (Hwf t Ht)) as (tkv & -> & _ & (r & Hr) & _). eauto. }
  destruct (numeric_column trains "cumulative_km") as (ks & Eks & Hks).
  { intros t Ht. rewrite forallb_forall in Hwf.
    destruct (wf_train_inv _ (Hwf t Ht)) as (tkv & -> & _ & _ & (k & Hk) & _). eauto. }
  destruct (py_sum_numbers ks 0%Q) as [total Etotal].
  unfold FeatureExtractor.extract_from_schedule.
  cbn [py_get rbind]. rewrite Eget. cbn [py_len py_iter rbind].
  rewrite Ecounts. cbn [rbind]. rewrite Ers. cbn [rbind].
  assert (Htime : exists hour weekday,
             FeatureExtractor.time_features (PDict kv) = (hour, weekday)
             /\ (timestamp_unparsable (PDict kv) -> hour = 12 /\ weekday = 0)).
  { unfold FeatureExtractor.time_features, timestamp_unparsable.
    destruct (py_get (PDict kv) "generated_at" (PStr "")) as [[| | |str| |]|e];
      try (exists 12, 0; split; [reflexivity | auto]).
    destruct (fromisoformat _) as [t|].
    - do 2 eexists. split; [reflexivity | discriminate].
    - exists 12, 0. split; [reflexivity | auto]. }
  destruct Htime as (hour & weekday & Etime & Hdefault).
  destruct rs as [|r rs]; destruct ks as [|k ks];
    try (rewrite <- Hrs in Hks; discriminate).
  - (* no trainsets *)
    destruct trains; [|discriminate]. cbn [map rbind rmap].
    simpl in Ecounts, Eissues, Escore.
    injection Ecounts as <-. injection Eissues as <-. injection Escore as <-.
    cbn [rfold rbind]. rewrite Etime.
    eexists. split; [reflexivity|]. split; [reflexivity|].
    split; [|split].
    + intros f Hf. simpl in Hf.
      repeat (destruct Hf as [<- | Hf]; [reflexivity|]). contradiction.
    + intros Hu. destruct (Hdefault Hu) as [-> ->]. split; reflexivity.
    + intros _ f Hf Hh Hd. simpl in Hf.
      repeat (destruct Hf as [<- | Hf]; [try reflexivity; congruence|]). contradiction.
  - (* some trainsets *)
    destruct (Hnp r rs) as (Emean & Emin & _).
    destruct (Hnp k ks) as (Emean' & _ & Evar').
    cbn [map]. change (PNum r :: map PNum rs) with (map PNum (r :: rs)).
    rewrite Emean, Emin. cbn [rbind]. rewrite Eks. cbn [rbind map].
    change (PNum k :: map PNum ks) with (map PNum (k :: ks)).
    unfold py_sum. rewrite Etotal. cbn [rbind].
    rewrite Emean'. cbn [rbind]. rewrite Evar'. cbn [rbind].
    rewrite Eissues. cbn [rbind]. rewrite Escore. cbn [rbind]. rewrite Etime.
    eexists. split; [reflexivity|]. split; [reflexivity|].
    split; [|split].
    + intros f Hf. simpl in Hf.
      repeat (destruct Hf as [<- | Hf]; [reflexivity|]). contradiction.
    + intros Hu. destruct (Hdefault Hu) as [-> ->]. split; reflexivity.
    + intros Hnone. injection Hnone as ->. discriminate.
Qed.

Lemma extract_on_well_formed_witness :
  numpy_on_numbers (H := RefLibs.libs)
  /\ wf_schedule Examples.rec_b = true
  /\ exists features,
       FeatureExtractor.extract_from_schedule (H := RefLibs.libs) Examples.rec_b
       = Ok features
       /\ Dict.keys features = extracted_keys
       /\ Dict.get features "time_of_day" = Some 12%Q
       /\ Dict.get features "day_of_week" = Some 0%Q.
Proof.
  split; [exact ref_numpy_on_numbers|]. split; [reflexivity|].
  destruct (extract_on_well_formed (H := RefLibs.libs) Examples.rec_b
              ref_numpy_on_numbers eq_refl)
    as (features & E & Hkeys & _ & Htime & _).
  exists features. split; [exact E|]. split; [exact Hkeys|].
  apply Htime. vm_compute. reflexivity.
Defined.

(** A record whose [trainsets] entry is null makes extraction raise
    [TypeError], and so does a unit whose mileage is null; a unit whose
    certificates are null makes it raise [AttributeError]. *)
Lemma extract_raises_on_malformed_record :
  FeatureExtractor.extract_from_schedule (H := RefLibs.libs)
    (PDict [("trainsets", PNone)]) = Raise TypeError
  /\ FeatureExtractor.extract_from_schedule (H := RefLibs.libs)
       (PDict [("trainsets", PList [PDict [("cumulative_km", PNone)]])])
     = Raise TypeError
  /\ FeatureExtractor.extract_from_schedule (H := RefLibs.libs)
       (PDict [("trainsets", PList [PDict [("fitness_certificates", PNone)]])])
     = Raise AttributeError.
Proof. repeat split; vm_compute; reflexivity. Qed.

(* ================================================================= *)
(** ** C9: the order of the corpus *)

(** C9 (the code departs from the claim).  Five schedules with the ids run5,
    run4, run3, run2, run1 are saved in this order, one second apart.
    [load_schedules] returns them oldest first, and after
    [clear_old_schedules(2)] the two that remain are the two oldest: the
    files are ordered by name, and the name starts with the schedule id. *)
Theorem corpus_ordered_by_file_name :
  map f_name Examples.dir5
  = [ "run5_20240101_000001.json"; "run4_20240101_000002.json";
      "run3_20240101_000003.json"; "run2_20240101_000004.json";
      "run1_20240101_000005.json" ]
  /\ map saved_at_of (ScheduleDataStore.load_schedules None Examples.dir5)
     = [ Some "2024-01-01T00:00:01"; Some "2024-01-01T00:00:02";
         Some "2024-01-01T00:00:03"; Some "2024-01-01T00:00:04";
         Some "2024-01-01T00:00:05" ]
  /\ map saved_at_of
       (ScheduleDataStore.load_schedules None
          (ScheduleDataStore.clear_old_schedules 2 Examples.dir5))
     = [ Some "2024-01-01T00:00:01"; Some "2024-01-01T00:00:02" ].
Proof. repeat split; vm_compute; reflexivity. Qed.

(* ================================================================= *)
(** ** C10: what the router looks at *)

Lemma routed_vector cfg now now' num_trains :
  feature_vector cfg (routed_features now now' num_trains)
  = map (fun f =>
           if String.eqb f "num_trains" then num_trains
           else if String.eqb f "time_of_day" then PNum (inject_Z (dt_hour now))
           else if String.eqb f "day_of_week" then PNum (inject_Z (dt_weekday now'))
           else PNum 0)
      (FEATURES cfg).
Proof.
  unfold feature_vector. apply map_ext. intros f.
  unfold routed_features, Dict.get_default. simpl.
  destruct (String.eqb f "num_trains"); [reflexivity|].
  destruct (String.eqb f "time_of_day"); [reflexivity|].
  destruct (String.eqb f "day_of_week"); reflexivity.
Qed.

Lemma predict_on_row `{ExternalLibs} cfg features use_ensemble w :
  Dict.is_empty (models (self w)) = false ->
  Trainer.predict cfg features use_ensemble w
  = (if ensemble_mode cfg use_ensemble (self w)
     then
       let? prediction :=
         Trainer.weighted_prediction (models (self w)) (ensemble_weights (self w))
           (feature_vector cfg features) in
       let? predictions :=
         rmap (fun m => est_predict m (feature_vector cfg features))
           (Dict.values (models (self w))) in
       Ok (prediction, Trainer.ensemble_confidence predictions)
     else
       match single_model (self w) with
       | Some m =>
           let? prediction := est_predict m (feature_vector cfg features) in
           Ok (prediction, Trainer.single_confidence prediction)
       | None => Raise (LibraryError "IndexError")
       end,
     w).
Proof.
  intros Hm. unfold Trainer.predict, bind, get_self, ret, lift. rewrite Hm.
  cbn [fst snd]. rewrite Hm. unfold ensemble_mode, single_model.
  fold (feature_vector cfg features).
  destruct (use_ensemble && USE_ENSEMBLE cfg
            && negb (Dict.is_empty (ensemble_weights (self w)))).
  - destruct (Trainer.weighted_prediction _ _ _) as [p|e]; cbn [rbind]; [|reflexivity].
    destruct (rmap _ _) as [ps|e]; reflexivity.
  - destruct (match best_model_name (self w) with
              | Some name => Dict.get (models (self w)) name
              | None => None
              end) as [m|].
    + destruct (est_predict m _); reflexivity.
    + destruct (hd_error _) as [m|]; [|reflexivity].
      destruct (est_predict m _); reflexivity.
Qed.

(** C10.  The router derives exactly three features from a request:
    [num_trains] read from it (25 when absent) and the hour and the weekday
    of the clock; nothing else of the request reaches the decision, so two
    requests with the same [num_trains] entry get the same recommendation.
    The recommendation is made from [should_use_ml] on these features, and
    with hybrid mode on and models loaded from what [Trainer.predict]
    answers on them.  [predict] asks the models on the row that holds, for
    each configured feature, the value given for it and 0.0 otherwise: for
    the router's features, the three at their configured places and 0.0 at
    every other; its answer is read off the models' answers on that row. *)
Theorem routing_uses_three_features `{ExternalLibs} cfg now now' ml_available w :
  let thr := ML_CONFIDENCE_THRESHOLD cfg in
  (forall request request',
      py_get request "num_trains" (PNum 25) = py_get request' "num_trains" (PNum 25) ->
      HybridScheduler.get_schedule_recommendation cfg now now' request ml_available w
      = HybridScheduler.get_schedule_recommendation cfg now now' request' ml_available w)
  /\ (forall kv,
        let features :=
          routed_features now now' (Dict.get_default kv "num_trains" (PNum 25)) in
        HybridScheduler.request_features now now' (PDict kv) = Ok features
        /\ HybridScheduler.get_schedule_recommendation cfg now now' (PDict kv)
             ml_available w
           = match HybridScheduler.should_use_ml cfg features w with
             | (Ok (use, c), w') =>
                 (Ok {| use_ml := use && ml_available; confidence := c;
                        threshold := thr;
                        method := if use && ml_available then "ml" else "optimization";
                        reason := HybridScheduler._get_reason cfg use ml_available c |},
                  w')
             | (Raise e, w') => (Raise e, w')
             end
        /\ (USE_HYBRID cfg = true ->
            Dict.is_empty (models (self w)) = false ->
            HybridScheduler.get_schedule_recommendation cfg now now' (PDict kv)
              ml_available w
            = match Trainer.predict cfg features true w with
              | (Ok (_, c), w') =>
                  (Ok {| use_ml := Qle_bool thr c && ml_available; confidence := c;
                         threshold := thr;
                         method := if Qle_bool thr c && ml_available
                                   then "ml" else "optimization";
                         reason := HybridScheduler._get_reason cfg (Qle_bool thr c)
                                     ml_available c |},
                   w')
              | (Raise e, w') => (Raise e, w')
              end))
  /\ (forall features use_ensemble,
        Dict.is_empty (models (self w)) = false ->
        Trainer.predict cfg features use_ensemble w
        = (if ensemble_mode cfg use_ensemble (self w)
           then
             let? prediction :=
               Trainer.weighted_prediction (models (self w))
                 (ensemble_weights (self w)) (feature_vector cfg features) in
             let? predictions :=
               rmap (fun m => est_predict m (feature_vector cfg features))
                 (Dict.values (models (self w))) in
             Ok (prediction, Trainer.ensemble_confidence predictions)
           else
             match single_model (self w) with
             | Some m =>
                 let? prediction := est_predict m (feature_vector cfg features) in
                 Ok (prediction, Trainer.single_confidence prediction)
             | None => Raise (LibraryError "IndexError")
             end,
           w))
  /\ (forall num_trains,
        feature_vector cfg (routed_features now now' num_trains)
        = map (fun f =>
                 if String.eqb f "num_trains" then num_trains
                 else if String.eqb f "time_of_day"
                      then PNum (inject_Z (dt_hour now))
                 else if String.eqb f "day_of_week"
                      then PNum (inject_Z (dt_weekday now'))
                 else PNum 0)
            (FEATURES cfg)).
Proof.
  intros thr. split; [|split; [|split]].
  - intros request request' E.
    unfold HybridScheduler.get_schedule_recommendation,
      HybridScheduler.request_features. rewrite E. reflexivity.
  - intros kv features. split; [reflexivity|]. split.
    + unfold HybridScheduler.get_schedule_recommendation, bind, lift, ret.
      change (HybridScheduler.request_features now now' (PDict kv)) with (Ok features).
      cbv beta iota.
      destruct (HybridScheduler.should_use_ml cfg features w) as [[[use c]|e] w'];
        reflexivity.
    + intros Hh Hm.
      unfold HybridScheduler.get_schedule_recommendation, bind, lift, ret.
      change (HybridScheduler.request_features now now' (PDict kv)) with (Ok features).
      cbv beta iota.
      unfold HybridScheduler.should_use_ml. rewrite Hh. cbn [negb].
      unfold bind, get_self, ret. cbv beta iota. cbn [self]. rewrite Hm.
      destruct (Trainer.predict cfg features true w) as [[[p c]|e] w']; reflexivity.
  - intros features use_ensemble Hm. now apply predict_on_row.
  - intros num_trains. apply routed_vector.
Qed.

(** Two requests with the same number of trains get the same recommendation;
    with a model whose answer depends on the number of trains, a request for
    50 trains is advised the ML method and a request for 30 is not. *)
Lemma routing_uses_three_features_witness :
  py_get Examples.request "num_trains" (PNum 25)
  = py_get Examples.request' "num_trains" (PNum 25)
  /\ HybridScheduler.get_schedule_recommendation (H := RefLibs.libs) CONFIG
       Examples.t0 Examples.t0 Examples.request true Examples.sized_world
     = HybridScheduler.get_schedule_recommendation (H := RefLibs.libs) CONFIG
         Examples.t0 Examples.t0 Examples.request' true Examples.sized_world
  /\ Examples.advice Examples.request Examples.sized_world = Some (false, "optimization")
  /\ Examples.advice Examples.request_50 Examples.sized_world = Some (true, "ml").
Proof.
  split; [reflexivity|]. split.
  - exact (proj1 (routing_uses_three_features (H := RefLibs.libs) CONFIG Examples.t0
                    Examples.t0 true Examples.sized_world)
             Examples.request Examples.request' eq_refl).
  - split; vm_compute; reflexivity.
Defined.

(* ================================================================= *)
(** * Further properties *)

(** ** Strings, dictionaries and sorting *)

Lemma length_append (s t : string) :
  String.length (s ++ t) = (String.length s + String.length t)%nat.
Proof. induction s as [|c s IH]; simpl; [reflexivity | now rewrite IH]. Qed.

Lemma append_assoc (s t u : string) : (s ++ t) ++ u = s ++ (t ++ u).
Proof. induction s as [|c s IH]; simpl; [reflexivity | now rewrite IH]. Qed.

Lemma substring_all (s : string) : substring 0 (String.length s) s = s.
Proof. induction s as [|c s IH]; simpl; [reflexivity | now rewrite IH]. Qed.

Lemma substring_suffix (s t : string) :
  substring (String.length s) (String.length t) (s ++ t) = t.
Proof. induction s as [|c s IH]; simpl; [apply substring_all | exact IH]. Qed.

Lemma ends_with_append (s suffix : string) : ends_with suffix (s ++ suffix) = true.
Proof.
  unfold ends_with. rewrite length_append.
  replace (String.length s + String.length suffix - String.length suffix)%nat
    with (String.length s) by lia.
  rewrite substring_suffix, String.eqb_refl, andb_true_r.
  apply Nat.leb_le. lia.
Qed.

Lemma dict_get_set_same {V} (d : Dict.t V) k v : Dict.get (Dict.set d k v) k = Some v.
Proof.
  induction d as [|[k' v'] d IH]; simpl.
  - now rewrite String.eqb_refl.
  - destruct (String.eqb k k') eqn:E; simpl; rewrite E; [reflexivity | exact IH].
Qed.

Lemma dict_get_set_other {V} (d : Dict.t V) k k' v :
  k' <> k -> Dict.get (Dict.set d k v) k' = Dict.get d k'.
Proof.
  intros Hne. induction d as [|[k0 v0] d IH]; simpl.
  - apply String.eqb_neq in Hne. now rewrite Hne.
  - destruct (String.eqb k k0) eqn:E; simpl.
    + apply String.eqb_eq in E. subst k0.
      apply String.eqb_neq in Hne. now rewrite Hne.
    + destruct (String.eqb k' k0); [reflexivity | exact IH].
Qed.


Lemma ltb_lt (a b : string) : String.ltb a b = true <-> String_as_OT.lt a b.
Proof.
  unfold String.ltb. rewrite <- String_as_OT.cmp_lt. unfold String_as_OT.cmp.
  destruct (String.compare a b); split; congruence.
Qed.

Lemma ltb_irrefl (a : string) : String.ltb a a = false.
Proof.
  destruct (String.ltb a a) eqn:E; [|reflexivity].
  apply ltb_lt in E. exfalso. exact (String_as_OT.lt_not_eq _ _ E eq_refl).
Qed.

Lemma ltb_trans (a b c : string) :
  String.ltb a b = true -> String.ltb b c = true -> String.ltb a c = true.
Proof. rewrite !ltb_lt. apply String_as_OT.lt_trans. Qed.

Lemma ltb_total (a b : string) :
  String.ltb a b = true \/ a = b \/ String.ltb b a = true.
Proof.
  destruct (String_as_OT.compare a b) as [Hlt | Heq | Hgt].
  - left. now apply ltb_lt.
  - right. left. exact Heq.
  - right. right. now apply ltb_lt.
Qed.

Lemma geb_trans (a b c : string) :
  String.ltb a b = false -> String.ltb b c = false -> String.ltb a c = false.
Proof.
  intros Hab Hbc. destruct (String.ltb a c) eqn:Hac; [|reflexivity].
  destruct (ltb_total b a) as [Hba | [-> | Hba']]; [| congruence | congruence].
  destruct (ltb_total c b) as [Hcb | [-> | Hcb']]; [| congruence | congruence].
  pose proof (ltb_trans _ _ _ (ltb_trans _ _ _ Hac Hcb) Hba) as Haa.
  rewrite ltb_irrefl in Haa. discriminate.
Qed.

Lemma insert_desc_perm f l : Permutation (insert_desc f l) (f :: l).
Proof.
  induction l as [|g l IH]; simpl; [reflexivity|].
  destruct (String.ltb (f_name f) (f_name g)); [|reflexivity].
  rewrite IH. apply perm_swap.
Qed.

Lemma sorted_reverse_perm l : Permutation (sorted_reverse l) l.
Proof.
  induction l as [|f l IH]; simpl; [reflexivity|].
  rewrite insert_desc_perm. now constructor.
Qed.

Lemma insert_desc_descending f l : descending l -> descending (insert_desc f l).
Proof.
  unfold descending. induction 1 as [|g l Hl IH Hg]; simpl.
  - constructor; constructor.
  - destruct (String.ltb (f_name f) (f_name g)) eqn:E.
    + constructor; [exact IH|].
      apply Forall_forall. intros x Hx.
      apply (Permutation_in _ (insert_desc_perm f l)) in Hx.
      destruct Hx as [<- | Hx].
      * destruct (String.ltb (f_name g) (f_name f)) eqn:E'; [|reflexivity].
        pose proof (ltb_trans _ _ _ E E') as Hff. rewrite ltb_irrefl in Hff.
        discriminate.
      * rewrite Forall_forall in Hg. now apply Hg.
    + constructor; [constructor; assumption|].
      constructor; [exact E|].
      apply Forall_forall. intros x Hx. rewrite Forall_forall in Hg.
      exact (geb_trans _ _ _ E (Hg x Hx)).
Qed.

Lemma sorted_reverse_descending l : descending (sorted_reverse l).
Proof.
  induction l as [|f l IH]; simpl; [constructor|].
  now apply insert_desc_descending.
Qed.

Lemma read_all_perm l l' : Permutation l l' -> Permutation (read_all l) (read_all l').
Proof.
  unfold read_all. induction 1; simpl.
  - constructor.
  - now apply Permutation_app_head.
  - rewrite !app_assoc. apply Permutation_app_tail. apply Permutation_app_comm.
  - etransitivity; eassumption.
Qed.

Lemma read_all_length l :
  (List.length (read_all l)
   + List.length (filter (fun f => match f_data f with Some _ => false | None => true end) l)
   = List.length l)%nat.
Proof.
  unfold read_all. induction l as [|f l IH]; simpl; [reflexivity|].
  destruct (f_data f); simpl; lia.
Qed.

Lemma filter_perm {A} (p : A -> bool) l l' :
  Permutation l l' -> Permutation (filter p l) (filter p l').
Proof.
  induction 1; simpl.
  - constructor.
  - destruct (p x); [now constructor | assumption].
  - destruct (p x), (p y); try reflexivity. apply perm_swap.
  - etransitivity; eassumption.
Qed.

(* ================================================================= *)
(** ** The corpus on disk *)

Lemma write_file_in dir f : In f (write_file dir f).
Proof.
  induction dir as [|g dir IH]; simpl; [now left|].
  destruct (String.eqb (f_name g) (f_name f)); [now left | now right].
Qed.

Lemma write_file_keeps dir f g :
  In g dir -> f_name g <> f_name f -> In g (write_file dir f).
Proof.
  induction dir as [|h dir IH]; simpl; [contradiction|].
  intros [-> | Hin] Hne.
  - apply String.eqb_neq in Hne. rewrite Hne. now left.
  - destruct (String.eqb (f_name h) (f_name f)); right; auto.
Qed.

Lemma write_file_names dir f :
  map f_name (write_file dir f)
  = if existsb (fun g => String.eqb (f_name g) (f_name f)) dir
    then map f_name dir
    else (map f_name dir ++ [f_name f])%list.
Proof.
  induction dir as [|g dir IH]; simpl; [reflexivity|].
  destruct (String.eqb (f_name g) (f_name f)) eqn:E; simpl.
  - apply String.eqb_eq in E. now rewrite E.
  - rewrite IH. destruct (existsb _ dir); reflexivity.
Qed.

Lemma write_file_fresh dir f :
  existsb (fun g => String.eqb (f_name g) (f_name f)) dir = false ->
  write_file dir f = (dir ++ [f])%list.
Proof.
  induction dir as [|g dir IH]; simpl; [reflexivity|].
  destruct (String.eqb (f_name g) (f_name f)); simpl; [discriminate|].
  intros E. now rewrite IH.
Qed.

Lemma write_file_count dir f :
  ends_with ".json" (f_name f) = true ->
  ScheduleDataStore.count_schedules (write_file dir f)
  = ScheduleDataStore.count_schedules dir
    + (if existsb (fun g => String.eqb (f_name g) (f_name f)) dir then 0 else 1).
Proof.
  intros Hj. unfold ScheduleDataStore.count_schedules, glob_json.
  assert (E : List.length (filter (fun g => ends_with ".json" (f_name g)) (write_file dir f))
              = (List.length (filter (fun g => ends_with ".json" (f_name g)) dir)
                 + (if existsb (fun g => String.eqb (f_name g) (f_name f)) dir
                    then 0 else 1))%nat).
  { induction dir as [|g dir IH]; simpl.
    - rewrite Hj. reflexivity.
    - destruct (String.eqb (f_name g) (f_name f)) eqn:E; simpl.
      + apply String.eqb_eq in E. rewrite E, Hj. simpl. lia.
      + destruct (ends_with ".json" (f_name g)); simpl; rewrite IH; lia. }
  rewrite E. destruct (existsb _ dir); lia.
Qed.

Lemma read_all_in files f entry :
  In f files -> f_data f = Some entry -> In entry (read_all files).
Proof.
  intros Hin Hd. unfold read_all. apply in_flat_map. exists f.
  split; [exact Hin|]. rewrite Hd. now left.
Qed.

Lemma loaded_if_listed dir f entry :
  In f dir -> ends_with ".json" (f_name f) = true -> f_data f = Some entry ->
  In entry (ScheduleDataStore.load_schedules None dir).
Proof.
  intros Hin Hj Hd. unfold ScheduleDataStore.load_schedules.
  apply read_all_in with (f := f); [|exact Hd].
  apply (Permutation_in _ (Permutation_sym (sorted_reverse_perm _))).
  apply filter_In. split; assumption.
Qed.

(** The name of the file a save writes ends in ".json". *)
Lemma saved_name_json (id stamp : string) :
  ends_with ".json" (id ++ "_" ++ stamp ++ ".json") = true.
Proof.
  replace (id ++ "_" ++ stamp ++ ".json") with ((id ++ "_" ++ stamp) ++ ".json")
    by (rewrite !append_assoc; reflexivity).
  apply ends_with_append.
Qed.



Lemma write_file_nodup dir f :
  NoDup (map f_name dir) -> NoDup (map f_name (write_file dir f)).
Proof.
  intros Hnd. rewrite write_file_names.
  destruct (existsb _ dir) eqn:E; [exact Hnd|].
  apply NoDup_app; [exact Hnd | repeat constructor; intros [] |].
  intros x Hx [<- | []]. apply in_map_iff in Hx. destruct Hx as (g & Hg & Hin).
  assert (Hex : existsb (fun g => String.eqb (f_name g) (f_name f)) dir = true).
  { apply existsb_exists. exists g. split; [exact Hin | now apply String.eqb_eq]. }
  congruence.
Qed.

Lemma write_file_same_name dir f g :
  NoDup (map f_name dir) -> In g (write_file dir f) -> f_name g = f_name f -> g = f.
Proof.
  induction dir as [|h dir IH]; simpl; intros Hnd Hin Hname.
  - destruct Hin as [<- | []]. reflexivity.
  - inversion Hnd as [|? ? Hh Hnd']; subst.
    destruct (String.eqb (f_name h) (f_name f)) eqn:E.
    + apply String.eqb_eq in E. destruct Hin as [<- | Hin]; [reflexivity|].
      exfalso. apply Hh. rewrite E, <- Hname. now apply in_map.
    + destruct Hin as [<- | Hin]; [|now apply IH].
      apply String.eqb_neq in E. contradiction.
Qed.

(** X2.  A save adds at most one .json file and removes none.  A second save
    under the same schedule id within the same second goes to the same path:
    the number of files stays the same, every file of that name now holds the
    second entry, and the first entry is overwritten. *)
Theorem save_again_replaces `{ExternalLibs} cfg now_a now_a' now_b now_b'
    kv_a kv_b meta_a meta_b dir path_a dir_a :
  NoDup (map f_name dir) ->
  strftime_stamp now_a = strftime_stamp now_b ->
  Dict.get kv_a "schedule_id" = Dict.get kv_b "schedule_id" ->
  ScheduleDataStore.save_schedule cfg now_a now_a' (PDict kv_a) meta_a dir
  = Ok (path_a, dir_a) ->
  ScheduleDataStore.count_schedules dir <= ScheduleDataStore.count_schedules dir_a
    <= ScheduleDataStore.count_schedules dir + 1
  /\ exists dir_b,
       ScheduleDataStore.save_schedule cfg now_b now_b' (PDict kv_b) meta_b dir_a
       = Ok (path_a, dir_b)
       /\ map f_name dir_b = map f_name dir_a
       /\ ScheduleDataStore.count_schedules dir_b
          = ScheduleDataStore.count_schedules dir_a
       /\ forall g,
            In g dir_b -> DATA_DIR cfg ++ "/" ++ f_name g = path_a ->
            f_data g = Some (saved_entry (PDict kv_b) (stored_metadata meta_b) now_b').
Proof.
  intros Hnd Hstamp Hid.
  unfold ScheduleDataStore.save_schedule. cbn [py_get rbind].
  unfold Dict.get_default. rewrite <- Hid, <- Hstamp.
  intros E. injection E as <- <-.
  match goal with
  | |- context [write_file (write_file dir ?file_a) ?file_b] =>
      set (fa := file_a); set (fb := file_b)
  end.
  match goal with
  | |- context [DATA_DIR cfg ++ "/" ++ ?written] => set (name := written) in *
  end.
  assert (Hj : ends_with ".json" name = true) by apply saved_name_json.
  assert (Hex : existsb (fun g => String.eqb (f_name g) (f_name fb)) (write_file dir fa)
                = true).
  { apply existsb_exists. exists fa. split; [apply write_file_in|].
    apply String.eqb_refl. }
  split.
  - rewrite (write_file_count dir fa Hj). destruct (existsb _ dir); lia.
  - exists (write_file (write_file dir fa) fb).
    split; [reflexivity|]. split; [|split].
    + rewrite (write_file_names (write_file dir fa) fb), Hex. reflexivity.
    + rewrite (write_file_count (write_file dir fa) fb Hj), Hex. lia.
    + intros g Hin Hpath.
      assert (Hname : f_name g = f_name fb).
      { simpl. clear -Hpath. fold name in Hpath.
        revert Hpath. generalize (f_name g). generalize (DATA_DIR cfg).
        intros p. induction p as [|c p IH]; simpl; intros n E.
        - now injection E.
        - injection E as E. now apply IH. }
      rewrite (write_file_same_name (write_file dir fa) fb g
                 (write_file_nodup dir fa Hnd) Hin Hname).
      reflexivity.
Qed.

Lemma save_again_replaces_witness :
  NoDup (map f_name ([] : directory))
  /\ strftime_stamp (Examples.sec 1) = strftime_stamp (Examples.sec 1 + 500000)
  /\ Dict.get Scenarios.run1 "schedule_id" = Dict.get Scenarios.run1_again "schedule_id"
  /\ ScheduleDataStore.save_schedule (H := RefLibs.libs) CONFIG (Examples.sec 1)
       (Examples.sec 1) (PDict Scenarios.run1) None []
     = Ok (fst Scenarios.first_save, snd Scenarios.first_save)
  /\ exists dir_b,
       ScheduleDataStore.save_schedule (H := RefLibs.libs) CONFIG
         (Examples.sec 1 + 500000) (Examples.sec 1 + 500000)
         (PDict Scenarios.run1_again) None (snd Scenarios.first_save)
       = Ok (fst Scenarios.first_save, dir_b)
       /\ ScheduleDataStore.count_schedules dir_b
          = ScheduleDataStore.count_schedules (snd Scenarios.first_save).
Proof.
  assert (Hn : NoDup (map f_name ([] : directory))) by constructor.
  assert (Hs : strftime_stamp (Examples.sec 1) = strftime_stamp (Examples.sec 1 + 500000))
    by (vm_compute; reflexivity).
  assert (Hi : Dict.get Scenarios.run1 "schedule_id"
               = Dict.get Scenarios.run1_again "schedule_id") by reflexivity.
  assert (E : ScheduleDataStore.save_schedule (H := RefLibs.libs) CONFIG (Examples.sec 1)
                (Examples.sec 1) (PDict Scenarios.run1) None []
              = Ok (fst Scenarios.first_save, snd Scenarios.first_save))
    by (vm_compute; reflexivity).
  split; [exact Hn|]. split; [exact Hs|]. split; [exact Hi|]. split; [exact E|].
  destruct (save_again_replaces (H := RefLibs.libs) CONFIG (Examples.sec 1)
              (Examples.sec 1) (Examples.sec 1 + 500000) (Examples.sec 1 + 500000)
              Scenarios.run1 Scenarios.run1_again None None []
              (fst Scenarios.first_save) (snd Scenarios.first_save) Hn Hs Hi E)
    as (_ & dir_b & Eb & _ & Hc & _).
  exists dir_b. split; [exact Eb | exact Hc].
Defined.

Lemma read_all_bound files : (List.length (read_all files) <= List.length files)%nat.
Proof. pose proof (read_all_length files). lia. Qed.

(** X3.  [load_schedules] lists the .json files in descending order of
    their names and returns the content of those that can be read: a file
    that fails to load is skipped, so the result and the unreadable files
    together are as many as [count_schedules] counts.  A limit of 0 is no
    limit; a positive limit keeps the first [limit] files of the listing, so
    at most [limit] entries come back. *)
Theorem load_schedules_listing dir :
  exists files,
    Permutation files (glob_json dir)
    /\ descending files
    /\ ScheduleDataStore.load_schedules None dir = read_all files
    /\ Z.of_nat (List.length (ScheduleDataStore.load_schedules None dir))
       + Z.of_nat (List.length (unreadable dir))
       = ScheduleDataStore.count_schedules dir
    /\ ScheduleDataStore.load_schedules (Some 0) dir
       = ScheduleDataStore.load_schedules None dir
    /\ forall limit,
         0 < limit ->
         ScheduleDataStore.load_schedules (Some limit) dir
         = read_all (firstn (Z.to_nat limit) files)
         /\ Z.of_nat (List.length (ScheduleDataStore.load_schedules (Some limit) dir))
            <= limit.
Proof.
  exists (sorted_reverse (glob_json dir)).
  split; [apply sorted_reverse_perm|]. split; [apply sorted_reverse_descending|].
  split; [reflexivity|]. split; [|split; [reflexivity|]].
  - unfold ScheduleDataStore.load_schedules, ScheduleDataStore.count_schedules, unreadable.
    pose proof (read_all_length (sorted_reverse (glob_json dir))) as Hlen.
    rewrite (Permutation_length (sorted_reverse_perm (glob_json dir))) in Hlen.
    rewrite (Permutation_length
               (filter_perm _ _ _ (sorted_reverse_perm (glob_json dir)))) in Hlen.
    lia.
  - intros limit Hpos. unfold ScheduleDataStore.load_schedules, slice_to.
    destruct (limit =? 0) eqn:E0; [apply Z.eqb_eq in E0; lia|].
    destruct (0 <=? limit) eqn:E1; [|apply Z.leb_gt in E1; lia].
    split; [reflexivity|].
    pose proof (read_all_bound (firstn (Z.to_nat limit) (sorted_reverse (glob_json dir)))).
    pose proof (firstn_le_length (Z.to_nat limit) (sorted_reverse (glob_json dir))).
    lia.
Qed.

(** Deleting a batch of files by name. *)
Lemma unlink_batch (batch : list file) dir :
  fold_left (fun d f => unlink d (f_name f)) batch dir
  = filter (fun g => negb (existsb (fun f => String.eqb (f_name g) (f_name f)) batch)) dir.
Proof.
  revert dir. induction batch as [|f batch IH]; intros dir; simpl.
  - induction dir as [|g dir IHd]; simpl; [reflexivity | now rewrite <- IHd].
  - rewrite IH. unfold unlink. clear IH.
    induction dir as [|g dir IHd]; simpl; [reflexivity|].
    destruct (String.eqb (f_name g) (f_name f)); simpl; [exact IHd|].
    destruct (existsb _ batch); simpl; [exact IHd | now rewrite IHd].
Qed.

(** Files in strictly descending order of their names. *)
Lemma descending_strict files :
  descending files -> NoDup (map f_name files) ->
  StronglySorted (fun a b => String.ltb (f_name b) (f_name a) = true) files.
Proof.
  unfold descending. induction 1 as [|f files Hs IH Hf]; simpl; intros Hnd.
  - constructor.
  - inversion Hnd as [|? ? Hnot Hnd']; subst. constructor; [now apply IH|].
    apply Forall_forall. intros g Hg. rewrite Forall_forall in Hf.
    destruct (ltb_total (f_name g) (f_name f)) as [Hlt | [Heq | Hgt]].
    + exact Hlt.
    + exfalso. apply Hnot. rewrite <- Heq. now apply in_map.
    + rewrite (Hf g Hg) in Hgt. discriminate.
Qed.

Lemma strictly_sorted_unique (l1 l2 : list file) :
  StronglySorted (fun a b => String.ltb (f_name b) (f_name a) = true) l1 ->
  StronglySorted (fun a b => String.ltb (f_name b) (f_name a) = true) l2 ->
  Permutation l1 l2 -> l1 = l2.
Proof.
  intros H1. revert l2. induction H1 as [|a l1 Hs1 IH Ha]; intros l2 H2 Hp.
  - apply Permutation_nil in Hp. now subst.
  - destruct H2 as [|b l2 Hs2 Hb].
    + apply Permutation_sym, Permutation_nil in Hp. discriminate.
    + assert (Eab : a = b).
      { assert (Hina : In a (b :: l2)) by (apply (Permutation_in _ Hp); now left).
        assert (Hinb : In b (a :: l1))
          by (apply (Permutation_in _ (Permutation_sym Hp)); now left).
        destruct Hina as [-> | Hina]; [reflexivity|].
        destruct Hinb as [-> | Hinb]; [reflexivity|].
        rewrite Forall_forall in Ha, Hb.
        pose proof (ltb_trans _ _ _ (Ha b Hinb) (Hb a Hina)) as Hbb.
        rewrite ltb_irrefl in Hbb. discriminate. }
      subst b. f_equal. apply IH; [exact Hs2|].
      now apply Permutation_cons_inv with a.
Qed.

Lemma in_firstn {A} (x : A) n l : In x (firstn n l) -> In x l.
Proof. intros Hx. rewrite <- (firstn_skipn n l). apply in_or_app. now left. Qed.

Lemma strongly_sorted_firstn {A} (R : A -> A -> Prop) n l :
  StronglySorted R l -> StronglySorted R (firstn n l).
Proof.
  intros Hs. revert n. induction Hs as [|a l Hs IH Ha]; intros n.
  - rewrite firstn_nil. constructor.
  - destruct n; simpl; [constructor|]. constructor; [apply IH|].
    apply Forall_forall. intros x Hx. rewrite Forall_forall in Ha.
    apply Ha. now apply in_firstn with n.
Qed.

Lemma filter_comm {A} (p q : A -> bool) l : filter p (filter q l) = filter q (filter p l).
Proof.
  induction l as [|x l IH]; simpl; [reflexivity|].
  destruct (p x) eqn:Ep, (q x) eqn:Eq; simpl; rewrite ?Ep, ?Eq, IH; reflexivity.
Qed.

Lemma filter_all {A} (p : A -> bool) l : (forall x, In x l -> p x = true) -> filter p l = l.
Proof.
  induction l as [|x l IH]; simpl; intros Hp; [reflexivity|].
  rewrite (Hp x (or_introl eq_refl)), IH; [reflexivity | auto].
Qed.

Lemma filter_none {A} (p : A -> bool) l : (forall x, In x l -> p x = false) -> filter p l = [].
Proof.
  induction l as [|x l IH]; simpl; intros Hp; [reflexivity|].
  rewrite (Hp x (or_introl eq_refl)), IH; [reflexivity | auto].
Qed.

Lemma nodup_names_filter (p : file -> bool) l :
  NoDup (map f_name l) -> NoDup (map f_name (filter p l)).
Proof.
  induction l as [|x l IH]; simpl; intros Hnd; [constructor|].
  inversion Hnd as [|? ? Hx Hnd']; subst.
  destruct (p x); simpl; [|auto]. constructor; [|auto].
  intros Hin. apply Hx. apply in_map_iff in Hin. destruct Hin as (g & Hg & Hin).
  apply in_map_iff. exists g. split; [exact Hg|]. now apply filter_In in Hin.
Qed.

(** What stays when the files after the first [n] of the listing go. *)
Lemma glob_after_clear dir n :
  NoDup (map f_name dir) ->
  let listing := sorted_reverse (glob_json dir) in
  sorted_reverse
    (glob_json (fold_left (fun d f => unlink d (f_name f)) (skipn n listing) dir))
  = firstn n listing.
Proof.
  intros Hnd listing. rewrite unlink_batch.
  set (kept := fun g : file =>
                 negb (existsb (fun f => String.eqb (f_name g) (f_name f))
                         (skipn n listing))).
  unfold glob_json at 1. rewrite filter_comm. fold (glob_json dir).
  assert (Hperm : Permutation listing (glob_json dir)) by apply sorted_reverse_perm.
  assert (Hnames : NoDup (map f_name listing)).
  { apply (Permutation_NoDup (Permutation_map f_name (Permutation_sym Hperm))).
    now apply nodup_names_filter. }
  assert (Hsplit : listing = (firstn n listing ++ skipn n listing)%list)
    by (symmetry; apply firstn_skipn).
  assert (Hkept : Permutation (filter kept (glob_json dir)) (firstn n listing)).
  { rewrite <- (filter_perm kept _ _ Hperm). rewrite Hsplit at 1.
    rewrite filter_app. rewrite (filter_none kept (skipn n listing)).
    - rewrite app_nil_r. rewrite filter_all; [reflexivity|].
      intros g Hg. unfold kept. apply negb_true_iff.
      destruct (existsb _ (skipn n listing)) eqn:E; [|reflexivity].
      apply existsb_exists in E. destruct E as (f & Hf & Hname).
      apply String.eqb_eq in Hname.
      rewrite Hsplit, map_app in Hnames.
      exfalso.
      assert (Hg' : In (f_name g) (map f_name (firstn n listing))) by now apply in_map.
      assert (Hf' : In (f_name g) (map f_name (skipn n listing)))
        by (rewrite Hname; now apply in_map).
      clear -Hg' Hf' Hnames.
      induction (map f_name (firstn n listing)) as [|x l IH]; [contradiction|].
      simpl in Hnames. inversion Hnames as [|? ? Hx Hnd']; subst.
      destruct Hg' as [-> | Hg']; [|now apply IH].
      apply Hx. apply in_or_app. now right.
    - intros g Hg. unfold kept. apply negb_false_iff. apply existsb_exists.
      exists g. split; [exact Hg | apply String.eqb_refl]. }
  apply strictly_sorted_unique.
  - apply descending_strict; [apply sorted_reverse_descending|].
    apply (Permutation_NoDup
             (Permutation_map f_name (Permutation_sym (sorted_reverse_perm _)))).
    apply (Permutation_NoDup (Permutation_map f_name (Permutation_sym Hkept))).
    rewrite Hsplit, map_app in Hnames. now apply NoDup_app_remove_r in Hnames.
  - apply strongly_sorted_firstn.
    apply descending_strict; [apply sorted_reverse_descending | exact Hnames].
  - rewrite sorted_reverse_perm. exact Hkept.
Qed.

(** X4.  In a directory whose file names are distinct,
    [clear_old_schedules(keep_count)] with [keep_count >= 0] leaves exactly
    the first [keep_count] .json files of the descending listing: for a
    positive [keep_count], loading everything afterwards gives what loading
    with [limit = keep_count] gave before.  The count becomes
    [min(keep_count, count)], files that are not .json files are untouched,
    and nothing changes when no more than [keep_count] files are there. *)
Theorem clear_old_schedules_keeps_listing_head dir keep_count :
  NoDup (map f_name dir) ->
  0 <= keep_count ->
  let dir' := ScheduleDataStore.clear_old_schedules keep_count dir in
  (0 < keep_count ->
   ScheduleDataStore.load_schedules None dir'
   = ScheduleDataStore.load_schedules (Some keep_count) dir)
  /\ ScheduleDataStore.count_schedules dir'
     = Z.min keep_count (ScheduleDataStore.count_schedules dir)
  /\ filter (fun f => negb (ends_with ".json" (f_name f))) dir'
     = filter (fun f => negb (ends_with ".json" (f_name f))) dir
  /\ (ScheduleDataStore.count_schedules dir <= keep_count -> dir' = dir).
Proof.
  intros Hnd Hk dir'.
  assert (Hslice : slice_from (sorted_reverse (glob_json dir)) keep_count
                   = skipn (Z.to_nat keep_count) (sorted_reverse (glob_json dir))).
  { unfold slice_from. destruct (0 <=? keep_count) eqn:E; [reflexivity|].
    apply Z.leb_gt in E. lia. }
  assert (Hkept : sorted_reverse (glob_json dir')
                  = firstn (Z.to_nat keep_count) (sorted_reverse (glob_json dir))).
  { unfold dir', ScheduleDataStore.clear_old_schedules. rewrite Hslice.
    now apply glob_after_clear. }
  split; [|split; [|split]].
  - intros Hpos. unfold ScheduleDataStore.load_schedules at 1. rewrite Hkept.
    unfold ScheduleDataStore.load_schedules, slice_to.
    destruct (keep_count =? 0) eqn:E0; [apply Z.eqb_eq in E0; lia|].
    destruct (0 <=? keep_count) eqn:E1; [reflexivity | apply Z.leb_gt in E1; lia].
  - unfold ScheduleDataStore.count_schedules.
    rewrite <- (Permutation_length (sorted_reverse_perm (glob_json dir'))), Hkept.
    rewrite length_firstn.
    rewrite (Permutation_length (sorted_reverse_perm (glob_json dir))). lia.
  - unfold dir', ScheduleDataStore.clear_old_schedules. rewrite unlink_batch, filter_comm.
    apply filter_all. intros g Hg.
    apply filter_In in Hg. destruct Hg as [_ Hg]. apply negb_true_iff in Hg.
    apply negb_true_iff. destruct (existsb _ _) eqn:E; [|reflexivity].
    apply existsb_exists in E. destruct E as (f & Hf & Hname).
    apply String.eqb_eq in Hname. rewrite Hslice in Hf.
    assert (Hin : In f (glob_json dir)).
    { apply (Permutation_in _ (sorted_reverse_perm _)).
      rewrite <- (firstn_skipn (Z.to_nat keep_count)). apply in_or_app. now right. }
    apply filter_In in Hin. destruct Hin as [_ Hj]. rewrite Hname in Hg. congruence.
  - intros Hle. unfold dir', ScheduleDataStore.clear_old_schedules. rewrite Hslice.
    rewrite skipn_all2; [reflexivity|].
    rewrite (Permutation_length (sorted_reverse_perm (glob_json dir))).
    unfold ScheduleDataStore.count_schedules in Hle. lia.
Qed.

Lemma clear_old_schedules_keeps_listing_head_witness :
  NoDup (map f_name Examples.dir5)
  /\ 0 <= 2
  /\ ScheduleDataStore.load_schedules None
       (ScheduleDataStore.clear_old_schedules 2 Examples.dir5)
     = ScheduleDataStore.load_schedules (Some 2) Examples.dir5
  /\ ScheduleDataStore.count_schedules
       (ScheduleDataStore.clear_old_schedules 2 Examples.dir5)
     = Z.min 2 (ScheduleDataStore.count_schedules Examples.dir5).
Proof.
  assert (Hn : NoDup (map f_name Examples.dir5)).
  { vm_compute.
    repeat (apply NoDup_cons; [simpl; intuition discriminate|]). apply NoDup_nil. }
  assert (Hk : 0 <= 2) by lia.
  split; [exact Hn|]. split; [exact Hk|].
  pose proof (clear_old_schedules_keeps_listing_head Examples.dir5 2 Hn Hk) as Hx.
  cbv zeta in Hx. destruct Hx as (Hl & Hc & _).
  split; [apply Hl; lia | exact Hc].
Defined.

Lemma read_all_filter_incl (p q : file -> bool) files :
  (forall f, p f = true -> q f = true) ->
  incl (read_all (filter p files)) (read_all (filter q files))
  /\ (List.length (read_all (filter p files))
      <= List.length (read_all (filter q files)))%nat.
Proof.
  intros Hpq. unfold read_all. induction files as [|f files [IHi IHl]]; simpl.
  - split; [apply incl_refl | lia].
  - destruct (p f) eqn:Ep.
    + rewrite (Hpq f Ep). simpl. split.
      * apply incl_app; [apply incl_appl, incl_refl | now apply incl_appr].
      * rewrite !length_app. lia.
    + destruct (q f); simpl; [|now split]. split.
      * now apply incl_appr.
      * rewrite length_app. lia.
Qed.

Lemma read_all_count files :
  List.length (read_all files)
  = List.length
      (filter (fun f => match f_data f with Some _ => true | None => false end) files).
Proof.
  induction files as [|f files IH]; simpl; [reflexivity|].
  destruct (f_data f); simpl; now rewrite IH.
Qed.

(** X5.  [get_schedules_since(t)] returns exactly the contents of the
    readable .json files of the directory that were modified strictly after
    [t], one entry per such file.  They are among the loaded schedules, and
    a later instant gives a part of what an earlier one gives, so no more of
    them. *)
Theorem schedules_since_shrinks dir since :
  (forall entry,
      In entry (ScheduleDataStore.get_schedules_since since dir) <->
      exists f,
        In f dir /\ ends_with ".json" (f_name f) = true
        /\ since < f_mtime f /\ f_data f = Some entry)
  /\ List.length (ScheduleDataStore.get_schedules_since since dir)
     = List.length
         (filter (fun f => (since <? f_mtime f)
                           && match f_data f with Some _ => true | None => false end)
            (glob_json dir))
  /\ incl (ScheduleDataStore.get_schedules_since since dir)
       (ScheduleDataStore.load_schedules None dir)
  /\ forall since',
       since <= since' ->
       incl (ScheduleDataStore.get_schedules_since since' dir)
         (ScheduleDataStore.get_schedules_since since dir)
       /\ (List.length (ScheduleDataStore.get_schedules_since since' dir)
           <= List.length (ScheduleDataStore.get_schedules_since since dir))%nat.
Proof.
  unfold ScheduleDataStore.get_schedules_since. split; [|split; [|split]].
  - intros entry. unfold read_all, glob_json. rewrite in_flat_map. split.
    + intros (f & Hf & Hin). apply filter_In in Hf as [Hf Hnew].
      apply filter_In in Hf as [Hf Hjson]. apply Z.ltb_lt in Hnew.
      exists f. destruct (f_data f) as [d|]; [|destruct Hin].
      destruct Hin as [<-|[]]. auto.
    + intros (f & Hf & Hjson & Hnew & Hdata). exists f. split.
      * apply filter_In. split; [|now apply Z.ltb_lt].
        apply filter_In. now split.
      * rewrite Hdata. now left.
  - rewrite read_all_count. f_equal.
    induction (glob_json dir) as [|f files IH]; simpl; [reflexivity|].
    destruct (since <? f_mtime f); simpl; [|exact IH].
    destruct (f_data f); simpl; now rewrite IH.
  - unfold ScheduleDataStore.load_schedules.
    intros entry Hin.
    apply (Permutation_in _ (read_all_perm _ _
             (Permutation_sym (sorted_reverse_perm (glob_json dir))))).
    destruct (read_all_filter_incl (fun f => since <? f_mtime f) (fun _ => true)
                (glob_json dir)) as [Hincl _]; [reflexivity|].
    apply Hincl in Hin. rewrite filter_all in Hin; auto.
  - intros since' Hle. apply read_all_filter_incl. intros f Hf.
    apply Z.ltb_lt in Hf. apply Z.ltb_lt. lia.
Qed.

Lemma schedules_since_shrinks_witness :
  Examples.sec 2 <= Examples.sec 3
  /\ List.length (ScheduleDataStore.get_schedules_since (Examples.sec 3) Examples.dir5)
     = 2%nat
  /\ (List.length (ScheduleDataStore.get_schedules_since (Examples.sec 3) Examples.dir5)
      <= List.length
           (ScheduleDataStore.get_schedules_since (Examples.sec 2) Examples.dir5))%nat.
Proof.
  assert (Hle : Examples.sec 2 <= Examples.sec 3) by (vm_compute; discriminate).
  split; [exact Hle|]. split.
  - rewrite (proj1 (proj2 (schedules_since_shrinks Examples.dir5 (Examples.sec 3)))).
    vm_compute. reflexivity.
  - exact (proj2 (proj2 (proj2 (proj2 (schedules_since_shrinks Examples.dir5
                                         (Examples.sec 2))))
                    (Examples.sec 3) Hle)).
Defined.

(* ================================================================= *)
(** ** Targets and features *)

Ltac invert_rbind E :=
  repeat match type of E with
  | rbind ?x _ = Ok _ =>
      let v := fresh "v" in
      let Ev := fresh "Ev" in
      destruct x as [v|] eqn:Ev; cbn [rbind] in E; [|discriminate E]
  end.

Lemma py_max_lower (a b : Q) : (a <= py_max a b)%Q.
Proof.
  unfold py_max. destruct (Qlt_bool a b) eqn:E; [|apply Qle_refl].
  apply Qlt_bool_true in E. now apply Qlt_le_weak.
Qed.

Lemma py_max_zero_of_nonpos (b : Q) : (b <= 0)%Q -> py_max 0 b = 0%Q.
Proof.
  intros Hb. unfold py_max. destruct (Qlt_bool 0 b) eqn:E; [|reflexivity].
  apply Qlt_bool_true in E. lra.
Qed.

Lemma py_max_of_pos (b : Q) : (0 < b)%Q -> py_max 0 b = b.
Proof.
  intros Hb. unfold py_max. apply Qlt_bool_true in Hb. now rewrite Hb.
Qed.

Lemma py_min_upper (a b : Q) : (py_min a b <= a)%Q.
Proof.
  unfold py_min. destruct (Qlt_bool b a) eqn:E; [|apply Qle_refl].
  apply Qlt_bool_true in E. now apply Qlt_le_weak.
Qed.

Lemma py_min_of_le (a b : Q) : (b <= a)%Q -> (py_min a b == b)%Q.
Proof.
  intros Hb. unfold py_min. destruct (Qlt_bool b a) eqn:E; [reflexivity|].
  apply Qlt_bool_false in E. lra.
Qed.

Lemma py_min_lower (a b c : Q) : (c <= a)%Q -> (c <= b)%Q -> (c <= py_min a b)%Q.
Proof. intros Ha Hb. unfold py_min. destruct (Qlt_bool b a); assumption. Qed.

(** X6.  Whenever [calculate_target] returns, its value is
    [min(100, 30*r + 25*a/100 + max(0, 20*(1-m)) + 15*b + max(0, 10-2*v))]
    over the five metrics it read, so it is never above 100; it is not
    negative when readiness, availability and branding compliance are not
    negative; and for metrics in their nominal ranges the final clamp does
    not fire. *)
Theorem calculate_target_bounds schedule target :
  FeatureExtractor.calculate_target schedule = Ok target ->
  exists r a m b v,
    metric schedule "optimization_metrics" "avg_readiness_score" 0 = Ok r
    /\ metric schedule "fleet_summary" "availability_percent" 0 = Ok a
    /\ metric schedule "optimization_metrics" "mileage_variance_coefficient" 1 = Ok m
    /\ metric schedule "optimization_metrics" "branding_sla_compliance" 0 = Ok b
    /\ metric schedule "optimization_metrics" "fitness_expiry_violations" 0 = Ok v
    /\ target = py_min 100 (quality_sum r a m b v)
    /\ (target <= 100)%Q
    /\ ((0 <= r)%Q -> (0 <= a)%Q -> (0 <= b)%Q -> (0 <= target)%Q)
    /\ ((0 <= r <= 1)%Q -> (0 <= a <= 100)%Q -> (0 <= m)%Q -> (0 <= b <= 1)%Q ->
        (0 <= v)%Q ->
        (target == quality_sum r a m b v)%Q).
Proof.
  unfold FeatureExtractor.calculate_target. intros E. invert_rbind E.
  injection E as <-.
  unfold metric.
  repeat match goal with
  | Ev : py_get _ _ _ = Ok _ |- _ => rewrite !Ev; cbn [rbind]
  end.
  repeat match goal with
  | Ev : as_number _ = Ok _ |- _ => rewrite Ev; clear Ev
  end.
  do 5 eexists. repeat (split; [reflexivity|]).
  match goal with
  | |- (py_min 100 ?s <= 100)%Q /\ _ => set (total := s)
  end.
  split; [apply py_min_upper|]. split.
  - intros Hr Ha Hb. apply py_min_lower; [lra|]. unfold total, quality_sum.
    match goal with
    | |- (0 <= 0 + ?r * 30 + ?a / 100 * 25 + py_max 0 ?x + ?b * 15 + py_max 0 ?y)%Q =>
        pose proof (py_max_lower 0 x); pose proof (py_max_lower 0 y);
        assert ((a / 100 * 25 == a * (1 # 4))%Q) as -> by field
    end.
    lra.
  - intros Hr Ha Hm Hb Hv. apply py_min_of_le. unfold total, quality_sum.
    match goal with
    | |- (0 + ?r * 30 + ?a / 100 * 25 + py_max 0 ?x + ?b * 15 + py_max 0 ?y <= 100)%Q =>
        assert ((a / 100 * 25 == a * (1 # 4))%Q) as -> by field;
        assert (py_max 0 x <= 20)%Q
          by (unfold py_max; destruct (Qlt_bool 0 x); lra);
        assert (py_max 0 y <= 10)%Q
          by (unfold py_max; destruct (Qlt_bool 0 y); lra)
    end.
    lra.
Qed.

Lemma calculate_target_bounds_witness :
  FeatureExtractor.calculate_target Examples.rec_b
  = Ok (Scenarios.target_of Examples.rec_b)
  /\ (Scenarios.target_of Examples.rec_b <= 100)%Q.
Proof.
  assert (E : FeatureExtractor.calculate_target Examples.rec_b
              = Ok (Scenarios.target_of Examples.rec_b)) by (vm_compute; reflexivity).
  split; [exact E|].
  destruct (calculate_target_bounds Examples.rec_b (Scenarios.target_of Examples.rec_b) E)
    as (r & a & m & b & v & _ & _ & _ & _ & _ & _ & Hle & _).
  exact Hle.
Defined.

(** X7.  Missing data and malformed sections in [calculate_target]: a
    record with neither metrics nor fleet summary scores exactly 10 (the
    no-violation component alone); a metrics section that is present but not
    a dict raises [AttributeError]; a readiness metric that is neither a
    number nor a bool raises [TypeError]. *)
Theorem calculate_target_defaults kv :
  (Dict.get kv "optimization_metrics" = None ->
   Dict.get kv "fleet_summary" = None ->
   exists target,
     FeatureExtractor.calculate_target (PDict kv) = Ok target /\ (target == 10)%Q)
  /\ (forall section,
        Dict.get kv "optimization_metrics" = Some section ->
        is_dict section = false ->
        FeatureExtractor.calculate_target (PDict kv) = Raise AttributeError)
  /\ (forall metrics value,
        Dict.get kv "optimization_metrics" = Some (PDict metrics) ->
        Dict.get metrics "avg_readiness_score" = Some value ->
        as_number value = Raise TypeError ->
        FeatureExtractor.calculate_target (PDict kv) = Raise TypeError).
Proof.
  unfold FeatureExtractor.calculate_target, py_get, Dict.get_default.
  split; [|split].
  - intros -> ->. cbn. eexists. split; [reflexivity|]. vm_compute. reflexivity.
  - intros section -> Hd. cbn [rbind]. destruct section; try reflexivity. discriminate.
  - intros metrics value -> Hv Hn. cbn [rbind]. rewrite Hv. cbn [rbind]. rewrite Hn.
    reflexivity.
Qed.

Lemma key_eqb_str_l (s : string) (k : pyval) :
  key_eqb (PStr s) k = true <-> k = PStr s.
Proof.
  destruct k; simpl; split; try discriminate; try congruence.
  - intros E. apply String.eqb_eq in E. now subst.
  - intros E. injection E as ->. apply String.eqb_refl.
Qed.

Lemma key_eqb_str_r (s : string) (k : pyval) :
  key_eqb k (PStr s) = true <-> k = PStr s.
Proof.
  destruct k; simpl; split; try discriminate; try congruence.
  - intros E. apply String.eqb_eq in E. now subst.
  - intros E. injection E as ->. apply String.eqb_refl.
Qed.

Lemma counter_get_incr counts k (s : string) :
  FeatureExtractor.counter_get (FeatureExtractor.counter_incr counts k) (PStr s)
  = FeatureExtractor.counter_get counts (PStr s)
    + (if key_eqb (PStr s) k then 1 else 0).
Proof.
  induction counts as [|[k' n] counts IH]; cbn [FeatureExtractor.counter_incr
                                                 FeatureExtractor.counter_get].
  - destruct (key_eqb (PStr s) k); lia.
  - destruct (key_eqb k k') eqn:Ekk; cbn [FeatureExtractor.counter_get].
    + destruct (key_eqb (PStr s) k') eqn:Esk.
      * apply key_eqb_str_l in Esk. subst k'. apply key_eqb_str_r in Ekk. subst k.
        simpl. rewrite String.eqb_refl. reflexivity.
      * destruct (key_eqb (PStr s) k) eqn:Es; [|lia].
        apply key_eqb_str_l in Es. subst k. congruence.
    + destruct (key_eqb (PStr s) k') eqn:Esk; [|exact IH].
      apply key_eqb_str_l in Esk. subst k'.
      destruct (key_eqb (PStr s) k) eqn:Es; [|lia].
      apply key_eqb_str_l in Es. subst k. simpl in Ekk.
      rewrite String.eqb_refl in Ekk. discriminate.
Qed.

Lemma counter_get_nonneg counts q :
  Forall (fun item => 0 <= snd item) counts ->
  0 <= FeatureExtractor.counter_get counts q.
Proof.
  induction 1 as [|[k n] counts Hn Hc IH]; simpl; [lia|].
  destruct (key_eqb q k); [exact Hn | exact IH].
Qed.

(** The three status counters never add up to more than the trainsets seen. *)
Lemma count_status_bound trains : forall counts counts',
  rfold FeatureExtractor.count_status trains counts = Ok counts' ->
  let total c :=
    FeatureExtractor.counter_get c (PStr "REVENUE_SERVICE")
    + FeatureExtractor.counter_get c (PStr "STANDBY")
    + FeatureExtractor.counter_get c (PStr "MAINTENANCE") in
  total counts' <= total counts + Z.of_nat (List.length trains)
  /\ FeatureExtractor.counter_get counts (PStr "REVENUE_SERVICE")
     <= FeatureExtractor.counter_get counts' (PStr "REVENUE_SERVICE")
  /\ FeatureExtractor.counter_get counts (PStr "STANDBY")
     <= FeatureExtractor.counter_get counts' (PStr "STANDBY")
  /\ FeatureExtractor.counter_get counts (PStr "MAINTENANCE")
     <= FeatureExtractor.counter_get counts' (PStr "MAINTENANCE").
Proof.
  induction trains as [|t trains IH]; intros counts counts' E total.
  - simpl in E. injection E as <-. unfold total. simpl. lia.
  - cbn [rfold] in E.
    destruct (FeatureExtractor.count_status counts t) as [c1|] eqn:E1;
      cbn [rbind] in E; [|discriminate].
    unfold FeatureExtractor.count_status in E1.
    destruct (py_get t "status" (PStr "UNKNOWN")) as [status|]; cbn [rbind] in E1;
      [|discriminate].
    destruct (hashable status); [|discriminate]. injection E1 as <-.
    specialize (IH _ _ E). cbv zeta in IH. destruct IH as (Ht & Hr & Hs & Hm).
    repeat rewrite counter_get_incr in Ht. rewrite counter_get_incr in Hr, Hs, Hm.
    unfold total. cbn [List.length]. rewrite Nat2Z.inj_succ.
    assert (Hone : (if key_eqb (PStr "REVENUE_SERVICE") status then 1 else 0)
                   + (if key_eqb (PStr "STANDBY") status then 1 else 0)
                   + (if key_eqb (PStr "MAINTENANCE") status then 1 else 0) <= 1).
    { destruct status as [| | |s| |]; cbn [key_eqb]; try lia.
      destruct (String.eqb_spec "REVENUE_SERVICE" s) as [<-|]; [cbn; lia|].
      destruct (String.eqb_spec "STANDBY" s) as [<-|]; [cbn; lia|].
      destruct (String.eqb "MAINTENANCE" s); lia. }
    assert (H0 : forall s, 0 <= (if key_eqb (PStr s) status then 1 else 0))
      by (intros s; destruct (key_eqb (PStr s) status); lia).
    pose proof (H0 "REVENUE_SERVICE"). pose proof (H0 "STANDBY").
    pose proof (H0 "MAINTENANCE").
    repeat split; lia.
Qed.

Lemma count_certificates_bound trains : forall issues issues',
  rfold FeatureExtractor.count_certificates trains issues = Ok issues' ->
  issues <= issues'.
Proof.
  induction trains as [|t trains IH]; intros issues issues' E.
  - simpl in E. injection E as <-. lia.
  - cbn [rfold] in E.
    destruct (FeatureExtractor.count_certificates issues t) as [c1|] eqn:E1;
      cbn [rbind] in E; [|discriminate].
    specialize (IH _ _ E).
    unfold FeatureExtractor.count_certificates in E1.
    destruct (py_get t "fitness_certificates" (PDict [])) as [certs|];
      cbn [rbind] in E1; [|discriminate].
    destruct certs as [| | | | |kv]; try discriminate. injection E1 as <-.
    assert (Hfold : forall n, n <= fold_left
                      (fun n p => n + FeatureExtractor.cert_issue (snd p)) kv n).
    { clear. induction kv as [|p kv IHkv]; intros n; simpl; [lia|].
      specialize (IHkv (n + FeatureExtractor.cert_issue (snd p))).
      assert (0 <= FeatureExtractor.cert_issue (snd p)).
      { unfold FeatureExtractor.cert_issue. destruct (snd p); try lia.
        destruct (_ || _); lia. }
      lia. }
    specialize (Hfold issues). lia.
Qed.

Lemma priority_bound p : 0 <= FeatureExtractor.counter_get FeatureExtractor.priority_map p <= 4.
Proof.
  unfold FeatureExtractor.priority_map. simpl.
  repeat match goal with
  | |- context [if ?c then _ else _] => destruct c
  end; lia.
Qed.

Lemma add_branding_step score train score' :
  FeatureExtractor.add_branding score train = Ok score' ->
  score <= score' <= score + 4.
Proof.
  unfold FeatureExtractor.add_branding.
  destruct (py_get train "branding" (PDict [])) as [branding|]; cbn [rbind];
    [|discriminate].
  destruct branding as [| | | | |kv]; try (intros E; injection E as <-; lia).
  destruct (hashable _); [|discriminate].
  pose proof (priority_bound (Dict.get_default kv "exposure_priority" (PStr "NONE")))
    as Hp.
  revert Hp.
  generalize (FeatureExtractor.counter_get FeatureExtractor.priority_map
                (Dict.get_default kv "exposure_priority" (PStr "NONE"))).
  intros z Hz E. injection E as <-. lia.
Qed.

Lemma add_branding_bound trains : forall score score',
  rfold FeatureExtractor.add_branding trains score = Ok score' ->
  score <= score' <= score + 4 * Z.of_nat (List.length trains).
Proof.
  induction trains as [|t trains IH]; intros score score' E.
  - simpl in E. injection E as <-. simpl. lia.
  - cbn [rfold] in E.
    destruct (FeatureExtractor.add_branding score t) as [s1|] eqn:E1;
      cbn [rbind] in E; [|discriminate].
    specialize (IH _ _ E). cbn [List.length]. rewrite Nat2Z.inj_succ.
    apply add_branding_step in E1. lia.
Qed.

Lemma chars_length s : List.length (chars s) = String.length s.
Proof. induction s as [|c s IH]; simpl; [reflexivity | now rewrite IH]. Qed.

Lemma py_len_iter v n items :
  py_len v = Ok n -> py_iter v = Ok items -> n = Z.of_nat (List.length items).
Proof.
  destruct v; simpl; try discriminate; intros E1 E2;
    injection E1 as <-; injection E2 as <-.
  - now rewrite chars_length.
  - reflexivity.
  - now rewrite length_map.
Qed.

Lemma dt_hour_range t : 0 <= dt_hour t <= 23.
Proof.
  unfold dt_hour, dt_secs_of_day, usec_per_day, usec_per_sec.
  pose proof (Z.mod_pos_bound t (86400 * 1000000) ltac:(lia)) as Hm.
  assert (0 <= t mod (86400 * 1000000) / 1000000 < 86400) as Hs.
  { split; [apply Z.div_pos; lia|]. apply Z.div_lt_upper_bound; lia. }
  split; [apply Z.div_pos; lia|].
  assert (t mod (86400 * 1000000) / 1000000 / 3600 < 24)
    by (apply Z.div_lt_upper_bound; lia).
  lia.
Qed.

Lemma dt_weekday_range t : 0 <= dt_weekday t <= 6.
Proof.
  unfold dt_weekday. pose proof (Z.mod_pos_bound (dt_days t + 3) 7 ltac:(lia)). lia.
Qed.

Lemma time_features_range `{ExternalLibs} schedule hour weekday :
  FeatureExtractor.time_features schedule = (hour, weekday) ->
  0 <= hour <= 23 /\ 0 <= weekday <= 6.
Proof.
  unfold FeatureExtractor.time_features.
  destruct (py_get schedule "generated_at" (PStr "")) as [[| | |s| |]|];
    try (intros E; injection E as <- <-; lia).
  destruct (fromisoformat _) as [t|]; intros E; injection E as <- <-; [|lia].
  split; [apply dt_hour_range | apply dt_weekday_range].
Qed.

(** X8.  Whenever [extract_from_schedule] returns, the feature map has
    exactly the twelve keys, in the order they are assigned; the counts are
    consistent: the available and the maintenance units are no more than the
    units, the branding sum is at most four per unit, no count is negative,
    the hour is within 0..23 and the weekday within 0..6. *)
Theorem extracted_features_consistent `{ExternalLibs} schedule features :
  FeatureExtractor.extract_from_schedule schedule = Ok features ->
  Dict.keys features = extracted_keys
  /\ exists units available maintenance issues branding hour weekday,
       feature_is features "num_trains" units
       /\ feature_is features "num_available" available
       /\ feature_is features "maintenance_count" maintenance
       /\ feature_is features "certificate_expiry_count" issues
       /\ feature_is features "branding_priority_sum" branding
       /\ feature_is features "time_of_day" hour
       /\ feature_is features "day_of_week" weekday
       /\ 0 <= available /\ 0 <= maintenance /\ available + maintenance <= units
       /\ 0 <= issues
       /\ 0 <= branding <= 4 * units
       /\ 0 <= hour <= 23 /\ 0 <= weekday <= 6.
Proof.
  unfold FeatureExtractor.extract_from_schedule. intros E. invert_rbind E.
  destruct (FeatureExtractor.time_features schedule) as [hour weekday] eqn:Etime.
  injection E as <-.
  match goal with
  | Elen : py_len _ = Ok ?n, Eiter : py_iter _ = Ok ?items |- _ =>
      pose proof (py_len_iter _ _ _ Elen Eiter) as Hunits
  end.
  match goal with
  | Ec : rfold FeatureExtractor.count_status _ [] = Ok _ |- _ =>
      pose proof (count_status_bound _ _ _ Ec) as Hstatus; cbv zeta in Hstatus;
      cbn [FeatureExtractor.counter_get] in Hstatus
  end.
  match goal with
  | Ec : rfold FeatureExtractor.count_certificates _ 0 = Ok _ |- _ =>
      pose proof (count_certificates_bound _ _ _ Ec) as Hcerts
  end.
  match goal with
  | Ec : rfold FeatureExtractor.add_branding _ 0 = Ok _ |- _ =>
      pose proof (add_branding_bound _ _ _ Ec) as Hbrand
  end.
  pose proof (time_features_range _ _ _ Etime) as [Hhour Hday].
  match goal with
  | Em : match ?mileages with [] => _ | _ :: _ => _ end = Ok ?fs |- _ =>
      destruct mileages; [injection Em as <- | invert_rbind Em; injection Em as <-]
  end.
  all: split; [reflexivity|].
  all: do 7 eexists.
  all: repeat (split; [reflexivity|]).
  all: subst; lia.
Qed.

Lemma extracted_features_consistent_witness :
  FeatureExtractor.extract_from_schedule (H := RefLibs.libs) Examples.rec_b
  = Ok (Scenarios.features_of Examples.rec_b)
  /\ Dict.keys (Scenarios.features_of Examples.rec_b) = extracted_keys.
Proof.
  assert (E : FeatureExtractor.extract_from_schedule (H := RefLibs.libs) Examples.rec_b
              = Ok (Scenarios.features_of Examples.rec_b)) by (vm_compute; reflexivity).
  split; [exact E|].
  exact (proj1 (extracted_features_consistent (H := RefLibs.libs) Examples.rec_b
                  (Scenarios.features_of Examples.rec_b) E)).
Defined.

Lemma calculate_target_le schedule target :
  FeatureExtractor.calculate_target schedule = Ok target -> (target <= 100)%Q.
Proof.
  unfold FeatureExtractor.calculate_target. intros E. invert_rbind E.
  injection E as <-. apply py_min_upper.
Qed.

Lemma try_extract_shape `{ExternalLibs} cfg schedule row target :
  FeatureExtractor.try_extract cfg schedule = Some (row, target) ->
  List.length row = List.length (FEATURES cfg) /\ (target <= 100)%Q.
Proof.
  unfold FeatureExtractor.try_extract.
  destruct (FeatureExtractor.extract_from_schedule schedule) as [features|];
    [|discriminate].
  destruct (FeatureExtractor.calculate_target schedule) as [t|] eqn:Et;
    [|discriminate].
  intros E. injection E as <- <-. split.
  - apply length_map.
  - now apply calculate_target_le with schedule.
Qed.

(** X9.  [prepare_dataset] raises only [AttributeError], and exactly when
    an entry of the corpus is not a dict (the [.get] on the entry is outside
    the try).  Otherwise it returns as many rows as targets, no more than
    there are entries (an entry on which extraction or the target raises is
    dropped), every row has one value per configured feature, and no target
    is above 100. *)
Theorem prepare_dataset_shape `{ExternalLibs} cfg schedules :
  match FeatureExtractor.prepare_dataset cfg schedules with
  | Ok (X, y) =>
      forallb is_dict schedules = true
      /\ List.length X = List.length y
      /\ (List.length X <= List.length schedules)%nat
      /\ Forall (fun row => List.length row = List.length (FEATURES cfg)) X
      /\ Forall (fun target => (target <= 100)%Q) y
  | Raise e => e = AttributeError /\ forallb is_dict schedules = false
  end.
Proof.
  induction schedules as [|entry rest IH]; cbn [FeatureExtractor.prepare_dataset].
  - cbn. repeat split; auto.
  - destruct entry; cbn [py_get rbind forallb is_dict andb]; try (split; reflexivity).
    destruct (FeatureExtractor.prepare_dataset cfg rest) as [[X y]|e];
      cbn [rbind]; [|exact IH].
    destruct IH as (Hd & Hlen & Hle & HX & Hy).
    destruct (FeatureExtractor.try_extract cfg _) as [[row target]|] eqn:Et.
    + apply try_extract_shape in Et as [Hrow Htarget].
      cbn [List.length]. repeat split; auto with arith.
    + cbn [List.length]. repeat split; auto with arith.
Qed.

(* ================================================================= *)
(** ** The trainer and its files *)





Lemma dict_set_not_empty {V} (d : Dict.t V) k v : Dict.is_empty (Dict.set d k v) = false.
Proof. destruct d as [|[k' v'] d]; simpl; [reflexivity|]. now destruct (String.eqb k k'). Qed.



Section TrainerRun.
Context `{ExternalLibs}.
Variable cfg : TrainingConfig.

Lemma save_model_world now w :
  Trainer.save_model cfg now w
  = (Ok tt,
     {| self := self w;
        disk :=
          if Dict.is_empty (models (self w)) then disk w
          else
            set_model_dir
              (Dict.set
                 (Dict.set (model_dir (disk w))
                    ("models_" ++ strftime_stamp now ++ ".pkl")
                    (Pickled (model_data_of cfg (self w))))
                 "models_latest.pkl" (Pickled (model_data_of cfg (self w))))
              (disk w) |}).
Proof.
  destruct w as [s d].
  unfold Trainer.save_model, bind, get_self, ret, modify_disk. simpl.
  destruct (Dict.is_empty (models s)); reflexivity.
Qed.

Lemma save_history_world w :
  Trainer._save_history w
  = (Ok tt, {| self := self w;
               disk := set_history_file (Some (training_history (self w))) (disk w) |}).
Proof. reflexivity. Qed.

(** What the loop body leaves alone, whatever its outcome. *)
Lemma train_model_frame X_train X_test y_train y_test all_metrics name out w' w :
  Trainer.train_model cfg X_train X_test y_train y_test all_metrics name w = (out, w') ->
  disk w' = disk w
  /\ ensemble_weights (self w') = ensemble_weights (self w)
  /\ best_model_name (self w') = best_model_name (self w)
  /\ last_trained (self w') = last_trained (self w)
  /\ training_history (self w') = training_history (self w).
Proof.
  unfold Trainer.train_model, bind, lift, ret, modify_self.
  destruct (Trainer._get_model cfg name); [|intros E; injection E as <- <-; auto].
  repeat match goal with
  | |- context [match ?x with Ok _ => _ | Raise _ => _ end] => destruct x
  end; intros E; injection E as <- <-; simpl; auto.
Qed.

Lemma loop_frame X_train X_test y_train y_test names : forall all_metrics out w w',
  foldM (Trainer.train_model cfg X_train X_test y_train y_test) names all_metrics w
  = (out, w') ->
  disk w' = disk w
  /\ ensemble_weights (self w') = ensemble_weights (self w)
  /\ best_model_name (self w') = best_model_name (self w)
  /\ last_trained (self w') = last_trained (self w)
  /\ training_history (self w') = training_history (self w).
Proof.
  induction names as [|name names IH]; intros all_metrics out w w'; simpl.
  - unfold ret. intros E. injection E as <- <-. auto.
  - unfold bind.
    destruct (Trainer.train_model cfg X_train X_test y_train y_test all_metrics name w)
      as [[m1|e] w1] eqn:E1; intros E.
    + apply train_model_frame in E1 as (D1 & W1 & B1 & L1 & T1).
      apply IH in E as (D2 & W2 & B2 & L2 & T2).
      repeat split; congruence.
    + injection E as <- <-. now apply train_model_frame in E1.
Qed.



Lemma compute_ensemble_weights_inv w w2 :
  Trainer.compute_ensemble_weights cfg w = (Ok tt, w2) ->
  disk w2 = disk w
  /\ models (self w2) = models (self w)
  /\ model_scores (self w2) = model_scores (self w)
  /\ best_model_name (self w2) = best_model_name (self w)
  /\ last_trained (self w2) = last_trained (self w)
  /\ training_history (self w2) = training_history (self w)
  /\ if USE_ENSEMBLE cfg && (1 <? List.length (models (self w)))%nat
     then Trainer.normalise (model_scores (self w)) = Ok (ensemble_weights (self w2))
     else ensemble_weights (self w2) = Dict.empty.
Proof.
  unfold Trainer.compute_ensemble_weights, bind, get_self, lift, modify_self.
  destruct (USE_ENSEMBLE cfg && (1 <? List.length (models (self w)))%nat).
  - destruct (Trainer.normalise (model_scores (self w))) as [weights|e];
      intros E; [|discriminate E]. injection E as <-. simpl. auto 10.
  - intros E. injection E as <-. simpl. auto 10.
Qed.

Lemma compute_ensemble_weights_frame out w w2 :
  Trainer.compute_ensemble_weights cfg w = (Raise out, w2) -> w2 = w.
Proof.
  unfold Trainer.compute_ensemble_weights, bind, get_self, lift, modify_self.
  destruct (USE_ENSEMBLE cfg && (1 <? List.length (models (self w)))%nat).
  - destruct (Trainer.normalise (model_scores (self w))) as [weights|e];
      intros E; [discriminate E|]. now injection E as <- <-.
  - discriminate.
Qed.

End TrainerRun.

Section TrainerOutcomes.
Context `{ExternalLibs}.
Variable cfg : TrainingConfig.

(** The world a successful run leaves, and what it reports. *)
Lemma train_success_world t_check t_done t_save force w r w' :
  Trainer.train cfg t_check t_done t_save force w = (Ok r, w') ->
  success r = true ->
  exists X y X_train X_test y_train y_test all_metrics w1 w2,
    FeatureExtractor.prepare_dataset cfg
      (ScheduleDataStore.load_schedules None (data_dir (disk w))) = Ok (X, y)
    /\ train_test_split X y (TRAIN_TEST_SPLIT cfg)
       = Ok (X_train, X_test, y_train, y_test)
    /\ foldM (Trainer.train_model cfg X_train X_test y_train y_test)
         (MODEL_TYPES cfg) Dict.empty (start_run w) = (Ok all_metrics, w1)
    /\ Trainer.compute_ensemble_weights cfg w1 = (Ok tt, w2)
    /\ (available (disk w) <? MIN_SCHEDULES_FOR_TRAINING cfg) = false
    /\ (List.length X =? 0)%nat = false
    /\ let s3 := set_last_trained (Some t_done) (choose_best (self w2)) in
       let entry := history_entry_of cfg t_done all_metrics s3 in
       self w' = set_training_history (training_history s3 ++ [entry])%list s3
       /\ disk w'
          = set_history_file (Some (training_history s3 ++ [entry])%list)
              (disk (snd (Trainer.save_model cfg t_save
                            {| self := s3; disk := disk w2 |})))
       /\ r = TrainSuccess (Dict.keys (models s3)) (best_model_name s3) all_metrics
                (ensemble_weights s3) (Z.of_nat (List.length X)) (isoformat t_done).
Proof.
  unfold Trainer.train, bind, ret, lift, get_self, get_disk, modify_self.
  intros Ht Hs.
  repeat match type of Ht with
  | context [if ?c then _ else _] => destruct c eqn:?
  | context [match ?x with _ => _ end] => destruct x eqn:?
  end; try (inversion Ht; subst; simpl in *; discriminate).
  subst. injection Ht as <- <-. clear Hs.
  match goal with
  | E : Trainer.save_model _ _ ?u = _ |- _ =>
      rewrite (save_model_world cfg t_save u) in E; injection E as <- <-
  end.
  match goal with
  | E : Trainer._save_history ?u = _ |- _ =>
      rewrite (save_history_world u) in E; injection E as <- <-
  end.
  match goal with
  | E : Trainer.compute_ensemble_weights _ _ = (Ok ?u, _) |- _ => destruct u
  end.
  do 9 eexists.
  split; [reflexivity|]. do 3 (split; [eassumption|]).
  split; [assumption|]. split; [assumption|].
  cbv zeta. rewrite save_model_world. unfold choose_best.
  match goal with
  | E : match argmax_score ?sc with _ => _ end ?u = _ |- _ =>
      destruct (argmax_score sc); injection E as <- <-
  end.
  all: split; [reflexivity|]; split; reflexivity.
Qed.

Lemma prepare_dataset_rows schedules X y :
  FeatureExtractor.prepare_dataset cfg schedules = Ok (X, y) ->
  (List.length X <= List.length schedules)%nat.
Proof.
  revert X y. induction schedules as [|entry rest IH]; intros X y;
    cbn [FeatureExtractor.prepare_dataset].
  - intros E. injection E as <- <-. auto.
  - destruct (py_get entry "schedule" entry); cbn [rbind]; [|discriminate].
    destruct (FeatureExtractor.prepare_dataset cfg rest) as [[X0 y0]|];
      cbn [rbind]; [|discriminate].
    specialize (IH X0 y0 eq_refl).
    destruct (FeatureExtractor.try_extract cfg _) as [[row target]|];
      intros E; injection E as <- <-; cbn [List.length]; lia.
Qed.

(** X10.  [save_model] never raises and touches neither the trainer, the
    corpus nor the history file.  With no model in memory it writes nothing.
    Otherwise the time-stamped file and "models_latest.pkl" hold the same
    blob, and [load_model] on the resulting disk, by any trainer, installs
    the models, the weights, the best-model name and the last-trained time
    of the trainer that saved; the scores and the training history of the
    loading trainer stay as they were. *)
Theorem saved_models_load_back now w loader :
  exists d,
    Trainer.save_model cfg now w = (Ok tt, {| self := self w; disk := d |})
    /\ data_dir d = data_dir (disk w)
    /\ history_file d = history_file (disk w)
    /\ if Dict.is_empty (models (self w))
       then d = disk w
       else
         Dict.get (model_dir d) ("models_" ++ strftime_stamp now ++ ".pkl")
         = Some (Pickled (model_data_of cfg (self w)))
         /\ Dict.get (model_dir d) "models_latest.pkl"
            = Some (Pickled (model_data_of cfg (self w)))
         /\ Trainer.load_model {| self := loader; disk := d |}
            = (Ok true,
               {| self := {| models := models (self w);
                             model_scores := model_scores loader;
                             ensemble_weights := ensemble_weights (self w);
                             best_model_name := best_model_name (self w);
                             last_trained := last_trained (self w);
                             training_history := training_history loader |};
                  disk := d |}).
Proof.
  rewrite save_model_world. eexists. split; [reflexivity|].
  destruct (Dict.is_empty (models (self w))); [auto|].
  split; [reflexivity|]. split; [reflexivity|].
  cbn [set_model_dir model_dir].
  assert (Hlatest :
    forall d0 : Dict.t blob,
      Dict.get (Dict.set d0 "models_latest.pkl" (Pickled (model_data_of cfg (self w))))
        "models_latest.pkl" = Some (Pickled (model_data_of cfg (self w))))
    by (intros d0; apply dict_get_set_same).
  split; [|split].
  - destruct (String.eqb_spec ("models_" ++ strftime_stamp now ++ ".pkl")
                "models_latest.pkl") as [->|Hne].
    + apply Hlatest.
    + rewrite dict_get_set_other by exact Hne. apply dict_get_set_same.
  - apply Hlatest.
  - unfold Trainer.load_model, bind, get_disk. cbn [disk model_dir set_model_dir].
    rewrite Hlatest. reflexivity.
Qed.

(** What a run that raises leaves alone. *)
Lemma failed_run_frame t_check t_done t_save force w e w' :
  Trainer.train cfg t_check t_done t_save force w = (Raise e, w') ->
  disk w' = disk w
  /\ last_trained (self w') = last_trained (self w)
  /\ training_history (self w') = training_history (self w)
  /\ best_model_name (self w') = best_model_name (self w)
  /\ ensemble_weights (self w') = ensemble_weights (self w).
Proof.
  unfold Trainer.train, bind, ret, lift, get_self, get_disk, modify_self.
  intros Ht.
  repeat match type of Ht with
  | context [if ?c then _ else _] => destruct c
  | context [match ?x with _ => _ end] => destruct x eqn:?
  end; try discriminate Ht.
  all: try match goal with
  | E : Trainer.save_model _ _ _ = (Raise _, _) |- _ =>
      rewrite save_model_world in E; discriminate E
  end.
  all: try match goal with
  | E : Trainer._save_history _ = (Raise _, _) |- _ =>
      rewrite save_history_world in E; discriminate E
  end.
  all: injection Ht as <- <-.
  all: try (split; [reflexivity|]; split; [reflexivity|]; split; [reflexivity|];
            split; reflexivity).
  all: try match goal with
  | E : Trainer.compute_ensemble_weights _ _ = (Raise _, _) |- _ =>
      apply compute_ensemble_weights_frame in E; subst
  end.
  all: match goal with
  | E : foldM _ _ _ _ = _ |- _ =>
      apply loop_frame in E as (D & W & B & L & T); simpl in *
  end.
  all: try match goal with
  | E : match argmax_score ?sc with _ => _ end _ = (Raise _, _) |- _ =>
      destruct (argmax_score sc); discriminate E
  end.
  all: split; [assumption|]; split; [assumption|]; split; [assumption|];
    split; assumption.
Qed.


(** A run that returns without success leaves the world as it was. *)
Lemma unsuccessful_run_world t_check t_done t_save force w r w' :
  Trainer.train cfg t_check t_done t_save force w = (Ok r, w') ->
  success r = false ->
  w' = w.
Proof.
  unfold Trainer.train, bind, ret, lift, get_self, get_disk, modify_self.
  intros Ht Hs.
  repeat match type of Ht with
  | context [if ?c then _ else _] => destruct c
  | context [match ?x with _ => _ end] => destruct x eqn:?
  end; try discriminate Ht; injection Ht as <- <-;
    try reflexivity; try discriminate Hs.
  all: destruct w; reflexivity.
Qed.

(** Where a run that raises has raised: in the preparation of the dataset,
    in the split, in the loop over the model types, or in the weights. *)
Lemma failed_run_stage t_check t_done t_save force w e w' :
  Trainer.train cfg t_check t_done t_save force w = (Raise e, w') ->
  let schedules := ScheduleDataStore.load_schedules None (data_dir (disk w)) in
  (FeatureExtractor.prepare_dataset cfg schedules = Raise e /\ w' = w)
  \/ (exists X y,
        FeatureExtractor.prepare_dataset cfg schedules = Ok (X, y)
        /\ train_test_split X y (TRAIN_TEST_SPLIT cfg) = Raise e /\ w' = w)
  \/ (exists X y X_train X_test y_train y_test,
        FeatureExtractor.prepare_dataset cfg schedules = Ok (X, y)
        /\ train_test_split X y (TRAIN_TEST_SPLIT cfg)
           = Ok (X_train, X_test, y_train, y_test)
        /\ (foldM (Trainer.train_model cfg X_train X_test y_train y_test)
              (MODEL_TYPES cfg) Dict.empty (start_run w) = (Raise e, w')
            \/ exists all_metrics w1,
                 foldM (Trainer.train_model cfg X_train X_test y_train y_test)
                   (MODEL_TYPES cfg) Dict.empty (start_run w) = (Ok all_metrics, w1)
                 /\ Trainer.compute_ensemble_weights cfg w1 = (Raise e, w'))).
Proof.
  intros Ht schedules. revert Ht.
  unfold Trainer.train, bind, ret, lift, get_self, get_disk, modify_self.
  destruct (negb force && _); [discriminate|].
  destruct (_ <? _); [discriminate|].
  fold schedules.
  destruct (FeatureExtractor.prepare_dataset cfg schedules) as [[X y]|e0] eqn:Ed;
    [|intros Ht; injection Ht as <- <-; now left].
  destruct (List.length X =? 0)%nat; [discriminate|].
  destruct (train_test_split X y (TRAIN_TEST_SPLIT cfg))
    as [[[[X_train X_test] y_train] y_test]|e0] eqn:Es;
    [|intros Ht; injection Ht as <- <-; right; left; exists X, y; auto].
  cbn [self disk].
  change {| self := set_model_scores Dict.empty (set_models Dict.empty (self w));
            disk := disk w |} with (start_run w).
  destruct (foldM (Trainer.train_model cfg X_train X_test y_train y_test)
              (MODEL_TYPES cfg) Dict.empty (start_run w))
    as [[all_metrics|e0] w1] eqn:El.
  2: { intros Ht. injection Ht as <- <-. right. right.
       exists X, y, X_train, X_test, y_train, y_test. auto. }
  destruct (Trainer.compute_ensemble_weights cfg w1) as [[[]|e0] w2] eqn:Ew.
  2: { intros Ht. injection Ht as <- <-. right. right.
       exists X, y, X_train, X_test, y_train, y_test.
       split; [first [assumption | reflexivity]|].
       split; [first [assumption | reflexivity]|]. right.
       exists all_metrics, w1. auto. }
  intros Ht. exfalso.
  repeat match type of Ht with
  | context [match ?x with _ => _ end] => destruct x eqn:?
  end; try discriminate Ht.
  all: try match goal with
  | E : Trainer.save_model _ _ _ = (Raise _, _) |- _ =>
      rewrite save_model_world in E; discriminate E
  end.
  all: try match goal with
  | E : Trainer._save_history _ = (Raise _, _) |- _ =>
      rewrite save_history_world in E; discriminate E
  end.
  all: match goal with
  | E : match argmax_score ?sc with _ => _ end _ = (Raise _, _) |- _ =>
      destruct (argmax_score sc); discriminate E
  end.
Qed.

(** X11.  In the model [train] raises only before its persistence step: in
    the preparation of the dataset or in the split, the trainer and the disk
    then being as before, or in the loop over the model types or in the
    division for the weights.  Such a run has written nothing: the disk
    (the corpus, the model files, the history file) is as before, and so are
    the last-trained time, the training history, the best-model name and the
    ensemble weights of the trainer.  So [should_retrain] answers after the
    failure as it did before it, at every instant.  (A failing write in
    [save_model] or [_save_history] is outside the model.) *)
Theorem failed_run_writes_nothing t_check t_done t_save force w e w' :
  Trainer.train cfg t_check t_done t_save force w = (Raise e, w') ->
  let schedules := ScheduleDataStore.load_schedules None (data_dir (disk w)) in
  ((FeatureExtractor.prepare_dataset cfg schedules = Raise e /\ w' = w)
   \/ (exists X y,
         FeatureExtractor.prepare_dataset cfg schedules = Ok (X, y)
         /\ train_test_split X y (TRAIN_TEST_SPLIT cfg) = Raise e /\ w' = w)
   \/ (exists X y X_train X_test y_train y_test,
         FeatureExtractor.prepare_dataset cfg schedules = Ok (X, y)
         /\ train_test_split X y (TRAIN_TEST_SPLIT cfg)
            = Ok (X_train, X_test, y_train, y_test)
         /\ (foldM (Trainer.train_model cfg X_train X_test y_train y_test)
               (MODEL_TYPES cfg) Dict.empty (start_run w) = (Raise e, w')
             \/ exists all_metrics w1,
                  foldM (Trainer.train_model cfg X_train X_test y_train y_test)
                    (MODEL_TYPES cfg) Dict.empty (start_run w) = (Ok all_metrics, w1)
                  /\ Trainer.compute_ensemble_weights cfg w1 = (Raise e, w'))))
  /\ disk w' = disk w
  /\ last_trained (self w') = last_trained (self w)
  /\ training_history (self w') = training_history (self w)
  /\ best_model_name (self w') = best_model_name (self w)
  /\ ensemble_weights (self w') = ensemble_weights (self w)
  /\ forall now,
       Trainer.should_retrain cfg now (self w') (data_dir (disk w'))
       = Trainer.should_retrain cfg now (self w) (data_dir (disk w)).
Proof.
  intros Ht schedules.
  split; [exact (failed_run_stage _ _ _ _ _ _ _ Ht)|].
  apply failed_run_frame in Ht as (D & L & T & B & W).
  split; [exact D|]. split; [exact L|]. split; [exact T|]. split; [exact B|].
  split; [exact W|].
  intros now. unfold Trainer.should_retrain. rewrite L, D. reflexivity.
Qed.

(** X12.  A call of [train] that returns without success has changed
    nothing at all: the trainer and the disk are as before.  There are three
    such results: "Retraining not needed yet", only for an unforced call
    when [should_retrain] is false; "Not enough data", when fewer records
    than the configured minimum are available; and "No valid features
    extracted", when the minimum is there but no record gives a row. *)
Theorem unsuccessful_run_changes_nothing t_check t_done t_save force w r w' :
  Trainer.train cfg t_check t_done t_save force w = (Ok r, w') ->
  success r = false ->
  w' = w
  /\ ((r = TrainSkipped "Retraining not needed yet"
       /\ force = false
       /\ Trainer.should_retrain cfg t_check (self w) (data_dir (disk w)) = false)
      \/ (r = TrainSkipped (Trainer.not_enough_data cfg (available (disk w)))
          /\ available (disk w) < MIN_SCHEDULES_FOR_TRAINING cfg)
      \/ (r = TrainFailed "No valid features extracted"
          /\ MIN_SCHEDULES_FOR_TRAINING cfg <= available (disk w)
          /\ exists y,
               FeatureExtractor.prepare_dataset cfg
                 (ScheduleDataStore.load_schedules None (data_dir (disk w)))
               = Ok ([], y))).
Proof.
  intros Ht Hs. split; [exact (unsuccessful_run_world _ _ _ _ _ _ _ Ht Hs)|].
  revert Ht. unfold Trainer.train, bind, ret, lift, get_self, get_disk, modify_self.
  fold (available (disk w)).
  destruct (negb force && negb (Trainer.should_retrain cfg t_check (self w)
                                  (data_dir (disk w)))) eqn:Eg.
  { intros Ht. injection Ht as <- _. left.
    apply andb_prop in Eg as [Ef Es]. apply negb_true_iff in Ef, Es. auto. }
  destruct (available (disk w) <? MIN_SCHEDULES_FOR_TRAINING cfg) eqn:Em.
  { intros Ht. injection Ht as <- _. right. left. apply Z.ltb_lt in Em. auto. }
  apply Z.ltb_ge in Em.
  destruct (FeatureExtractor.prepare_dataset cfg _) as [[X y]|e0] eqn:Ed;
    [|discriminate].
  destruct (List.length X =? 0)%nat eqn:Ex.
  { intros Ht. injection Ht as <- _. right. right.
    apply Nat.eqb_eq in Ex. destruct X; [|discriminate Ex]. eauto. }
  intros Ht.
  repeat match type of Ht with
  | context [match ?x with _ => _ end] => destruct x eqn:?
  end; try discriminate Ht.
  injection Ht as <- _. discriminate Hs.
Qed.

End TrainerOutcomes.

Lemma failed_run_writes_nothing_witness :
  Trainer.train (H := RefLibs.failing_libs) Examples.small_cfg (Examples.sec 20)
    (Examples.sec 21) (Examples.sec 22) true (snd Examples.small_run)
  = (Raise ValueError, snd Scenarios.failed_retry)
  /\ disk (snd Scenarios.failed_retry) = disk (snd Examples.small_run)
  /\ last_trained (self (snd Scenarios.failed_retry))
     = last_trained (self (snd Examples.small_run)).
Proof.
  assert (E : Trainer.train (H := RefLibs.failing_libs) Examples.small_cfg
                (Examples.sec 20) (Examples.sec 21) (Examples.sec 22) true
                (snd Examples.small_run)
              = (Raise ValueError, snd Scenarios.failed_retry))
    by (vm_compute; reflexivity).
  split; [exact E|].
  pose proof (failed_run_writes_nothing (H := RefLibs.failing_libs) Examples.small_cfg
                (Examples.sec 20) (Examples.sec 21) (Examples.sec 22) true
                (snd Examples.small_run) ValueError (snd Scenarios.failed_retry) E)
    as Hx.
  cbv zeta in Hx. destruct Hx as (_ & D & L & _).
  split; [exact D | exact L].
Defined.

Lemma unsuccessful_run_changes_nothing_witness :
  Trainer.train (H := RefLibs.libs) Examples.small_cfg (Examples.sec 10)
    (Examples.sec 11) (Examples.sec 12) false (Examples.fresh Scenarios.dir_null)
  = (Ok (Examples.result_of Scenarios.null_run), snd Scenarios.null_run)
  /\ success (Examples.result_of Scenarios.null_run) = false
  /\ snd Scenarios.null_run = Examples.fresh Scenarios.dir_null.
Proof.
  assert (E : Trainer.train (H := RefLibs.libs) Examples.small_cfg (Examples.sec 10)
                (Examples.sec 11) (Examples.sec 12) false
                (Examples.fresh Scenarios.dir_null)
              = (Ok (Examples.result_of Scenarios.null_run), snd Scenarios.null_run))
    by (vm_compute; reflexivity).
  assert (Hs : success (Examples.result_of Scenarios.null_run) = false)
    by (vm_compute; reflexivity).
  split; [exact E|]. split; [exact Hs|].
  exact (proj1 (unsuccessful_run_changes_nothing (H := RefLibs.libs) Examples.small_cfg
                  (Examples.sec 10) (Examples.sec 11) (Examples.sec 12) false
                  (Examples.fresh Scenarios.dir_null)
                  (Examples.result_of Scenarios.null_run) (snd Scenarios.null_run)
                  E Hs)).
Defined.


Section TrainerSuccess.
Context `{ExternalLibs}.
Variable cfg : TrainingConfig.


(** X13.  What a successful [train] reports and leaves behind.  The report
    names the models, the best model and the weights the trainer now holds,
    and counts the rows of the dataset, of which there is at least one and
    no more than records available (at least the configured minimum).  The
    corpus is not touched.  The last-trained time is the time of the run,
    the history has one more entry, which repeats the report, and the
    history file holds the whole history of this trainer.  When a model was
    trained "models_latest.pkl" holds the trainer's models, weights, best
    name and last-trained time; when none was (no configured type is
    known), the model files are left as they were. *)
Theorem successful_run_report t_check t_done t_save force w r w' :
  Trainer.train cfg t_check t_done t_save force w = (Ok r, w') ->
  success r = true ->
  exists all_metrics samples,
    r = TrainSuccess (Dict.keys (models (self w'))) (best_model_name (self w'))
          all_metrics (ensemble_weights (self w')) samples (isoformat t_done)
    /\ 0 < samples <= available (disk w)
    /\ MIN_SCHEDULES_FOR_TRAINING cfg <= available (disk w)
    /\ data_dir (disk w') = data_dir (disk w)
    /\ last_trained (self w') = Some t_done
    /\ training_history (self w')
       = (training_history (self w)
          ++ [history_entry_of cfg t_done all_metrics (self w')])%list
    /\ history_file (disk w') = Some (training_history (self w'))
    /\ if Dict.is_empty (models (self w'))
       then model_dir (disk w') = model_dir (disk w)
       else Dict.get (model_dir (disk w')) "models_latest.pkl"
            = Some (Pickled (model_data_of cfg (self w'))).
Proof.
  intros Ht Hs.
  destruct (train_success_world cfg _ _ _ _ _ _ _ Ht Hs)
    as (X & y & X_train & X_test & y_train & y_test & all_metrics & w1 & w2
        & Hds & _ & Hloop & Hw & Hmin & Hrows & Hself & Hdisk & ->).
  apply loop_frame in Hloop as (D1 & _ & _ & _ & T1).
  unfold start_run in D1, T1. cbn in D1, T1.
  apply compute_ensemble_weights_inv in Hw as (D2 & _ & _ & _ & _ & T2 & _).
  cbv zeta in Hself, Hdisk. rewrite save_model_world in Hdisk. cbn [snd disk self] in Hdisk.
  assert (Hhist : training_history (choose_best (self w2)) = training_history (self w)).
  { unfold choose_best. destruct (argmax_score _); cbn; rewrite T2, T1; reflexivity. }
  exists all_metrics, (Z.of_nat (List.length X)).
  rewrite Hself, Hdisk. cbn [models best_model_name ensemble_weights last_trained
    training_history set_training_history set_last_trained history_file
    set_history_file data_dir].
  split; [reflexivity|].
  apply prepare_dataset_rows in Hds as Hle.
  apply Z.ltb_ge in Hmin. apply Nat.eqb_neq in Hrows.
  split; [unfold available; lia|]. split; [assumption|].
  rewrite Hhist.
  split.
  { destruct (Dict.is_empty (models (choose_best (self w2))));
      cbn [data_dir set_model_dir]; congruence. }
  split; [reflexivity|]. split; [reflexivity|]. split; [reflexivity|].
  destruct (Dict.is_empty (models (choose_best (self w2)))).
  - cbn [model_dir set_history_file]. congruence.
  - cbn [model_dir set_history_file set_model_dir]. apply dict_get_set_same.
Qed.


End TrainerSuccess.

Lemma successful_run_report_witness :
  Trainer.train (H := RefLibs.libs) Examples.single_cfg (Examples.sec 10)
    (Examples.sec 11) (Examples.sec 12) false (Examples.fresh Examples.dir_low)
  = (Ok (Examples.result_of Examples.low_run), snd Examples.low_run)
  /\ success (Examples.result_of Examples.low_run) = true
  /\ last_trained (self (snd Examples.low_run)) = Some (Examples.sec 11)
  /\ history_file (disk (snd Examples.low_run))
     = Some (training_history (self (snd Examples.low_run))).
Proof.
  assert (E : Trainer.train (H := RefLibs.libs) Examples.single_cfg (Examples.sec 10)
                (Examples.sec 11) (Examples.sec 12) false
                (Examples.fresh Examples.dir_low)
              = (Ok (Examples.result_of Examples.low_run), snd Examples.low_run))
    by (vm_compute; reflexivity).
  assert (Hs : success (Examples.result_of Examples.low_run) = true)
    by (vm_compute; reflexivity).
  split; [exact E|]. split; [exact Hs|].
  destruct (successful_run_report (H := RefLibs.libs) Examples.single_cfg
              (Examples.sec 10) (Examples.sec 11) (Examples.sec 12) false
              (Examples.fresh Examples.dir_low)
              (Examples.result_of Examples.low_run) (snd Examples.low_run) E Hs)
    as (all_metrics & samples & _ & _ & _ & _ & L & _ & F & _).
  split; [exact L | exact F].
Defined.



(* ================================================================= *)
(** ** The scheduler in front of the trainer *)

Section SchedulerFacts.
Context `{ExternalLibs}.
Variable cfg : TrainingConfig.

Lemma predict_loaded_world features use_ensemble w :
  Dict.is_empty (models (self w)) = false ->
  snd (Trainer.predict cfg features use_ensemble w) = w.
Proof.
  intros Hm. unfold Trainer.predict, bind, get_self, ret, lift. rewrite Hm. cbn [fst snd].
  rewrite Hm.
  repeat match goal with
  | |- context [if ?c then _ else _] => destruct c
  | |- context [match ?x with _ => _ end] => destruct x
  end; reflexivity.
Qed.

(** With models in memory, the answer of [predict] is read off the models,
    the weights and the best-model name alone. *)
Lemma predict_loaded_answer features use_ensemble w v :
  Dict.is_empty (models (self w)) = false ->
  models (self v) = models (self w) ->
  ensemble_weights (self v) = ensemble_weights (self w) ->
  best_model_name (self v) = best_model_name (self w) ->
  fst (Trainer.predict cfg features use_ensemble v)
  = fst (Trainer.predict cfg features use_ensemble w).
Proof.
  intros Hm Em Ew Eb. unfold Trainer.predict, bind, get_self, ret, lift.
  rewrite Em, Hm. cbn [fst snd]. rewrite Em, Ew, Eb, Hm.
  repeat match goal with
  | |- context [if ?c then _ else _] => destruct c
  | |- context [match ?x with _ => _ end] => destruct x
  end; reflexivity.
Qed.

Lemma should_use_ml_world features w :
  snd (HybridScheduler.should_use_ml cfg features w) = w.
Proof.
  unfold HybridScheduler.should_use_ml, bind, get_self, ret.
  destruct (negb (USE_HYBRID cfg)); [reflexivity|].
  destruct (Dict.is_empty (models (self w))) eqn:Hm; [reflexivity|].
  pose proof (predict_loaded_world features true w Hm) as Hp.
  destruct (Trainer.predict cfg features true w) as [[pc|e] w1]; exact Hp.
Qed.

Lemma should_use_ml_answer features w v :
  models (self v) = models (self w) ->
  ensemble_weights (self v) = ensemble_weights (self w) ->
  best_model_name (self v) = best_model_name (self w) ->
  fst (HybridScheduler.should_use_ml cfg features v)
  = fst (HybridScheduler.should_use_ml cfg features w).
Proof.
  intros Em Ew Eb. unfold HybridScheduler.should_use_ml, bind, get_self, ret.
  destruct (negb (USE_HYBRID cfg)); [reflexivity|]. rewrite Em.
  destruct (Dict.is_empty (models (self w))) eqn:Hm; [reflexivity|].
  pose proof (predict_loaded_answer features true w v Hm Em Ew Eb) as Hp.
  destruct (Trainer.predict cfg features true v) as [[pc|e] v1];
    destruct (Trainer.predict cfg features true w) as [[pc'|e'] w1];
    cbn [fst] in *; try discriminate Hp; injection Hp as ->; reflexivity.
Qed.

Lemma recommendation_answer now now' request ml_available w v :
  models (self v) = models (self w) ->
  ensemble_weights (self v) = ensemble_weights (self w) ->
  best_model_name (self v) = best_model_name (self w) ->
  fst (HybridScheduler.get_schedule_recommendation cfg now now' request ml_available v)
  = fst (HybridScheduler.get_schedule_recommendation cfg now now' request ml_available w).
Proof.
  intros Em Ew Eb. unfold HybridScheduler.get_schedule_recommendation, bind, lift, ret.
  destruct (HybridScheduler.request_features now now' request) as [features|e];
    [|reflexivity].
  pose proof (should_use_ml_answer features w v Em Ew Eb) as Hp.
  destruct (HybridScheduler.should_use_ml cfg features v) as [[[u c]|e] v1];
    destruct (HybridScheduler.should_use_ml cfg features w) as [[[u' c']|e'] w1];
    cbn [fst] in *; try discriminate Hp; inversion Hp; subst; reflexivity.
Qed.

(** X15.  A scheduler started on the disk a trainer saved its models to
    gives the advice that trainer gives: the constructor finds the blob, and
    [predict] and [get_schedule_recommendation] answer the same on every
    input.  What is not brought back are the scores and the training
    history, which start empty. *)
Theorem restart_keeps_advice now w :
  Dict.is_empty (models (self w)) = false ->
  let saved := snd (Trainer.save_model cfg now w) in
  let restarted := snd (hybrid_scheduler_init saved) in
  fst (hybrid_scheduler_init saved) = Ok true
  /\ disk restarted = disk saved
  /\ last_trained (self restarted) = last_trained (self w)
  /\ model_scores (self restarted) = Dict.empty
  /\ training_history (self restarted) = []
  /\ (forall features use_ensemble,
        fst (Trainer.predict cfg features use_ensemble restarted)
        = fst (Trainer.predict cfg features use_ensemble w))
  /\ (forall t t' request ml_available,
        fst (HybridScheduler.get_schedule_recommendation cfg t t' request
               ml_available restarted)
        = fst (HybridScheduler.get_schedule_recommendation cfg t t' request
                 ml_available w)).
Proof.
  intros Hm saved restarted.
  assert (Hinit :
    hybrid_scheduler_init saved
    = (Ok true,
       {| self := {| models := models (self w);
                     model_scores := Dict.empty;
                     ensemble_weights := ensemble_weights (self w);
                     best_model_name := best_model_name (self w);
                     last_trained := last_trained (self w);
                     training_history := [] |};
          disk := disk saved |})).
  { unfold saved. rewrite save_model_world, Hm. cbn [snd].
    unfold hybrid_scheduler_init, Trainer.load_model, bind, modify_self, get_disk.
    cbn [disk self model_dir set_model_dir]. rewrite dict_get_set_same. reflexivity. }
  unfold restarted. rewrite Hinit. cbn [fst snd self disk model_scores last_trained
    training_history].
  split; [reflexivity|]. split; [reflexivity|]. split; [reflexivity|].
  split; [reflexivity|]. split; [reflexivity|]. split.
  - intros features use_ensemble. now apply predict_loaded_answer.
  - intros t t' request ml_available. now apply recommendation_answer.
Qed.

(** X16.  Asking for a recommendation changes neither the trainer nor the
    disk, whatever the request and whether or not the call raises; a
    scheduler whose trainer holds no model does not look for one on disk.
    A request that is not a dict raises [AttributeError]. *)
Theorem recommendation_leaves_world now now' request ml_available w :
  snd (HybridScheduler.get_schedule_recommendation cfg now now' request
         ml_available w) = w
  /\ if is_dict request
     then exists features,
            HybridScheduler.request_features now now' request = Ok features
            /\ Dict.keys features = ["num_trains"; "time_of_day"; "day_of_week"]
     else fst (HybridScheduler.get_schedule_recommendation cfg now now' request
                 ml_available w) = Raise AttributeError.
Proof.
  unfold HybridScheduler.get_schedule_recommendation, bind, lift, ret. split.
  - destruct (HybridScheduler.request_features now now' request) as [features|e];
      [|reflexivity].
    pose proof (should_use_ml_world features w) as Hw.
    destruct (HybridScheduler.should_use_ml cfg features w) as [[[u c]|e] w1]; exact Hw.
  - destruct request; try reflexivity. cbn. eexists. split; reflexivity.
Qed.

End SchedulerFacts.

Lemma restart_keeps_advice_witness :
  Dict.is_empty (models (self (snd Examples.small_run))) = false
  /\ fst (hybrid_scheduler_init
            (snd (Trainer.save_model Examples.small_cfg (Examples.sec 30)
                    (snd Examples.small_run)))) = Ok true
  /\ fst (Trainer.predict (H := RefLibs.libs) Examples.small_cfg
            [("num_trains", PNum 25)] true
            (snd (hybrid_scheduler_init
                    (snd (Trainer.save_model Examples.small_cfg (Examples.sec 30)
                            (snd Examples.small_run))))))
     = fst (Trainer.predict (H := RefLibs.libs) Examples.small_cfg
              [("num_trains", PNum 25)] true (snd Examples.small_run)).
Proof.
  assert (Hm : Dict.is_empty (models (self (snd Examples.small_run))) = false)
    by (vm_compute; reflexivity).
  split; [exact Hm|].
  pose proof (restart_keeps_advice (H := RefLibs.libs) Examples.small_cfg
                (Examples.sec 30) (snd Examples.small_run) Hm) as Hx.
  cbv zeta in Hx. destruct Hx as (Hi & _ & _ & _ & _ & Hp & _).
  split; [exact Hi | exact (Hp [("num_trains", PNum 25)] true)].
Defined.


Section FeedbackFacts.
Context `{ExternalLibs}.
Variable cfg : TrainingConfig.

Lemma save_schedule_dict now now' kv metadata dir :
  exists name,
    ScheduleDataStore.save_schedule cfg now now' (PDict kv) metadata dir
    = Ok (DATA_DIR cfg ++ "/" ++ name,
          write_file dir
            {| f_name := name; f_mtime := now';
               f_data := Some (saved_entry (PDict kv) (stored_metadata metadata) now') |})
    /\ ends_with ".json" name = true.
Proof.
  unfold ScheduleDataStore.save_schedule. cbn [py_get rbind].
  eexists. split; [reflexivity|]. apply saved_name_json.
Qed.

(** X17.  [record_schedule_feedback] on a schedule that is a dict, under an
    id that gives a plain file name, stores one entry: the schedule, the
    time of recording and the quality score as metadata, and the save time.
    The entry is among the loaded schedules afterwards, at most one file is
    added, and the trainer, the model files and the history file are not
    touched.  The quality score stays in the metadata: the dataset prepared
    from an entry is the same whatever its metadata and save time.  A
    schedule that is not a dict raises [AttributeError] and nothing is
    stored. *)
Theorem feedback_recorded recorded_at now now' schedule quality_score w :
  let metadata :=
    PDict [ ("recorded_at", PStr (isoformat recorded_at));
            ("quality_score",
             match quality_score with Some q => PNum q | None => PNone end) ] in
  let call :=
    HybridScheduler.record_schedule_feedback cfg recorded_at now now' schedule
      quality_score w in
  (forall other saved_at rest,
      FeatureExtractor.prepare_dataset cfg
        (saved_entry schedule metadata now' :: rest)
      = FeatureExtractor.prepare_dataset cfg
          (saved_entry schedule other saved_at :: rest))
  /\ match schedule with
     | PDict kv =>
         plain_file_name (saved_file_name now kv) = true ->
         fst call = Ok tt
         /\ self (snd call) = self w
         /\ model_dir (disk (snd call)) = model_dir (disk w)
         /\ history_file (disk (snd call)) = history_file (disk w)
         /\ In (saved_entry schedule metadata now')
              (ScheduleDataStore.load_schedules None (data_dir (disk (snd call))))
         /\ ScheduleDataStore.count_schedules (data_dir (disk w))
            <= ScheduleDataStore.count_schedules (data_dir (disk (snd call)))
            <= ScheduleDataStore.count_schedules (data_dir (disk w)) + 1
     | _ => call = (Raise AttributeError, w)
     end.
Proof.
  intros metadata call. split; [reflexivity|].
  destruct schedule as [| | | | |kv]; try reflexivity.
  intros _.
  unfold call, HybridScheduler.record_schedule_feedback, bind, get_disk,
    lift, modify_disk.
  destruct (save_schedule_dict now now' kv (Some metadata) (data_dir (disk w)))
    as (name & E & Hjson).
  unfold metadata in E at 1. rewrite E. clear E.
  cbn [fst snd self disk data_dir model_dir history_file].
  split; [reflexivity|]. split; [reflexivity|]. split; [reflexivity|].
  split; [reflexivity|]. split.
  - eapply loaded_if_listed; [apply write_file_in | exact Hjson | reflexivity].
  - rewrite write_file_count by exact Hjson.
    destruct (existsb _ _); lia.
Qed.

End FeedbackFacts.

Lemma feedback_recorded_witness :
  plain_file_name (saved_file_name (H := RefLibs.libs) (Examples.sec 2) Scenarios.run1)
  = true
  /\ fst (HybridScheduler.record_schedule_feedback (H := RefLibs.libs) CONFIG
            (Examples.sec 1) (Examples.sec 2) (Examples.sec 2) (PDict Scenarios.run1)
            (Some 80%Q) (Examples.fresh [])) = Ok tt
  /\ In (saved_entry (PDict Scenarios.run1)
           (PDict [("recorded_at", PStr (isoformat (Examples.sec 1)));
                   ("quality_score", PNum 80)])
           (Examples.sec 2))
       (ScheduleDataStore.load_schedules None
          (data_dir (disk (snd (HybridScheduler.record_schedule_feedback
                                  (H := RefLibs.libs) CONFIG (Examples.sec 1)
                                  (Examples.sec 2) (Examples.sec 2)
                                  (PDict Scenarios.run1) (Some 80%Q)
                                  (Examples.fresh [])))))).
Proof.
  assert (Hp : plain_file_name
                 (saved_file_name (H := RefLibs.libs) (Examples.sec 2) Scenarios.run1)
               = true) by (vm_compute; reflexivity).
  split; [exact Hp|].
  pose proof (feedback_recorded (H := RefLibs.libs) CONFIG (Examples.sec 1)
                (Examples.sec 2) (Examples.sec 2) (PDict Scenarios.run1) (Some 80%Q)
                (Examples.fresh [])) as Hx.
  cbv zeta in Hx. destruct Hx as (_ & Hx).
  destruct (Hx Hp) as (Hok & _ & _ & _ & Hin & _).
  split; [exact Hok | exact Hin].
Defined.

(* ================================================================= *)
(** ** The retraining loop *)

Section LoopFacts.
Context `{ExternalLibs}.
Variable cfg : TrainingConfig.

Lemma train_success_history t_check t_done t_save force w r w' :
  Trainer.train cfg t_check t_done t_save force w = (Ok r, w') ->
  success r = true ->
  exists entry,
    data_dir (disk w') = data_dir (disk w)
    /\ training_history (self w') = (training_history (self w) ++ [entry])%list
    /\ h_timestamp entry = isoformat t_done
    /\ history_file (disk w') = Some (training_history (self w'))
    /\ last_trained (self w') = Some t_done.
Proof.
  intros Ht Hs.
  destruct (train_success_world cfg _ _ _ _ _ _ _ Ht Hs)
    as (X & y & X_train & X_test & y_train & y_test & all_metrics & w1 & w2
        & _ & _ & Hloop & Hw & _ & _ & Hself & Hdisk & _).
  apply loop_frame in Hloop as (D1 & _ & _ & _ & T1).
  unfold start_run in D1, T1. cbn in D1, T1.
  apply compute_ensemble_weights_inv in Hw as (D2 & _ & _ & _ & _ & T2 & _).
  cbv zeta in Hself, Hdisk. rewrite save_model_world in Hdisk. cbn [snd disk self] in Hdisk.
  assert (Hhist : training_history (choose_best (self w2)) = training_history (self w)).
  { unfold choose_best. destruct (argmax_score _); cbn; rewrite T2, T1; reflexivity. }
  eexists. rewrite Hself, Hdisk.
  cbn [last_trained training_history set_training_history set_last_trained
       history_file set_history_file].
  rewrite Hhist.
  split.
  { destruct (Dict.is_empty _); cbn [data_dir set_history_file set_model_dir]; congruence. }
  split; [reflexivity|]. split; [reflexivity|]. split; reflexivity.
Qed.

Lemma run_pass_history p w :
  exists w',
    RetrainingService.run_pass cfg p w = (Ok tt, w')
    /\ data_dir (disk w') = data_dir (disk w)
    /\ ((training_history (self w') = training_history (self w)
         /\ history_file (disk w') = history_file (disk w)
         /\ last_trained (self w') = last_trained (self w))
        \/ exists entry,
             training_history (self w') = (training_history (self w) ++ [entry])%list
             /\ h_timestamp entry = isoformat (at_done p)
             /\ history_file (disk w') = Some (training_history (self w'))
             /\ last_trained (self w') = Some (at_done p)).
Proof.
  unfold RetrainingService.run_pass.
  destruct (Trainer.should_retrain cfg (at_loop p) (self w) (data_dir (disk w)));
    [|exists w; split; [reflexivity|]; split; [reflexivity|]; left; auto].
  destruct (Trainer.train cfg (at_check p) (at_done p) (at_save p) false w)
    as [[r|e] w'] eqn:Ht; exists w'; (split; [reflexivity|]).
  - destruct (success r) eqn:Hs.
    + destruct (train_success_history _ _ _ _ _ _ _ Ht Hs)
        as (entry & D & T & S & F & L).
      split; [exact D|]. right. exists entry. auto.
    + apply unsuccessful_run_world in Ht; [|exact Hs]. subst w'.
      split; [reflexivity|]. left. auto.
  - apply failed_run_frame in Ht as (D & L & T & _ & _).
    split; [congruence|]. left. rewrite D. auto.
Qed.

(** X18.  The retraining loop never raises and never touches the corpus.
    Over any number of passes the training history only grows, by at most
    one entry per pass, each stamped with the time its run was done; and the
    last-trained time is either as it was or the time a run of one of the
    passes was done. *)
Theorem run_loop_keeps_corpus passes w :
  exists w' added,
    RetrainingService._run_loop cfg passes w = (Ok tt, w')
    /\ data_dir (disk w') = data_dir (disk w)
    /\ training_history (self w') = (training_history (self w) ++ added)%list
    /\ (List.length added <= List.length passes)%nat
    /\ (forall entry,
          In entry added ->
          exists p, In p passes /\ h_timestamp entry = isoformat (at_done p))
    /\ (last_trained (self w') = last_trained (self w)
        \/ exists p, In p passes /\ last_trained (self w') = Some (at_done p)).
Proof.
  unfold RetrainingService._run_loop. revert w.
  induction passes as [|p passes IH]; intros w; cbn [foldM].
  - exists w, []. unfold ret. rewrite app_nil_r.
    split; [reflexivity|]. split; [reflexivity|]. split; [reflexivity|].
    split; [auto|]. split; [intros entry []|]. now left.
  - destruct (run_pass_history p w) as (w1 & Hp & D1 & Hcase).
    destruct (IH w1) as (w' & added & Hrest & D2 & T2 & Hlen & Hstamp & Hlast).
    unfold bind. rewrite Hp.
    assert (Hlater : forall q, In q passes -> In q (p :: passes)) by (intros; now right).
    destruct Hcase as [(T1 & F1 & L1)|(entry & T1 & S1 & F1 & L1)].
    + exists w', added. split; [exact Hrest|]. split; [congruence|].
      split; [congruence|]. split; [cbn [List.length]; lia|]. split.
      * intros e He. destruct (Hstamp e He) as (q & Hq & Hs). exists q. auto.
      * destruct Hlast as [L2|(q & Hq & L2)]; [left; congruence | right; exists q; auto].
    + exists w', (entry :: added). split; [exact Hrest|]. split; [congruence|].
      split; [rewrite T2, T1, <- app_assoc; reflexivity|].
      split; [cbn [List.length]; lia|]. split.
      * intros e [<-|He]; [exists p; split; [now left | exact S1]|].
        destruct (Hstamp e He) as (q & Hq & Hs). exists q. auto.
      * right. destruct Hlast as [L2|(q & Hq & L2)]; [|exists q; auto].
        exists p. split; [now left | congruence].
Qed.

End LoopFacts.

(* ================================================================= *)
(** ** Predictions and advice *)

Section PredictionFacts.
Context `{ExternalLibs}.
Variable cfg : TrainingConfig.

Lemma weighted_sum_range ms row lo hi weights :
  (forall m v, In m (Dict.values ms) -> est_predict m row = Ok v -> (lo <= v <= hi)%Q) ->
  (forall item, In item weights ->
     (0 <= snd item)%Q /\ Dict.mem ms (fst item) = true) ->
  forall acc p,
    rfold (fun prediction item =>
             match Dict.get ms (fst item) with
             | Some model =>
                 let? pred := est_predict model row in
                 Ok (prediction + snd item * pred)%Q
             | None => Ok prediction
             end) weights acc = Ok p ->
    (acc + lo * Qsum (Dict.values weights) <= p
     /\ p <= acc + hi * Qsum (Dict.values weights))%Q.
Proof.
  intros Hrange. induction weights as [|[name wt] weights IH]; intros Hw acc p.
  - cbn. intros E. injection E as <-. unfold Qsum. cbn. lra.
  - cbn [rfold fst snd].
    destruct (Hw (name, wt) (or_introl eq_refl)) as [Hpos Hmem]. cbn [fst snd] in Hpos, Hmem.
    unfold Dict.mem in Hmem.
    destruct (Dict.get ms name) as [model|] eqn:Eg; [|discriminate Hmem].
    destruct (est_predict model row) as [v|e] eqn:Ev; cbn [rbind]; [|discriminate].
    intros E. apply IH in E; [|intros item Hin; apply Hw; now right].
    destruct (Hrange model v (dict_get_in_values ms name model Eg) Ev) as [Hlo Hhi].
    unfold Dict.values in *. cbn [map snd]. rewrite Qsum_cons.
    set (rest := Qsum (map snd weights)) in *.
    assert (lo * wt <= wt * v)%Q by nra.
    assert (wt * v <= hi * wt)%Q by nra.
    rewrite !Qmult_plus_distr_r. lra.
Qed.

Lemma predict_confidence_le_one features use_ensemble w prediction confidence w' :
  Dict.is_empty (models (self w)) = false ->
  Trainer.predict cfg features use_ensemble w = (Ok (prediction, confidence), w') ->
  (confidence <= 1)%Q.
Proof.
  intros Hm. unfold Trainer.predict, bind, get_self, ret, lift. rewrite Hm.
  cbn [fst snd]. rewrite Hm.
  repeat match goal with
  | |- context [if ?c then _ else _] => destruct c
  | |- context [match ?x with _ => _ end] => destruct x
  end; intros E; try discriminate E; injection E as <- <- <-;
    first [apply ensemble_confidence_bounds | apply single_confidence_bounds].
Qed.

(** X19.  In ensemble mode, when no weight is negative, every weighted
    model is loaded and the weights sum to 1, the prediction lies between
    the smallest and the largest answer of the models, and the confidence
    within [0.5, 1]. *)
Theorem ensemble_prediction_in_range features use_ensemble w lo hi
    prediction confidence w' :
  Dict.is_empty (models (self w)) = false ->
  ensemble_mode cfg use_ensemble (self w) = true ->
  (forall item,
      In item (ensemble_weights (self w)) ->
      (0 <= snd item)%Q /\ Dict.mem (models (self w)) (fst item) = true) ->
  (Qsum (Dict.values (ensemble_weights (self w))) == 1)%Q ->
  (forall m v,
      In m (Dict.values (models (self w))) ->
      est_predict m (feature_vector cfg features) = Ok v -> (lo <= v <= hi)%Q) ->
  Trainer.predict cfg features use_ensemble w = (Ok (prediction, confidence), w') ->
  (lo <= prediction <= hi)%Q /\ (1 # 2 <= confidence <= 1)%Q.
Proof.
  intros Hm He Hw Hsum Hrange.
  unfold Trainer.predict, bind, get_self, ret, lift. rewrite Hm. cbn [fst snd].
  rewrite Hm. unfold ensemble_mode in He. rewrite He.
  fold (feature_vector cfg features).
  destruct (Trainer.weighted_prediction (models (self w)) (ensemble_weights (self w))
              (feature_vector cfg features)) as [p|e] eqn:Ep; [|discriminate].
  destruct (rmap _ (Dict.values (models (self w)))) as [predictions|e]; [|discriminate].
  intros E. injection E as <- <- <-.
  split; [|apply ensemble_confidence_bounds].
  unfold Trainer.weighted_prediction in Ep.
  apply (weighted_sum_range _ _ lo hi _ Hrange Hw) in Ep.
  rewrite Hsum in Ep. lra.
Qed.

Lemma should_use_ml_inv features w u c w' :
  HybridScheduler.should_use_ml cfg features w = (Ok (u, c), w') ->
  u = true ->
  USE_HYBRID cfg = true
  /\ Dict.is_empty (models (self w)) = false
  /\ (ML_CONFIDENCE_THRESHOLD cfg <= c <= 1)%Q.
Proof.
  unfold HybridScheduler.should_use_ml, bind, get_self, ret.
  destruct (USE_HYBRID cfg); cbn [negb];
    [|intros E Hu; injection E as <- _ _; discriminate Hu].
  destruct (Dict.is_empty (models (self w))) eqn:Hm;
    [intros E Hu; injection E as <- _ _; discriminate Hu|].
  destruct (Trainer.predict cfg features true w) as [[[p c0]|e] w1] eqn:Ep;
    [|discriminate].
  cbn [snd]. intros E Hu. injection E as <- <- _.
  split; [reflexivity|]. split; [reflexivity|]. split.
  - now apply Qle_bool_iff.
  - exact (predict_confidence_le_one _ _ _ _ _ _ Hm Ep).
Qed.

(** X20.  The scheduler advises the ML method only when the caller has ML
    available, hybrid mode is on, a model is loaded and the confidence of
    its prediction has reached the configured threshold; the confidence is
    never above 1, so with a threshold above 1 ML is never advised. *)
Theorem ml_only_when_confident now now' request ml_available w r w' :
  HybridScheduler.get_schedule_recommendation cfg now now' request ml_available w
  = (Ok r, w') ->
  use_ml r = true ->
  ml_available = true
  /\ USE_HYBRID cfg = true
  /\ Dict.is_empty (models (self w)) = false
  /\ (ML_CONFIDENCE_THRESHOLD cfg <= confidence r <= 1)%Q
  /\ threshold r = ML_CONFIDENCE_THRESHOLD cfg
  /\ method r = "ml".
Proof.
  unfold HybridScheduler.get_schedule_recommendation, bind, lift, ret.
  destruct (HybridScheduler.request_features now now' request) as [features|e];
    [|discriminate].
  destruct (HybridScheduler.should_use_ml cfg features w) as [[[u c]|e] w1] eqn:Eu;
    [|discriminate].
  intros E Hr. injection E as <- _. cbn in Hr |- *.
  apply andb_prop in Hr as [-> ->].
  destruct (should_use_ml_inv _ _ _ _ _ Eu eq_refl) as (Hh & Hm & Hc).
  auto 10.
Qed.

End PredictionFacts.

Lemma ensemble_prediction_in_range_witness :
  Dict.is_empty (models (self Examples.split_world)) = false
  /\ ensemble_mode CONFIG true (self Examples.split_world) = true
  /\ (forall item,
        In item (ensemble_weights (self Examples.split_world)) ->
        (0 <= snd item)%Q
        /\ Dict.mem (models (self Examples.split_world)) (fst item) = true)
  /\ (Qsum (Dict.values (ensemble_weights (self Examples.split_world))) == 1)%Q
  /\ (forall m v,
        In m (Dict.values (models (self Examples.split_world))) ->
        est_predict m (feature_vector CONFIG [("num_trains", PNum 30)]) = Ok v ->
        (30 <= v <= 70)%Q)
  /\ Trainer.predict (H := RefLibs.libs) CONFIG [("num_trains", PNum 30)] true
       Examples.split_world
     = (Ok (fst (Scenarios.answer_of Scenarios.split_prediction),
            snd (Scenarios.answer_of Scenarios.split_prediction)),
        snd Scenarios.split_prediction)
  /\ (30 <= fst (Scenarios.answer_of Scenarios.split_prediction) <= 70)%Q.
Proof.
  assert (Hm : Dict.is_empty (models (self Examples.split_world)) = false)
    by reflexivity.
  assert (He : ensemble_mode CONFIG true (self Examples.split_world) = true)
    by reflexivity.
  assert (Hw : forall item,
             In item (ensemble_weights (self Examples.split_world)) ->
             (0 <= snd item)%Q
             /\ Dict.mem (models (self Examples.split_world)) (fst item) = true).
  { intros item [<-|[<-|[]]]; split; vm_compute; (discriminate || reflexivity). }
  assert (Hs : (Qsum (Dict.values (ensemble_weights (self Examples.split_world))) == 1)%Q)
    by (vm_compute; reflexivity).
  assert (Hr : forall m v,
             In m (Dict.values (models (self Examples.split_world))) ->
             est_predict m (feature_vector CONFIG [("num_trains", PNum 30)]) = Ok v ->
             (30 <= v <= 70)%Q).
  { intros m v [<-|[<-|[]]] E; vm_compute in E; injection E as <-;
      split; vm_compute; discriminate. }
  assert (E : Trainer.predict (H := RefLibs.libs) CONFIG [("num_trains", PNum 30)] true
                Examples.split_world
              = (Ok (fst (Scenarios.answer_of Scenarios.split_prediction),
                     snd (Scenarios.answer_of Scenarios.split_prediction)),
                 snd Scenarios.split_prediction))
    by (vm_compute; reflexivity).
  split; [exact Hm|]. split; [exact He|]. split; [exact Hw|]. split; [exact Hs|].
  split; [exact Hr|]. split; [exact E|].
  exact (proj1 (ensemble_prediction_in_range (H := RefLibs.libs) CONFIG
                  [("num_trains", PNum 30)] true Examples.split_world 30 70
                  (fst (Scenarios.answer_of Scenarios.split_prediction))
                  (snd (Scenarios.answer_of Scenarios.split_prediction))
                  (snd Scenarios.split_prediction) Hm He Hw Hs Hr E)).
Defined.

Lemma ml_only_when_confident_witness :
  HybridScheduler.get_schedule_recommendation (H := RefLibs.libs) CONFIG
    Examples.t0 Examples.t0 Examples.request true Scenarios.agreeing_world
  = (Ok (Scenarios.advice_of Scenarios.agreeing_advice), snd Scenarios.agreeing_advice)
  /\ use_ml (Scenarios.advice_of Scenarios.agreeing_advice) = true
  /\ method (Scenarios.advice_of Scenarios.agreeing_advice) = "ml".
Proof.
  assert (E : HybridScheduler.get_schedule_recommendation (H := RefLibs.libs) CONFIG
                Examples.t0 Examples.t0 Examples.request true Scenarios.agreeing_world
              = (Ok (Scenarios.advice_of Scenarios.agreeing_advice),
                 snd Scenarios.agreeing_advice))
    by (vm_compute; reflexivity).
  assert (Hu : use_ml (Scenarios.advice_of Scenarios.agreeing_advice) = true)
    by (vm_compute; reflexivity).
  split; [exact E|]. split; [exact Hu|].
  destruct (ml_only_when_confident (H := RefLibs.libs) CONFIG Examples.t0 Examples.t0
              Examples.request true Scenarios.agreeing_world
              (Scenarios.advice_of Scenarios.agreeing_advice)
              (snd Scenarios.agreeing_advice) E Hu)
    as (_ & _ & _ & _ & _ & Hmeth).
  exact Hmeth.
Defined.
